(** * Order lifecycle and payment reconciliation

    A shallow embedding of the order and payment services of the backend
    ([modules/orders/orders.service.ts], [modules/payments/payments.service.ts],
    [common/services/paystack.service.ts]) together with the part of the
    Prisma schema they read and write ([prisma/migrations/.../migration.sql]).

    Conventions of the embedding.
    - A table is a finite map from its primary key [id] to a row; a row
      read back from the store is a pair [(id, row)].
    - A service method is a function of the store that returns an
      [Outcome] (the returned value or the exception thrown) and the store
      it leaves behind.
    - Money ([DECIMAL(10,2)]) is an integer number of pesewas; quantities
      and stock levels ([INTEGER]) are integers; instants ([TIMESTAMP]) are
      integers and the clock reading of a request is an argument [now].
    - The logger and the audit sink are outside the modelled store. *)

From Stdlib Require Import ZArith Lia.
From stdpp Require Import base option strings list gmap pretty.

Local Open Scope Z_scope.

(** ** Exceptions and outcomes *)

Inductive HttpException :=
| NotFoundException (message : string)
| BadRequestException (message : string)
| ForbiddenException (message : string)
| InternalServerError (message : string).

Inductive Outcome (A : Type) :=
| Return (a : A)
| Throw (e : HttpException).
Arguments Return {A} a.
Arguments Throw {A} e.

#[global] Instance Outcome_ret : MRet Outcome := fun A a => Return a.
#[global] Instance Outcome_bind : MBind Outcome := fun A B k m =>
  match m with
  | Return a => k a
  | Throw e => Throw e
  end.

(** JavaScript truthiness of an optional string: [undefined], [null] and the
    empty string are falsy. *)
Definition truthy (s : option string) : bool :=
  match s with
  | Some v => negb (String.eqb v "")
  | None => false
  end.

(** [a || b] on optional strings with a string default. *)
Definition or_default (s : option string) (d : string) : string :=
  match s with
  | Some v => if String.eqb v "" then d else v
  | None => d
  end.

(** ** Enumerations of the schema *)

Module OrderStatus.
Inductive t :=
| PLACED | ACCEPTED | PREPARING | READY_FOR_PICKUP | OUT_FOR_DELIVERY
| DELIVERED | COMPLETED | CANCELLED | FAILED | DISPUTED.

#[global] Instance eq_dec : EqDecision t.
Proof. solve_decision. Defined.

Definition to_string (s : t) : string :=
  match s with
  | PLACED => "PLACED"
  | ACCEPTED => "ACCEPTED"
  | PREPARING => "PREPARING"
  | READY_FOR_PICKUP => "READY_FOR_PICKUP"
  | OUT_FOR_DELIVERY => "OUT_FOR_DELIVERY"
  | DELIVERED => "DELIVERED"
  | COMPLETED => "COMPLETED"
  | CANCELLED => "CANCELLED"
  | FAILED => "FAILED"
  | DISPUTED => "DISPUTED"
  end.

Definition all : list t :=
  [PLACED; ACCEPTED; PREPARING; READY_FOR_PICKUP; OUT_FOR_DELIVERY;
   DELIVERED; COMPLETED; CANCELLED; FAILED; DISPUTED].
End OrderStatus.

Module PaymentStatus.
Inductive t := PENDING | PROCESSING | COMPLETED | FAILED | REFUNDED | DISPUTED.

#[global] Instance eq_dec : EqDecision t.
Proof. solve_decision. Defined.
End PaymentStatus.

Module StoreStatus.
Inductive t := DRAFT | PENDING_VERIFICATION | ACTIVE | SUSPENDED | DEACTIVATED.

#[global] Instance eq_dec : EqDecision t.
Proof. solve_decision. Defined.
End StoreStatus.

Module DeliveryOption.
Inductive t := PICKUP | MERCHANT_DELIVERY | CUSTOMER_ARRANGED.

#[global] Instance eq_dec : EqDecision t.
Proof. solve_decision. Defined.
End DeliveryOption.

Module PaymentMethod.
Inductive t := MOBILE_MONEY | CARD | BANK_TRANSFER | CASH_ON_DELIVERY.

#[global] Instance eq_dec : EqDecision t.
Proof. solve_decision. Defined.
End PaymentMethod.

(** ** Rows *)

Record Merchant := mkMerchant {
  merchant_userId : string;
}.

Record Store := mkStore {
  store_merchantId : string;
  store_status : StoreStatus.t;
  store_isPublished : bool;
}.

Record Product := mkProduct {
  product_storeId : string;
  product_name : string;
  product_description : option string;
  product_price : Z;
  product_sku : option string;
  product_trackInventory : bool;
  product_stockQuantity : option Z;
  product_isAvailable : bool;
  product_images : list string;
  product_orderCount : Z;
}.

Record ProductVariant := mkProductVariant {
  variant_productId : string;
  variant_name : string;
  variant_price : option Z;
  variant_stockQuantity : option Z;
  variant_isAvailable : bool;
}.

Record ProductSnapshot := mkProductSnapshot {
  snapshot_name : string;
  snapshot_description : option string;
  snapshot_images : list string;
  snapshot_sku : option string;
}.

Record OrderItem := mkOrderItem {
  item_productId : string;
  item_variantId : option string;
  item_productName : string;
  item_variantName : option string;
  item_price : Z;
  item_quantity : Z;
  item_subtotal : Z;
  item_productSnapshot : ProductSnapshot;
}.

Record StatusHistoryEntry := mkStatusHistoryEntry {
  entry_status : OrderStatus.t;
  entry_timestamp : Z;
  entry_note : string;
}.

Record Order := mkOrder {
  order_orderNumber : string;
  order_storeId : string;
  order_customerName : string;
  order_customerPhone : string;
  order_customerEmail : option string;
  order_status : OrderStatus.t;
  order_subtotal : Z;
  order_deliveryFee : Z;
  order_tax : Z;
  order_discount : Z;
  order_total : Z;
  order_deliveryOption : DeliveryOption.t;
  order_deliveryAddress : option string;
  order_deliveryCity : option string;
  order_deliveryArea : option string;
  order_deliveryNotes : option string;
  order_paymentMethod : PaymentMethod.t;
  order_paymentStatus : PaymentStatus.t;
  order_paidAt : option Z;
  order_trackingUrl : option string;
  order_statusHistory : list StatusHistoryEntry;
  order_customerNotes : option string;
  order_merchantNotes : option string;
  order_acceptedAt : option Z;
  order_preparingAt : option Z;
  order_readyAt : option Z;
  order_deliveredAt : option Z;
  order_completedAt : option Z;
  order_cancelledAt : option Z;
  order_cancellationReason : option string;
  order_items : list OrderItem;
}.

(** The transaction object the processor reports, in a webhook event or in
    the answer to a verification call. *)
Record PaystackData := mkPaystackData {
  data_reference : string;
  data_status : string;
  data_reason : string;
}.

Record Payment := mkPayment {
  payment_orderId : string;
  payment_amount : Z;
  payment_status : PaymentStatus.t;
  payment_paystackReference : string;
  payment_verifiedAt : option Z;
  payment_webhookReceived : bool;
  payment_webhookVerified : bool;
  payment_webhookPayload : option PaystackData;
}.

(** ** The store *)

Record DB := mkDB {
  merchants : gmap string Merchant;
  stores : gmap string Store;
  products : gmap string Product;
  productVariants : gmap string ProductVariant;
  orders : gmap string Order;
  payments : gmap string Payment;
}.

(** [findFirst]/[findUnique] on a column that is not the primary key. *)
Definition findFirst {A} (P : A -> bool) (table : gmap string A)
  : option (string * A) :=
  List.find (fun row => P row.2) (map_to_list table).

Definition merchant_findUnique_userId (db : DB) (userId : string) :=
  findFirst (fun m => String.eqb (merchant_userId m) userId) (merchants db).

Definition order_findUnique_orderNumber (db : DB) (orderNumber : string) :=
  findFirst (fun o => String.eqb (order_orderNumber o) orderNumber) (orders db).

Definition payment_findFirst_paystackReference (db : DB) (reference : string) :=
  findFirst (fun p => String.eqb (payment_paystackReference p) reference)
            (payments db).

(** ** Writes

    A Prisma [update] names the columns it sets; a column left [undefined]
    keeps its value. [{ increment: n }] and [{ decrement: n }] are evaluated
    by the database as [column = column + n] or [column = column - n], so a [NULL] column stays
    [NULL]. *)

Inductive NumberUpdate :=
| increment (n : Z)
| decrement (n : Z).

Definition numberDelta (u : NumberUpdate) : Z :=
  match u with
  | increment n => n
  | decrement n => - n
  end.

Definition applyNumberUpdate (u : NumberUpdate) (v : Z) : Z := v + numberDelta u.

Record OrderUpdateInput := mkOrderUpdateInput {
  set_status : option OrderStatus.t;
  set_merchantNotes : option string;
  set_trackingUrl : option string;
  set_statusHistory : option (list StatusHistoryEntry);
  set_paymentStatus : option PaymentStatus.t;
  set_paidAt : option Z;
  set_acceptedAt : option Z;
  set_preparingAt : option Z;
  set_readyAt : option Z;
  set_deliveredAt : option Z;
  set_completedAt : option Z;
  set_cancelledAt : option Z;
  set_cancellationReason : option string;
}.

Definition noOrderUpdate : OrderUpdateInput :=
  mkOrderUpdateInput None None None None None None None None None None None
                     None None.

(** A nullable column that the update may set. *)
Definition assign {A} (new : option A) (old : option A) : option A :=
  match new with
  | Some v => Some v
  | None => old
  end.

Definition applyOrderUpdate (d : OrderUpdateInput) (o : Order) : Order :=
  {| order_orderNumber := order_orderNumber o;
     order_storeId := order_storeId o;
     order_customerName := order_customerName o;
     order_customerPhone := order_customerPhone o;
     order_customerEmail := order_customerEmail o;
     order_status := default (order_status o) (set_status d);
     order_subtotal := order_subtotal o;
     order_deliveryFee := order_deliveryFee o;
     order_tax := order_tax o;
     order_discount := order_discount o;
     order_total := order_total o;
     order_deliveryOption := order_deliveryOption o;
     order_deliveryAddress := order_deliveryAddress o;
     order_deliveryCity := order_deliveryCity o;
     order_deliveryArea := order_deliveryArea o;
     order_deliveryNotes := order_deliveryNotes o;
     order_paymentMethod := order_paymentMethod o;
     order_paymentStatus := default (order_paymentStatus o) (set_paymentStatus d);
     order_paidAt := assign (set_paidAt d) (order_paidAt o);
     order_trackingUrl := assign (set_trackingUrl d) (order_trackingUrl o);
     order_statusHistory := default (order_statusHistory o) (set_statusHistory d);
     order_customerNotes := order_customerNotes o;
     order_merchantNotes := assign (set_merchantNotes d) (order_merchantNotes o);
     order_acceptedAt := assign (set_acceptedAt d) (order_acceptedAt o);
     order_preparingAt := assign (set_preparingAt d) (order_preparingAt o);
     order_readyAt := assign (set_readyAt d) (order_readyAt o);
     order_deliveredAt := assign (set_deliveredAt d) (order_deliveredAt o);
     order_completedAt := assign (set_completedAt d) (order_completedAt o);
     order_cancelledAt := assign (set_cancelledAt d) (order_cancelledAt o);
     order_cancellationReason :=
       assign (set_cancellationReason d) (order_cancellationReason o);
     order_items := order_items o |}.

(** The payment update of both reconciliation paths sets [status],
    [verifiedAt] (possibly to [null]) and [webhookPayload], and raises one
    of the two flags. *)
Record PaymentUpdateInput := mkPaymentUpdateInput {
  set_payment_status : PaymentStatus.t;
  set_verifiedAt : option Z;
  set_webhookReceived : option bool;
  set_webhookVerified : option bool;
  set_webhookPayload : PaystackData;
}.

Definition applyPaymentUpdate (d : PaymentUpdateInput) (p : Payment) : Payment :=
  {| payment_orderId := payment_orderId p;
     payment_amount := payment_amount p;
     payment_status := set_payment_status d;
     payment_paystackReference := payment_paystackReference p;
     payment_verifiedAt := set_verifiedAt d;
     payment_webhookReceived :=
       default (payment_webhookReceived p) (set_webhookReceived d);
     payment_webhookVerified :=
       default (payment_webhookVerified p) (set_webhookVerified d);
     payment_webhookPayload := Some (set_webhookPayload d) |}.

Definition with_products (f : gmap string Product -> gmap string Product)
  (db : DB) : DB :=
  {| merchants := merchants db; stores := stores db;
     products := f (products db); productVariants := productVariants db;
     orders := orders db; payments := payments db |}.

Definition with_productVariants
  (f : gmap string ProductVariant -> gmap string ProductVariant) (db : DB) : DB :=
  {| merchants := merchants db; stores := stores db;
     products := products db; productVariants := f (productVariants db);
     orders := orders db; payments := payments db |}.

Definition with_orders (f : gmap string Order -> gmap string Order)
  (db : DB) : DB :=
  {| merchants := merchants db; stores := stores db;
     products := products db; productVariants := productVariants db;
     orders := f (orders db); payments := payments db |}.

Definition with_payments (f : gmap string Payment -> gmap string Payment)
  (db : DB) : DB :=
  {| merchants := merchants db; stores := stores db;
     products := products db; productVariants := productVariants db;
     orders := orders db; payments := f (payments db) |}.

Definition product_setStock (u : NumberUpdate) (p : Product) : Product :=
  {| product_storeId := product_storeId p;
     product_name := product_name p;
     product_description := product_description p;
     product_price := product_price p;
     product_sku := product_sku p;
     product_trackInventory := product_trackInventory p;
     product_stockQuantity := applyNumberUpdate u <$> product_stockQuantity p;
     product_isAvailable := product_isAvailable p;
     product_images := product_images p;
     product_orderCount := product_orderCount p |}.

Definition product_setOrderCount (u : NumberUpdate) (p : Product) : Product :=
  {| product_storeId := product_storeId p;
     product_name := product_name p;
     product_description := product_description p;
     product_price := product_price p;
     product_sku := product_sku p;
     product_trackInventory := product_trackInventory p;
     product_stockQuantity := product_stockQuantity p;
     product_isAvailable := product_isAvailable p;
     product_images := product_images p;
     product_orderCount := applyNumberUpdate u (product_orderCount p) |}.

Definition variant_setStock (u : NumberUpdate) (v : ProductVariant)
  : ProductVariant :=
  {| variant_productId := variant_productId v;
     variant_name := variant_name v;
     variant_price := variant_price v;
     variant_stockQuantity := applyNumberUpdate u <$> variant_stockQuantity v;
     variant_isAvailable := variant_isAvailable v |}.

(** The writes the two services issue. *)
Inductive Write :=
| OrderCreate (id : string) (o : Order)
| OrderUpdate (id : string) (data : OrderUpdateInput)
| ProductUpdateStock (id : string) (u : NumberUpdate)
| ProductUpdateOrderCount (id : string) (u : NumberUpdate)
| ProductVariantUpdateStock (id : string) (u : NumberUpdate)
| PaymentUpdate (id : string) (data : PaymentUpdateInput).

(** The foreign keys of [order_items] ([productId], and [variantId] when it
    is not [NULL]) and of [orders] ([storeId]). *)
Definition itemReferencesHold (db : DB) (i : OrderItem) : bool :=
  bool_decide (is_Some (products db !! item_productId i)) &&
  match item_variantId i with
  | Some v => bool_decide (is_Some (productVariants db !! v))
  | None => true
  end.

(** One write against the store; [None] when the client throws: an
    [update] whose row does not exist, a [create] that violates the primary
    key, the unique index on [orderNumber] or a foreign key. *)
Definition applyWrite (w : Write) (db : DB) : option DB :=
  match w with
  | OrderCreate id o =>
      if bool_decide (is_Some (orders db !! id))
         || bool_decide (is_Some (order_findUnique_orderNumber db (order_orderNumber o)))
         || negb (bool_decide (is_Some (stores db !! order_storeId o)))
         || negb (forallb (itemReferencesHold db) (order_items o))
      then None
      else Some (with_orders (insert id o) db)
  | OrderUpdate id data =>
      o ← orders db !! id;
      Some (with_orders (insert id (applyOrderUpdate data o)) db)
  | ProductUpdateStock id u =>
      p ← products db !! id;
      Some (with_products (insert id (product_setStock u p)) db)
  | ProductUpdateOrderCount id u =>
      p ← products db !! id;
      Some (with_products (insert id (product_setOrderCount u p)) db)
  | ProductVariantUpdateStock id u =>
      v ← productVariants db !! id;
      Some (with_productVariants (insert id (variant_setStock u v)) db)
  | PaymentUpdate id data =>
      p ← payments db !! id;
      Some (with_payments (insert id (applyPaymentUpdate data p)) db)
  end.

(** [prisma.$transaction]: the writes in order, all or none. *)
Fixpoint applyWrites (ws : list Write) (db : DB) : option DB :=
  match ws with
  | [] => Some db
  | w :: rest => db' ← applyWrite w db; applyWrites rest db'
  end.

Definition transaction {A} (ws : list Write) (result : A) (db : DB)
  : Outcome A * DB :=
  match applyWrites ws db with
  | Some db' => (Return result, db')
  | None => (Throw (InternalServerError "PrismaClientKnownRequestError"), db)
  end.

(** ** Request bodies of the orders module ([orders/dto]) *)

Record CreateOrderItemDto := mkCreateOrderItemDto {
  dto_productId : string;
  dto_variantId : option string;
  dto_quantity : Z;
}.

#[global] Instance CreateOrderItemDto_eq_dec : EqDecision CreateOrderItemDto.
Proof. solve_decision. Defined.

Record CreateOrderDto := mkCreateOrderDto {
  dto_storeId : string;
  dto_customerName : string;
  dto_customerPhone : string;
  dto_customerEmail : option string;
  dto_items : list CreateOrderItemDto;
  dto_deliveryOption : DeliveryOption.t;
  dto_deliveryAddress : option string;
  dto_deliveryCity : option string;
  dto_deliveryArea : option string;
  dto_deliveryNotes : option string;
  dto_paymentMethod : PaymentMethod.t;
  dto_customerNotes : option string;
}.

Record UpdateOrderStatusDto := mkUpdateOrderStatusDto {
  dto_status : option OrderStatus.t;
  dto_merchantNotes : option string;
  dto_trackingUrl : option string;
}.

Record CancelOrderDto := mkCancelOrderDto {
  dto_cancellationReason : option string;
}.

Record CancelOrderResult := mkCancelOrderResult {
  result_message : string;
  result_orderNumber : string;
}.

(** A product row read with [include: { variants: true }]. *)
Record ProductWithVariants := mkProductWithVariants {
  pwv_id : string;
  pwv_product : Product;
  pwv_variants : list (string * ProductVariant);
}.

(** ** OrdersService *)

Module OrdersService.
Import OrderStatus.

(** [prisma.product.findMany] with the [where] clause of [createOrder]:
    [id in productIds], the requested store, [isAvailable]. *)
Definition product_findMany (db : DB) (productIds : list string)
  (storeId : string) : list ProductWithVariants :=
  (fun kp : string * Product =>
     mkProductWithVariants kp.1 kp.2
       (map_to_list
          (filter (fun kv : string * ProductVariant =>
                     variant_productId kv.2 = kp.1) (productVariants db))))
  <$> map_to_list
        (filter (fun kp : string * Product =>
                   kp.1 ∈ productIds
                   ∧ product_storeId kp.2 = storeId
                   ∧ product_isAvailable kp.2 = true) (products db)).

Definition findProduct (products : list ProductWithVariants) (productId : string)
  : option ProductWithVariants :=
  List.find (fun p => String.eqb (pwv_id p) productId) products.

Definition findVariant (variants : list (string * ProductVariant))
  (variantId : string) : option (string * ProductVariant) :=
  List.find (fun v => String.eqb v.1 variantId) variants.

(** The variant branch of the loop body: effective price, variant name and
    effective stock counter of a line. *)
Definition resolveLine (p : ProductWithVariants) (item : CreateOrderItemDto)
  : Outcome (Z * option string * option Z) :=
  let product := pwv_product p in
  if truthy (dto_variantId item) then
    let variantId := default "" (dto_variantId item) in
    match findVariant (pwv_variants p) variantId with
    | Some (_, variant) =>
        if variant_isAvailable variant then
          Return (default (product_price product) (variant_price variant),
                  Some (variant_name variant),
                  variant_stockQuantity variant)
        else
          Throw (BadRequestException ("Variant " +:+ variantId +:+ " not available"))
    | None =>
        Throw (BadRequestException ("Variant " +:+ variantId +:+ " not available"))
    end
  else
    Return (product_price product, None, product_stockQuantity product).

(** The stock validation of the loop body. *)
Definition validateStock (product : Product) (stockQuantity : option Z)
  (quantity : Z) : Outcome unit :=
  if product_trackInventory product then
    match stockQuantity with
    | Some s =>
        if s <? quantity then
          Throw (BadRequestException
                   ("Insufficient stock for " +:+ product_name product
                    +:+ ". Available: " +:+ pretty s))
        else Return ()
    | None => Return ()
    end
  else Return ().

(** The body of the validation loop for one line of the cart. *)
Definition validateItem (products : list ProductWithVariants)
  (item : CreateOrderItemDto) : Outcome OrderItem :=
  match findProduct products (dto_productId item) with
  | None =>
      Throw (BadRequestException
               ("Product " +:+ dto_productId item +:+ " not found"))
  | Some p =>
      let product := pwv_product p in
      '(price, variantName, stockQuantity) ← resolveLine p item;
      _ ← validateStock product stockQuantity (dto_quantity item);
      Return {| item_productId := dto_productId item;
                item_variantId := dto_variantId item;
                item_productName := product_name product;
                item_variantName := variantName;
                item_price := price;
                item_quantity := dto_quantity item;
                item_subtotal := price * dto_quantity item;
                item_productSnapshot :=
                  {| snapshot_name := product_name product;
                     snapshot_description := product_description product;
                     snapshot_images := product_images product;
                     snapshot_sku := product_sku product |} |}
  end.

(** The validation loop: the first line that fails throws. *)
Fixpoint validateItems (products : list ProductWithVariants)
  (items : list CreateOrderItemDto) (subtotal : Z) (orderItems : list OrderItem)
  : Outcome (Z * list OrderItem) :=
  match items with
  | [] => Return (subtotal, orderItems)
  | item :: rest =>
      match validateItem products item with
      | Throw e => Throw e
      | Return orderItem =>
          validateItems products rest (subtotal + item_subtotal orderItem)
                        (orderItems ++ [orderItem])
      end
  end.

(** The fee table, in pesewas. Only the table's own keys are modelled. *)
Definition cityFees : gmap string Z :=
  list_to_map
    [("Accra", 1500); ("Kumasi", 1500); ("Tema", 2000); ("Takoradi", 2500);
     ("Tamale", 3000); ("Cape Coast", 2500)].

Definition calculateDeliveryFee (deliveryOption : DeliveryOption.t)
  (deliveryCity : option string) : Z :=
  match deliveryOption with
  | DeliveryOption.PICKUP => 0
  | DeliveryOption.CUSTOMER_ARRANGED => 0
  | DeliveryOption.MERCHANT_DELIVERY =>
      match cityFees !! or_default deliveryCity "" with
      | Some fee => if fee =? 0 then 2000 else fee
      | None => 2000
      end
  end.

(** [generateOrderNumber] draws a candidate from the clock and the random
    generator and retries while the candidate is taken. [draws] lists the
    successive candidates; [None] when every one of them is taken. *)
Fixpoint generateOrderNumber (db : DB) (draws : list string) : option string :=
  match draws with
  | [] => None
  | orderNumber :: rest =>
      match order_findUnique_orderNumber db orderNumber with
      | Some _ => generateOrderNumber db rest
      | None => Some orderNumber
      end
  end.

(** The writes of the creation transaction for one line: the stock
    decrement when the product tracks inventory, then the order count. *)
Definition createItemWrites (products : list ProductWithVariants)
  (item : CreateOrderItemDto) : list Write :=
  match findProduct products (dto_productId item) with
  | Some p =>
      if product_trackInventory (pwv_product p) then
        if truthy (dto_variantId item) then
          [ProductVariantUpdateStock (default "" (dto_variantId item))
                                     (decrement (dto_quantity item))]
        else
          [ProductUpdateStock (dto_productId item) (decrement (dto_quantity item))]
      else []
  | None => []
  end
  ++ [ProductUpdateOrderCount (dto_productId item) (increment (dto_quantity item))].

(** The statements of the creation transaction, in order: the order row
    with its items, then the writes of every line. *)
Definition createOrderWrites (newId : string) (order : Order)
  (products : list ProductWithVariants) (items : list CreateOrderItemDto)
  : list Write :=
  OrderCreate newId order :: concat (createItemWrites products <$> items).

Definition newOrder (orderNumber : string) (now : Z) (dto : CreateOrderDto)
  (subtotal deliveryFee tax discount total : Z) (orderItems : list OrderItem)
  : Order :=
  {| order_orderNumber := orderNumber;
     order_storeId := dto_storeId dto;
     order_customerName := dto_customerName dto;
     order_customerPhone := dto_customerPhone dto;
     order_customerEmail := dto_customerEmail dto;
     order_status := PLACED;
     order_subtotal := subtotal;
     order_deliveryFee := deliveryFee;
     order_tax := tax;
     order_discount := discount;
     order_total := total;
     order_deliveryOption := dto_deliveryOption dto;
     order_deliveryAddress := dto_deliveryAddress dto;
     order_deliveryCity := dto_deliveryCity dto;
     order_deliveryArea := dto_deliveryArea dto;
     order_deliveryNotes := dto_deliveryNotes dto;
     order_paymentMethod := dto_paymentMethod dto;
     order_paymentStatus :=
       if bool_decide (dto_paymentMethod dto = PaymentMethod.CASH_ON_DELIVERY)
       then PaymentStatus.PENDING else PaymentStatus.PENDING;
     order_paidAt := None;
     order_trackingUrl := None;
     order_statusHistory := [mkStatusHistoryEntry PLACED now "Order placed"];
     order_customerNotes := dto_customerNotes dto;
     order_merchantNotes := None;
     order_acceptedAt := None;
     order_preparingAt := None;
     order_readyAt := None;
     order_deliveredAt := None;
     order_completedAt := None;
     order_cancelledAt := None;
     order_cancellationReason := None;
     order_items := orderItems |}.

(** [createOrder]. [newId] is the primary key the client generates for the
    order row, [draws] the candidates of [generateOrderNumber]. The result
    is [None] only when [generateOrderNumber] exhausts [draws]. *)
Definition createOrder (newId : string) (draws : list string) (now : Z)
  (dto : CreateOrderDto) (db : DB) : option (Outcome (string * Order) * DB) :=
  match stores db !! dto_storeId dto with
  | None => Some (Throw (NotFoundException "Store not found"), db)
  | Some store =>
    if negb (bool_decide (store_status store = StoreStatus.ACTIVE))
       || negb (store_isPublished store)
    then Some (Throw (BadRequestException "Store is not available for orders"), db)
    else if bool_decide (dto_deliveryOption dto = DeliveryOption.MERCHANT_DELIVERY)
            && (negb (truthy (dto_deliveryAddress dto))
                || negb (truthy (dto_deliveryCity dto)))
    then Some (Throw (BadRequestException
                 "Delivery address and city are required for merchant delivery"),
               db)
    else
      let productIds := dto_productId <$> dto_items dto in
      let products := product_findMany db productIds (dto_storeId dto) in
      if negb (Nat.eqb (length products) (length productIds))
      then Some (Throw (BadRequestException "Some products are not available"), db)
      else
        match validateItems products (dto_items dto) 0 [] with
        | Throw e => Some (Throw e, db)
        | Return (subtotal, orderItems) =>
            let deliveryFee :=
              calculateDeliveryFee (dto_deliveryOption dto) (dto_deliveryCity dto) in
            let tax := 0 in
            let discount := 0 in
            let total := subtotal + deliveryFee + tax - discount in
            orderNumber ← generateOrderNumber db draws;
            let order :=
              newOrder orderNumber now dto subtotal deliveryFee tax discount total
                       orderItems in
            Some (transaction
                    (createOrderWrites newId order products (dto_items dto))
                    (newId, order) db)
        end
  end.

(** [getOrderByNumber], the public tracking lookup. *)
Definition getOrderByNumber (orderNumber : string) (customerPhone : option string)
  (db : DB) : Outcome (string * Order) :=
  match order_findUnique_orderNumber db orderNumber with
  | None => Throw (NotFoundException "Order not found")
  | Some (id, order) =>
      if truthy customerPhone
         && negb (bool_decide (Some (order_customerPhone order) = customerPhone))
      then Throw (ForbiddenException "Invalid order number or phone number")
      else Return (id, order)
  end.

(** The table of [validateStatusTransition]; every status has an entry. *)
Definition validTransitions (currentStatus : OrderStatus.t) : list OrderStatus.t :=
  match currentStatus with
  | PLACED => [ACCEPTED; CANCELLED]
  | ACCEPTED => [PREPARING; CANCELLED]
  | PREPARING => [READY_FOR_PICKUP; OUT_FOR_DELIVERY; CANCELLED]
  | READY_FOR_PICKUP => [COMPLETED; CANCELLED]
  | OUT_FOR_DELIVERY => [DELIVERED; FAILED]
  | DELIVERED => [COMPLETED; DISPUTED]
  | COMPLETED => [DISPUTED]
  | CANCELLED => []
  | FAILED => [PLACED]
  | DISPUTED => []
  end.

Definition statusText (s : option OrderStatus.t) : string :=
  match s with
  | Some v => to_string v
  | None => "undefined"
  end.

(** [Array.prototype.includes] on the entry of the current status; an absent
    new status is in no entry. *)
Definition includesStatus (l : list OrderStatus.t) (s : option OrderStatus.t)
  : bool :=
  match s with
  | Some v => bool_decide (v ∈ l)
  | None => false
  end.

Definition validateStatusTransition (currentStatus : OrderStatus.t)
  (newStatus : option OrderStatus.t) : Outcome unit :=
  if negb (includesStatus (validTransitions currentStatus) newStatus)
  then Throw (BadRequestException
                ("Cannot transition from " +:+ to_string currentStatus
                 +:+ " to " +:+ statusText newStatus))
  else Return ().

Definition stamp (now : Z) (newStatus : option OrderStatus.t) (s : OrderStatus.t)
  : option Z :=
  if bool_decide (newStatus = Some s) then Some now else None.

(** [updateOrderStatus] (merchant only). *)
Definition updateOrderStatus (now : Z) (userId : string) (orderId : string)
  (dto : UpdateOrderStatusDto) (db : DB) : Outcome (string * Order) * DB :=
  match orders db !! orderId with
  | None => (Throw (NotFoundException "Order not found"), db)
  | Some order =>
    match merchant_findUnique_userId db userId, stores db !! order_storeId order with
    | None, _ => (Throw (ForbiddenException "You do not own this order"), db)
    | Some _, None => (Throw (InternalServerError "TypeError"), db)
    | Some (merchantId, _), Some store =>
      if negb (String.eqb (store_merchantId store) merchantId)
      then (Throw (ForbiddenException "You do not own this order"), db)
      else
        match validateStatusTransition (order_status order) (dto_status dto) with
        | Throw e => (Throw e, db)
        | Return _ =>
            let statusHistory :=
              order_statusHistory order ++
              match dto_status dto with
              | Some s =>
                  [mkStatusHistoryEntry s now
                     (or_default (dto_merchantNotes dto)
                                 ("Status updated to " +:+ to_string s))]
              | None => []
              end in
            let data :=
              {| set_status := dto_status dto;
                 set_merchantNotes := dto_merchantNotes dto;
                 set_trackingUrl := dto_trackingUrl dto;
                 set_statusHistory := Some statusHistory;
                 set_paymentStatus := None;
                 set_paidAt := None;
                 set_acceptedAt := stamp now (dto_status dto) ACCEPTED;
                 set_preparingAt := stamp now (dto_status dto) PREPARING;
                 set_readyAt := stamp now (dto_status dto) READY_FOR_PICKUP;
                 set_deliveredAt := stamp now (dto_status dto) DELIVERED;
                 set_completedAt := stamp now (dto_status dto) COMPLETED;
                 set_cancelledAt := stamp now (dto_status dto) CANCELLED;
                 set_cancellationReason := None |} in
            transaction [OrderUpdate orderId data]
                        (orderId, applyOrderUpdate data order) db
        end
    end
  end.

(** The stock restoration of [cancelOrder] for one stored line; the
    product is the one the line refers to, read with the order. [None] when
    that row is missing (the relation is required). *)
Definition cancelItemWrites (db : DB) (item : OrderItem) : option (list Write) :=
  product ← products db !! item_productId item;
  Some (if product_trackInventory product then
          if truthy (item_variantId item) then
            [ProductVariantUpdateStock (default "" (item_variantId item))
                                       (increment (item_quantity item))]
          else
            [ProductUpdateStock (item_productId item) (increment (item_quantity item))]
        else []).

(** The merchant-only check of [cancelOrder]: made when the order is past
    [PLACED] and the caller presents a user id. *)
Definition merchantOnlyCheck (db : DB) (order : Order) (userId : option string)
  : Outcome unit :=
  if negb (bool_decide (order_status order = PLACED)) && truthy userId then
    match merchant_findUnique_userId db (default "" userId),
          stores db !! order_storeId order with
    | None, _ =>
        Throw (ForbiddenException "Only merchant can cancel accepted orders")
    | Some _, None => Throw (InternalServerError "TypeError")
    | Some (merchantId, _), Some store =>
        if negb (String.eqb (store_merchantId store) merchantId)
        then Throw (ForbiddenException "Only merchant can cancel accepted orders")
        else Return ()
    end
  else Return ().

(** [cancelOrder]. *)
Definition cancelOrder (now : Z) (orderId : string) (dto : CancelOrderDto)
  (userId : option string) (db : DB) : Outcome CancelOrderResult * DB :=
  match orders db !! orderId with
  | None => (Throw (NotFoundException "Order not found"), db)
  | Some order =>
    if bool_decide (order_status order ∈ [DELIVERED; COMPLETED; CANCELLED])
    then (Throw (BadRequestException
                   ("Cannot cancel order with status "
                    +:+ to_string (order_status order))), db)
    else
      match merchantOnlyCheck db order userId with
      | Throw e => (Throw e, db)
      | Return _ =>
          let statusHistory :=
            order_statusHistory order ++
            [mkStatusHistoryEntry CANCELLED now
               (or_default (dto_cancellationReason dto) "Order cancelled")] in
          let data :=
            {| set_status := Some CANCELLED;
               set_merchantNotes := None;
               set_trackingUrl := None;
               set_statusHistory := Some statusHistory;
               set_paymentStatus := None;
               set_paidAt := None;
               set_acceptedAt := None;
               set_preparingAt := None;
               set_readyAt := None;
               set_deliveredAt := None;
               set_completedAt := None;
               set_cancelledAt := Some now;
               set_cancellationReason := dto_cancellationReason dto |} in
          match mapM (cancelItemWrites db) (order_items order) with
          | None => (Throw (InternalServerError "TypeError"), db)
          | Some restores =>
              transaction (OrderUpdate orderId data :: concat restores)
                {| result_message := "Order cancelled successfully";
                   result_orderNumber := order_orderNumber order |} db
          end
      end
  end.

End OrdersService.

(** ** PaystackService

    The processor client. The secret key comes from the configuration; the
    keyed hash of [crypto] and the processor's answer to a verification
    call are supplied from outside. *)

Record PaystackService := mkPaystackService {
  secretKey : string;
  (** [createHmac('sha512', key).update(body).digest('hex')] *)
  hmacSha512Hex : string -> string -> string;
  (** [GET /transaction/verify/:reference]: the data of the answer, or the
      exception of a failed call. *)
  verifyTransaction : string -> Outcome PaystackData;
}.

(** The signature header may be absent; [hash === signature] then fails. *)
Definition verifyWebhookSignature (paystack : PaystackService)
  (signature : option string) (body : string) : bool :=
  let hash := hmacSha512Hex paystack (secretKey paystack) body in
  bool_decide (Some hash = signature).

Record WebhookEvent := mkWebhookEvent {
  event_event : string;
  event_data : PaystackData;
}.

Record VerifyPaymentResult := mkVerifyPaymentResult {
  result_payment : string * Payment;
  result_verified : bool;
  result_verifyMessage : string;
}.

(** ** PaymentsService *)

Module PaymentsService.

Definition prismaError : HttpException :=
  InternalServerError "PrismaClientKnownRequestError".

Definition isSuccess (paystackData : PaystackData) : bool :=
  String.eqb (data_status paystackData) "success".

(** The [data] of the payment update of [verifyPayment]. *)
Definition verifyPaymentUpdate (now : Z) (paystackData : PaystackData)
  : PaymentUpdateInput :=
  {| set_payment_status :=
       if isSuccess paystackData then PaymentStatus.COMPLETED
       else PaymentStatus.FAILED;
     set_verifiedAt := if isSuccess paystackData then Some now else None;
     set_webhookReceived := None;
     set_webhookVerified := Some true;
     set_webhookPayload := paystackData |}.

(** The [data] of the payment update of [handleChargeSuccess]. *)
Definition chargeSuccessUpdate (now : Z) (data : PaystackData)
  : PaymentUpdateInput :=
  {| set_payment_status := PaymentStatus.COMPLETED;
     set_verifiedAt := Some now;
     set_webhookReceived := Some true;
     set_webhookVerified := None;
     set_webhookPayload := data |}.

(** The [data] of the order update of both paths. *)
Definition paidOrderUpdate (now : Z) : OrderUpdateInput :=
  {| set_status := Some OrderStatus.PREPARING;
     set_merchantNotes := None;
     set_trackingUrl := None;
     set_statusHistory := None;
     set_paymentStatus := Some PaymentStatus.COMPLETED;
     set_paidAt := Some now;
     set_acceptedAt := None;
     set_preparingAt := None;
     set_readyAt := None;
     set_deliveredAt := None;
     set_completedAt := None;
     set_cancelledAt := None;
     set_cancellationReason := None |}.

Definition verifyMessage (paystackData : PaystackData) : string :=
  if isSuccess paystackData then "Payment successful" else "Payment failed".

(** [verifyPayment], the poll path. The two updates are separate
    statements: there is no transaction around them. *)
Definition verifyPayment (paystack : PaystackService) (now : Z)
  (reference : string) (db : DB) : Outcome VerifyPaymentResult * DB :=
  match verifyTransaction paystack reference with
  | Throw e => (Throw e, db)
  | Return paystackData =>
    match payment_findFirst_paystackReference db reference with
    | None => (Throw (NotFoundException "Payment not found"), db)
    | Some (id, payment) =>
      match applyWrite (PaymentUpdate id (verifyPaymentUpdate now paystackData)) db with
      | None => (Throw prismaError, db)
      | Some db1 =>
        let result :=
          {| result_payment :=
               (id, default payment (payments db1 !! id));
             result_verified := isSuccess paystackData;
             result_verifyMessage := verifyMessage paystackData |} in
        if isSuccess paystackData then
          match applyWrite (OrderUpdate (payment_orderId payment)
                                        (paidOrderUpdate now)) db1 with
          | None => (Throw prismaError, db1)
          | Some db2 => (Return result, db2)
          end
        else (Return result, db1)
      end
    end
  end.

(** [handleChargeSuccess], the webhook path. *)
Definition handleChargeSuccess (now : Z) (data : PaystackData) (db : DB)
  : Outcome unit * DB :=
  match payment_findFirst_paystackReference db (data_reference data) with
  | Some (id, payment) =>
    if bool_decide (payment_status payment = PaymentStatus.PENDING) then
      match applyWrite (PaymentUpdate id (chargeSuccessUpdate now data)) db with
      | None => (Throw prismaError, db)
      | Some db1 =>
        match applyWrite (OrderUpdate (payment_orderId payment)
                                      (paidOrderUpdate now)) db1 with
        | None => (Throw prismaError, db1)
        | Some db2 => (Return (), db2)
        end
      end
    else (Return (), db)
  | None => (Return (), db)
  end.

(** [handleWebhook]. [JSON_parse] is the parser applied to the raw body;
    [None] is its [SyntaxError]. The transfer events are logged only. *)
Definition handleWebhook (paystack : PaystackService)
  (JSON_parse : string -> option WebhookEvent) (now : Z)
  (signature : option string) (body : string) (db : DB) : Outcome string * DB :=
  if negb (verifyWebhookSignature paystack signature body)
  then (Throw (BadRequestException "Invalid webhook signature"), db)
  else
    match JSON_parse body with
    | None => (Throw (InternalServerError "SyntaxError"), db)
    | Some event =>
      if String.eqb (event_event event) "charge.success" then
        match handleChargeSuccess now (event_data event) db with
        | (Throw e, db') => (Throw e, db')
        | (Return _, db') => (Return "success", db')
        end
      else (Return "success", db)
    end.

End PaymentsService.

(** ** Concurrent reconciliation

    Every [await] of a service method hands one statement to the store and
    resumes when the store answers; statements of different requests
    interleave. A request is a thread whose state is the point it has
    reached together with the values it holds; one step executes its next
    statement against the shared store. *)

Module Reconciliation.
Import PaymentsService.

Inductive Caller := Webhook | Poll.

#[global] Instance Caller_eq_dec : EqDecision Caller.
Proof. solve_decision. Defined.

(** The points of [handleChargeSuccess]. *)
Inductive WebhookThread :=
| W_start (data : PaystackData)
| W_updatePayment (data : PaystackData) (id : string) (payment : Payment)
| W_updateOrder (payment : Payment)
| W_done
| W_threw (e : HttpException).

(** The points of [verifyPayment]. *)
Inductive PollThread :=
| V_start (reference : string)
| V_findPayment (reference : string) (paystackData : PaystackData)
| V_updatePayment (paystackData : PaystackData) (id : string) (payment : Payment)
| V_updateOrder (paystackData : PaystackData) (payment : Payment)
    (result : VerifyPaymentResult)
| V_done (result : VerifyPaymentResult)
| V_threw (e : HttpException).

(** What a step did to the store. *)
Inductive Action :=
| Observed (payment : option Payment)
| Issued (w : Write).

Definition webhook_step (now : Z) (t : WebhookThread) (db : DB)
  : WebhookThread * DB * list Action :=
  match t with
  | W_start data =>
    match payment_findFirst_paystackReference db (data_reference data) with
    | Some (id, payment) =>
      (if bool_decide (payment_status payment = PaymentStatus.PENDING)
       then W_updatePayment data id payment else W_done,
       db, [Observed (Some payment)])
    | None => (W_done, db, [Observed None])
    end
  | W_updatePayment data id payment =>
    let w := PaymentUpdate id (chargeSuccessUpdate now data) in
    match applyWrite w db with
    | None => (W_threw prismaError, db, [Issued w])
    | Some db1 => (W_updateOrder payment, db1, [Issued w])
    end
  | W_updateOrder payment =>
    let w := OrderUpdate (payment_orderId payment) (paidOrderUpdate now) in
    match applyWrite w db with
    | None => (W_threw prismaError, db, [Issued w])
    | Some db2 => (W_done, db2, [Issued w])
    end
  | W_done => (W_done, db, [])
  | W_threw e => (W_threw e, db, [])
  end.

Definition poll_step (paystack : PaystackService) (now : Z) (t : PollThread)
  (db : DB) : PollThread * DB * list Action :=
  match t with
  | V_start reference =>
    match verifyTransaction paystack reference with
    | Throw e => (V_threw e, db, [])
    | Return paystackData => (V_findPayment reference paystackData, db, [])
    end
  | V_findPayment reference paystackData =>
    match payment_findFirst_paystackReference db reference with
    | None => (V_threw (NotFoundException "Payment not found"), db, [Observed None])
    | Some (id, payment) =>
      (V_updatePayment paystackData id payment, db, [Observed (Some payment)])
    end
  | V_updatePayment paystackData id payment =>
    let w := PaymentUpdate id (verifyPaymentUpdate now paystackData) in
    match applyWrite w db with
    | None => (V_threw prismaError, db, [Issued w])
    | Some db1 =>
      let result :=
        {| result_payment := (id, default payment (payments db1 !! id));
           result_verified := isSuccess paystackData;
           result_verifyMessage := verifyMessage paystackData |} in
      (if isSuccess paystackData
       then V_updateOrder paystackData payment result else V_done result,
       db1, [Issued w])
    end
  | V_updateOrder paystackData payment result =>
    let w := OrderUpdate (payment_orderId payment) (paidOrderUpdate now) in
    match applyWrite w db with
    | None => (V_threw prismaError, db, [Issued w])
    | Some db2 => (V_done result, db2, [Issued w])
    end
  | V_done result => (V_done result, db, [])
  | V_threw e => (V_threw e, db, [])
  end.

Record System := mkSystem {
  sys_db : DB;
  sys_webhook : WebhookThread;
  sys_poll : PollThread;
  sys_log : list (Caller * Action);
}.

(** One step of the system: the scheduled caller executes its next
    statement. Each request reads its own clock. *)
Definition step (paystack : PaystackService) (now : Caller -> Z) (c : Caller)
  (s : System) : System :=
  match c with
  | Webhook =>
    let '(t, db, acts) := webhook_step (now Webhook) (sys_webhook s) (sys_db s) in
    mkSystem db t (sys_poll s) (sys_log s ++ (pair Webhook <$> acts))
  | Poll =>
    let '(t, db, acts) := poll_step paystack (now Poll) (sys_poll s) (sys_db s) in
    mkSystem db (sys_webhook s) t (sys_log s ++ (pair Poll <$> acts))
  end.

Definition run (paystack : PaystackService) (now : Caller -> Z)
  (schedule : list Caller) (s : System) : System :=
  foldl (fun s c => step paystack now c s) s schedule.

(** The writes a caller has issued, in order. *)
Definition writesOf (c : Caller) (log : list (Caller * Action)) : list Write :=
  omap (fun e : Caller * Action =>
          match e.2 with
          | Issued w => if bool_decide (e.1 = c) then Some w else None
          | Observed _ => None
          end) log.

(** The payment statuses a caller has read, in order. *)
Definition observedBy (c : Caller) (log : list (Caller * Action))
  : list (option PaymentStatus.t) :=
  omap (fun e : Caller * Action =>
          match e.2 with
          | Observed p =>
              if bool_decide (e.1 = c) then Some (payment_status <$> p) else None
          | Issued _ => None
          end) log.

End Reconciliation.

(** ** Vocabulary of the statements *)

Module Spec.
Import OrderStatus.

(** The transition table as the specification prints it (section 4.1). *)
Definition spec_transition (current next : OrderStatus.t) : bool :=
  match current, next with
  | PLACED, ACCEPTED | PLACED, CANCELLED => true
  | ACCEPTED, PREPARING | ACCEPTED, CANCELLED => true
  | PREPARING, READY_FOR_PICKUP | PREPARING, OUT_FOR_DELIVERY
  | PREPARING, CANCELLED => true
  | READY_FOR_PICKUP, COMPLETED | READY_FOR_PICKUP, CANCELLED => true
  | OUT_FOR_DELIVERY, DELIVERED | OUT_FOR_DELIVERY, FAILED => true
  | DELIVERED, COMPLETED | DELIVERED, DISPUTED => true
  | COMPLETED, DISPUTED => true
  | FAILED, PLACED => true
  | _, _ => false
  end.

(** The timestamp column a status stamps, read off an order. *)
Definition timestampOf (s : OrderStatus.t) (o : Order) : option (option Z) :=
  match s with
  | ACCEPTED => Some (order_acceptedAt o)
  | PREPARING => Some (order_preparingAt o)
  | READY_FOR_PICKUP => Some (order_readyAt o)
  | DELIVERED => Some (order_deliveredAt o)
  | COMPLETED => Some (order_completedAt o)
  | CANCELLED => Some (order_cancelledAt o)
  | _ => None
  end.

(** The six timestamp columns of an order. *)
Definition timestamps (o : Order) : list (option Z) :=
  [order_acceptedAt o; order_preparingAt o; order_readyAt o;
   order_deliveredAt o; order_completedAt o; order_cancelledAt o].

(** The effective stock counter of a cart line: the variant's when a
    variant is chosen, else the product's. *)
Definition lineStock (db : DB) (item : CreateOrderItemDto) : option Z :=
  if truthy (dto_variantId item) then
    productVariants db !! default "" (dto_variantId item)
      ≫= variant_stockQuantity
  else products db !! dto_productId item ≫= product_stockQuantity.

(** The line names an available product of the store and, when it names a
    variant, an available variant of that product. *)
Definition lineOrderable (db : DB) (storeId : string) (item : CreateOrderItemDto)
  : bool :=
  match products db !! dto_productId item with
  | Some product =>
      String.eqb (product_storeId product) storeId
      && product_isAvailable product
      && (if truthy (dto_variantId item) then
            match productVariants db !! default "" (dto_variantId item) with
            | Some variant =>
                String.eqb (variant_productId variant) (dto_productId item)
                && variant_isAvailable variant
            | None => false
            end
          else true)
  | None => false
  end.

(** The line passes the stock rule: an inventory-tracked line with a
    counter needs at least the requested quantity. *)
Definition lineInStock (db : DB) (item : CreateOrderItemDto) : bool :=
  match products db !! dto_productId item with
  | Some product =>
      if product_trackInventory product then
        match lineStock db item with
        | Some s => dto_quantity item <=? s
        | None => true
        end
      else true
  | None => true
  end.

Definition storeOpen (db : DB) (dto : CreateOrderDto) : bool :=
  match stores db !! dto_storeId dto with
  | Some store =>
      bool_decide (store_status store = StoreStatus.ACTIVE)
      && store_isPublished store
  | None => false
  end.

Definition deliveryComplete (dto : CreateOrderDto) : bool :=
  if bool_decide (dto_deliveryOption dto = DeliveryOption.MERCHANT_DELIVERY)
  then truthy (dto_deliveryAddress dto) && truthy (dto_deliveryCity dto)
  else true.



Definition isStockWrite (w : Write) : bool :=
  match w with
  | ProductUpdateStock _ _ | ProductVariantUpdateStock _ _ => true
  | _ => false
  end.



(** The change a write makes to the stock counter of a product row and of
    a variant row, and the sum over a list of writes. *)
Definition productStockDelta (productId : string) (w : Write) : Z :=
  match w with
  | ProductUpdateStock id u =>
      if bool_decide (id = productId) then numberDelta u else 0
  | _ => 0
  end.

Definition variantStockDelta (variantId : string) (w : Write) : Z :=
  match w with
  | ProductVariantUpdateStock id u =>
      if bool_decide (id = variantId) then numberDelta u else 0
  | _ => 0
  end.

Definition totalDelta (delta : Write -> Z) (ws : list Write) : Z :=
  foldr (fun w acc => delta w + acc) 0 ws.

(** A nullable counter of a row that may be missing, moved by [d]. *)
Definition shift (d : Z) (counter : option (option Z)) : option (option Z) :=
  match counter with
  | Some (Some q) => Some (Some (q + d))
  | other => other
  end.


(** No payment row of this reference is pending. *)
Definition settled (reference : string) (db : DB) : Prop :=
  map_Forall (fun (_ : string) p =>
                payment_paystackReference p = reference ->
                payment_status p <> PaymentStatus.PENDING) (payments db).

End Spec.

(** ** Sample data *)

Module Sample.
Import OrderStatus.

Definition rice : Product :=
  {| product_storeId := "store-1"; product_name := "Rice 5kg";
     product_description := None; product_price := 1000; product_sku := None;
     product_trackInventory := true; product_stockQuantity := Some 5;
     product_isAvailable := true; product_images := [];
     product_orderCount := 0 |}.

(** A tracked product whose stock counter was never set. *)
Definition kenkey : Product :=
  {| product_storeId := "store-1"; product_name := "Kenkey";
     product_description := None; product_price := 500; product_sku := None;
     product_trackInventory := true; product_stockQuantity := None;
     product_isAvailable := true; product_images := [];
     product_orderCount := 0 |}.

Definition shirt : Product :=
  {| product_storeId := "store-1"; product_name := "Shirt";
     product_description := None; product_price := 4000; product_sku := None;
     product_trackInventory := true; product_stockQuantity := Some 0;
     product_isAvailable := true; product_images := [];
     product_orderCount := 0 |}.

Definition shirtLarge : ProductVariant :=
  {| variant_productId := "shirt"; variant_name := "Large";
     variant_price := Some 4500; variant_stockQuantity := Some 3;
     variant_isAvailable := true |}.

Definition db0 : DB :=
  {| merchants := {[ "merchant-1" := mkMerchant "user-1" ]};
     stores := {[ "store-1" := mkStore "merchant-1" StoreStatus.ACTIVE true ]};
     products := {[ "rice" := rice; "kenkey" := kenkey; "shirt" := shirt ]};
     productVariants := {[ "shirt-l" := shirtLarge ]};
     orders := ∅;
     payments := ∅ |}.

Definition cart (items : list CreateOrderItemDto) : CreateOrderDto :=
  {| dto_storeId := "store-1"; dto_customerName := "Ama Mensah";
     dto_customerPhone := "0244123456"; dto_customerEmail := None;
     dto_items := items; dto_deliveryOption := DeliveryOption.PICKUP;
     dto_deliveryAddress := None; dto_deliveryCity := None;
     dto_deliveryArea := None; dto_deliveryNotes := None;
     dto_paymentMethod := PaymentMethod.CASH_ON_DELIVERY;
     dto_customerNotes := None |}.

(** Two units of rice and one large shirt. *)
Definition riceAndShirt : CreateOrderDto :=
  cart [mkCreateOrderItemDto "rice" None 2;
        mkCreateOrderItemDto "shirt" (Some "shirt-l") 1].




(** A stored order of the store, in a given status. *)
Definition order1 (status : OrderStatus.t) : Order :=
  {| order_orderNumber := "ORD-00000001001"; order_storeId := "store-1";
     order_customerName := "Ama Mensah"; order_customerPhone := "0244123456";
     order_customerEmail := None; order_status := status;
     order_subtotal := 2000; order_deliveryFee := 0; order_tax := 0;
     order_discount := 0; order_total := 2000;
     order_deliveryOption := DeliveryOption.PICKUP;
     order_deliveryAddress := None; order_deliveryCity := None;
     order_deliveryArea := None; order_deliveryNotes := None;
     order_paymentMethod := PaymentMethod.CARD;
     order_paymentStatus := PaymentStatus.PENDING; order_paidAt := None;
     order_trackingUrl := None;
     order_statusHistory := [mkStatusHistoryEntry PLACED 100 "Order placed"];
     order_customerNotes := None; order_merchantNotes := None;
     order_acceptedAt := None; order_preparingAt := None; order_readyAt := None;
     order_deliveredAt := None; order_completedAt := None;
     order_cancelledAt := None; order_cancellationReason := None;
     order_items :=
       [{| item_productId := "rice"; item_variantId := None;
           item_productName := "Rice 5kg"; item_variantName := None;
           item_price := 1000; item_quantity := 2; item_subtotal := 2000;
           item_productSnapshot := mkProductSnapshot "Rice 5kg" None [] None |}] |}.

Definition payment1 (status : PaymentStatus.t) : Payment :=
  {| payment_orderId := "order-1"; payment_amount := 2000;
     payment_status := status;
     payment_paystackReference := "ORD-ORD-00000001001-1700000000000";
     payment_verifiedAt := None; payment_webhookReceived := false;
     payment_webhookVerified := false; payment_webhookPayload := None |}.

(** The sample store with one order and its payment. *)
Definition dbWith (orderStatus : OrderStatus.t) (paymentStatus : PaymentStatus.t)
  : DB :=
  with_payments (insert "payment-1" (payment1 paymentStatus))
    (with_orders (insert "order-1" (order1 orderStatus)) db0).

Definition reference1 : string := "ORD-ORD-00000001001-1700000000000".

Definition charge (status : string) : PaystackData :=
  {| data_reference := reference1; data_status := status; data_reason := "" |}.

(** A processor client whose verification call answers with [status]. The
    keyed hash is a stand-in: key and body joined. *)
Definition paystack (status : string) : PaystackService :=
  {| secretKey := "sk_test";
     hmacSha512Hex := fun key body => key +:+ ":" +:+ body;
     verifyTransaction := fun _ => Return (charge status) |}.

Definition parse (body : string) : option WebhookEvent :=
  Some (mkWebhookEvent "charge.success" (charge "success")).

(** A webhook delivery and a poll for the same reference, both still to
    start, and the instants their requests read. *)
Definition clock (c : Reconciliation.Caller) : Z :=
  match c with
  | Reconciliation.Webhook => 50
  | Reconciliation.Poll => 60
  end.

Definition bothPending (paymentStatus : PaymentStatus.t) : Reconciliation.System :=
  {| Reconciliation.sys_db := dbWith PLACED paymentStatus;
     Reconciliation.sys_webhook := Reconciliation.W_start (charge "success");
     Reconciliation.sys_poll := Reconciliation.V_start reference1;
     Reconciliation.sys_log := [] |}.

(** Both callers read the payment before either writes. *)
Definition readsFirst : list Reconciliation.Caller :=
  [Reconciliation.Webhook; Reconciliation.Poll; Reconciliation.Poll;
   Reconciliation.Webhook; Reconciliation.Webhook;
   Reconciliation.Poll; Reconciliation.Poll].

(** The poll runs to its end before the webhook delivery starts. *)
Definition pollFirst : list Reconciliation.Caller :=
  [Reconciliation.Poll; Reconciliation.Poll; Reconciliation.Poll;
   Reconciliation.Poll; Reconciliation.Webhook; Reconciliation.Webhook].

(** The rice-and-shirt order created on the sample store, then cancelled
    by an anonymous caller while still [PLACED]. *)
Definition created : option (Outcome (string * Order) * DB) :=
  OrdersService.createOrder "order-9" ["ORD-17000000042"] 7 riceAndShirt db0.

Definition afterCreate : DB :=
  match created with
  | Some (_, db1) => db1
  | None => db0
  end.

Definition createdOrder : Order :=
  match created with
  | Some (Return (_, order), _) => order
  | _ => order1 PLACED
  end.

Definition cancelled : Outcome CancelOrderResult * DB :=
  OrdersService.cancelOrder 9 "order-9" (mkCancelOrderDto None) None afterCreate.

End Sample.

(** ** PaymentsService.initializePayment

    The merchant's settlement account is read through the order
    ([order.store.merchant.paystackAccount]); the table of accounts, keyed
    by merchant id (it has a unique index on [merchantId]), and the
    processor call that opens a transaction are arguments. The order total
    is already in pesewas, so the amount sent to the processor is the total
    itself. Columns of the new payment row that no modelled method reads
    back (currency, method, access code, authorization URL, metadata) are
    not part of [Payment]. *)

Module PaymentInitialization.

Record PaystackAccount := mkPaystackAccount {
  account_paystackSubaccountCode : option string;
  account_isVerified : bool;
  account_isActive : bool;
}.

Record InitializePaymentDto := mkInitializePaymentDto {
  dto_orderId : string;
  dto_email : string;
  dto_phone : string;
  dto_callbackUrl : option string;
}.

Record TransactionMetadata := mkTransactionMetadata {
  metadata_orderId : string;
  metadata_orderNumber : string;
  metadata_merchantId : string;
  metadata_storeId : string;
  metadata_customerPhone : string;
}.

Record TransactionParams := mkTransactionParams {
  params_email : string;
  params_amount : Z;
  params_currency : string;
  params_reference : string;
  params_callbackUrl : option string;
  params_metadata : TransactionMetadata;
  params_subaccount : option string;
  params_transactionCharge : Z;
  params_bearer : string;
}.

Record PaystackTransaction := mkPaystackTransaction {
  transaction_authorization_url : string;
  transaction_access_code : string;
  transaction_reference : string;
}.

Record InitializePaymentResult := mkInitializePaymentResult {
  result_newPayment : string * Payment;
  result_authorization_url : string;
  result_access_code : string;
  result_reference : string;
}.

Definition payment_findFirst_orderId (db : DB) (orderId : string) :=
  findFirst (fun p => String.eqb (payment_orderId p) orderId) (payments db).

(** [prisma.payment.create]; [None] when the client throws: the primary
    key, the unique index on [orderId], the unique index on
    [paystackReference] or the foreign key to the order is violated. *)
Definition payment_create (id : string) (p : Payment) (db : DB) : option DB :=
  if bool_decide (is_Some (payments db !! id))
     || bool_decide (is_Some (payment_findFirst_orderId db (payment_orderId p)))
     || bool_decide (is_Some (payment_findFirst_paystackReference db
                                (payment_paystackReference p)))
     || negb (bool_decide (is_Some (orders db !! payment_orderId p)))
  then None
  else Some (with_payments (insert id p) db).

(** The reference of a new payment: order number and clock reading. *)
Definition newReference (order : Order) (now : Z) : string :=
  "ORD-" +:+ order_orderNumber order +:+ "-" +:+ pretty now.

(** The arguments of the processor call. *)
Definition transactionParams (dto : InitializePaymentDto) (order : Order)
  (merchantId : string) (account : PaystackAccount) (reference : string)
  : TransactionParams :=
  {| params_email := dto_email dto;
     params_amount := order_total order;
     params_currency := "GHS";
     params_reference := reference;
     params_callbackUrl := dto_callbackUrl dto;
     params_metadata :=
       {| metadata_orderId := dto_orderId dto;
          metadata_orderNumber := order_orderNumber order;
          metadata_merchantId := merchantId;
          metadata_storeId := order_storeId order;
          metadata_customerPhone := dto_phone dto |};
     params_subaccount :=
       if truthy (account_paystackSubaccountCode account)
       then account_paystackSubaccountCode account else None;
     params_transactionCharge := 0;
     params_bearer := "account" |}.

Definition newPayment (dto : InitializePaymentDto) (order : Order)
  (reference : string) : Payment :=
  {| payment_orderId := dto_orderId dto;
     payment_amount := order_total order;
     payment_status := PaymentStatus.PENDING;
     payment_paystackReference := reference;
     payment_verifiedAt := None;
     payment_webhookReceived := false;
     payment_webhookVerified := false;
     payment_webhookPayload := None |}.

(** [initializePayment]. [newId] is the primary key the client generates
    for the payment row. *)
Definition initializePayment (accounts : gmap string PaystackAccount)
  (initializeTransaction : TransactionParams -> Outcome PaystackTransaction)
  (newId : string) (now : Z) (dto : InitializePaymentDto) (db : DB)
  : Outcome InitializePaymentResult * DB :=
  match orders db !! dto_orderId dto with
  | None => (Throw (NotFoundException "Order not found"), db)
  | Some order =>
    if negb (bool_decide (order_customerEmail order = Some (dto_email dto)))
       && negb (String.eqb (order_customerPhone order) (dto_phone dto))
    then (Throw (BadRequestException
                   "Order does not match provided contact information"), db)
    else if bool_decide (order_paymentStatus order = PaymentStatus.COMPLETED)
    then (Throw (BadRequestException "Order already paid"), db)
    else
      match stores db !! order_storeId order with
      | None => (Throw (InternalServerError "TypeError"), db)
      | Some store =>
        match merchants db !! store_merchantId store with
        | None => (Throw (InternalServerError "TypeError"), db)
        | Some merchant =>
          match accounts !! store_merchantId store with
          | None =>
              (Throw (BadRequestException
                        "Merchant has not linked payment account. Please contact support."),
               db)
          | Some account =>
            let reference := newReference order now in
            match initializeTransaction
                    (transactionParams dto order (store_merchantId store) account
                       reference) with
            | Throw e => (Throw e, db)
            | Return transaction =>
              let payment := newPayment dto order reference in
              match payment_create newId payment db with
              | None => (Throw PaymentsService.prismaError, db)
              | Some db' =>
                  (Return
                     {| result_newPayment := (newId, payment);
                        result_authorization_url :=
                          transaction_authorization_url transaction;
                        result_access_code := transaction_access_code transaction;
                        result_reference := transaction_reference transaction |},
                   db')
              end
            end
          end
        end
      end
  end.

End PaymentInitialization.

(** ** OrdersService: the listings

    [getOrders] and [getCustomerOrders] sort by a column ([createdAt] by
    default) that the modelled rows do not carry; the database's sort is
    the argument [orderBy]. *)

Module OrdersQueries.

Inductive SortField := createdAt | total | status.
Inductive SortOrder := asc | desc.

Record OrderQueryDto := mkOrderQueryDto {
  query_storeId : option string;
  query_customerPhone : option string;
  query_status : option OrderStatus.t;
  query_paymentStatus : option PaymentStatus.t;
  query_paymentMethod : option PaymentMethod.t;
  query_sortBy : option SortField;
  query_sortOrder : option SortOrder;
  query_page : option Z;
  query_limit : option Z;
}.

Record Pagination := mkPagination {
  pagination_total : Z;
  pagination_page : Z;
  pagination_limit : Z;
  pagination_totalPages : Z;
}.

(** The ids of the stores of a merchant ([include: { stores: true }]). *)
Definition storeIdsOf (db : DB) (merchantId : string) : list string :=
  (map_to_list (filter (fun kv : string * Store => store_merchantId kv.2 = merchantId)
                       (stores db))).*1.

(** An optional filter of the [where] clause: set only when the query
    carries a value. *)
Definition matches {A} `{EqDecision A} (filter : option A) (value : A) : bool :=
  match filter with
  | Some v => bool_decide (value = v)
  | None => true
  end.

(** The [where] clause [getOrders] builds. The store filter of the query
    replaces the merchant's store list only when it names one of the
    merchant's stores. *)
Definition ordersWhere (storeIds : list string) (query : OrderQueryDto)
  (o : Order) : bool :=
  (if truthy (query_storeId query)
      && bool_decide (default "" (query_storeId query) ∈ storeIds)
   then String.eqb (order_storeId o) (default "" (query_storeId query))
   else bool_decide (order_storeId o ∈ storeIds))
  && (if truthy (query_customerPhone query)
      then String.eqb (order_customerPhone o) (default "" (query_customerPhone query))
      else true)
  && matches (query_status query) (order_status o)
  && matches (query_paymentStatus query) (order_paymentStatus o)
  && matches (query_paymentMethod query) (order_paymentMethod o).

(** [Math.ceil(total / limit)] for a positive [limit]. *)
Definition ceilDiv (total limit : Z) : Z := (total + limit - 1) / limit.

(** [getOrders] (merchant listing). *)
Definition getOrders
  (orderBy : SortField -> SortOrder -> list (string * Order) -> list (string * Order))
  (userId : string) (query : OrderQueryDto) (db : DB)
  : Outcome (list (string * Order) * Pagination) :=
  let sortBy := default createdAt (query_sortBy query) in
  let sortOrder := default desc (query_sortOrder query) in
  let page := default 1 (query_page query) in
  let limit := default 20 (query_limit query) in
  match merchant_findUnique_userId db userId with
  | None => Throw (ForbiddenException "Only merchants can access this endpoint")
  | Some (merchantId, _) =>
      let storeIds := storeIdsOf db merchantId in
      let found :=
        List.filter (fun row : string * Order => ordersWhere storeIds query row.2)
                    (map_to_list (orders db)) in
      let skip := (page - 1) * limit in
      let total := Z.of_nat (length found) in
      Return (take (Z.to_nat limit) (drop (Z.to_nat skip) (orderBy sortBy sortOrder found)),
              {| pagination_total := total;
                 pagination_page := page;
                 pagination_limit := limit;
                 pagination_totalPages := ceilDiv total limit |})
  end.

(** [getCustomerOrders] (public): the fifty most recent orders of a phone. *)
Definition getCustomerOrders
  (orderBy : SortField -> SortOrder -> list (string * Order) -> list (string * Order))
  (customerPhone : string) (db : DB) : list (string * Order) :=
  take 50
    (orderBy createdAt desc
       (List.filter (fun row : string * Order =>
                       String.eqb (order_customerPhone row.2) customerPhone)
                    (map_to_list (orders db)))).

(** [getOrderById]: the order, flagged [isMerchant] for the merchant who
    owns its store. *)
Definition getOrderById (orderId : string) (userId : option string) (db : DB)
  : Outcome (string * Order * bool) :=
  match orders db !! orderId with
  | None => Throw (NotFoundException "Order not found")
  | Some order =>
      if truthy userId then
        match merchant_findUnique_userId db (default "" userId) with
        | Some (merchantId, _) =>
            match stores db !! order_storeId order with
            | Some store =>
                Return (orderId, order,
                        String.eqb (store_merchantId store) merchantId)
            | None => Throw (InternalServerError "TypeError")
            end
        | None => Return (orderId, order, false)
        end
      else Return (orderId, order, false)
  end.

End OrdersQueries.

(** ** Further vocabulary *)

Module Accounting.

Definition sumZ (l : list Z) : Z := foldr Z.add 0 l.

(** The change a write makes to the order count of a product row. *)
Definition productOrderCountDelta (productId : string) (w : Write) : Z :=
  match w with
  | ProductUpdateOrderCount id u =>
      if bool_decide (id = productId) then numberDelta u else 0
  | _ => 0
  end.

(** The unique index on [payments.paystackReference]. *)
Definition uniqueReferences (db : DB) : Prop :=
  map_Forall (fun (id1 : string) p1 =>
    map_Forall (fun (id2 : string) p2 =>
      payment_paystackReference p1 = payment_paystackReference p2 -> id1 = id2)
      (payments db)) (payments db).

End Accounting.

(** ** Further sample data *)

Module MoreSamples.

(** The shirt twice: once plain, once as the large variant. *)
Definition shirtTwice : CreateOrderDto :=
  Sample.cart [mkCreateOrderItemDto "shirt" (Some "shirt-l") 1;
               mkCreateOrderItemDto "shirt" (Some "shirt-l") 2].

(** The settlement accounts: the sample merchant has linked one. *)
Definition accounts : gmap string PaymentInitialization.PaystackAccount :=
  {[ "merchant-1" :=
       PaymentInitialization.mkPaystackAccount (Some "ACCT_sample") true true ]}.

(** A processor that opens every transaction it is asked for. *)
Definition opens (params : PaymentInitialization.TransactionParams)
  : Outcome PaymentInitialization.PaystackTransaction :=
  Return (PaymentInitialization.mkPaystackTransaction
            "https://checkout.example/abc" "abc"
            (PaymentInitialization.params_reference params)).

(** The sample store with its order and no payment yet. *)
Definition unpaid : DB :=
  with_orders (insert "order-1" (Sample.order1 OrderStatus.PLACED)) Sample.db0.

Definition payOrder1 (email phone : string)
  : PaymentInitialization.InitializePaymentDto :=
  PaymentInitialization.mkInitializePaymentDto "order-1" email phone None.

(** The database's sort, standing in: rows as they come. *)
Definition unsorted (sortBy : OrdersQueries.SortField)
  (sortOrder : OrdersQueries.SortOrder) (rows : list (string * Order))
  : list (string * Order) := rows.

(** A second merchant with a store and an order of its own. *)
Definition twoMerchants : DB :=
  {| merchants := <["merchant-2" := mkMerchant "user-2"]> (merchants Sample.db0);
     stores := <["store-2" := mkStore "merchant-2" StoreStatus.ACTIVE true]>
                 (stores Sample.db0);
     products := products Sample.db0;
     productVariants := productVariants Sample.db0;
     orders :=
       <["order-1" := Sample.order1 OrderStatus.PLACED]>
         (<["order-2" :=
                {| order_orderNumber := "ORD-00000002002";
                   order_storeId := "store-2";
                   order_customerName := "Kofi Boateng";
                   order_customerPhone := "0200000000";
                   order_customerEmail := None;
                   order_status := OrderStatus.PLACED;
                   order_subtotal := 500; order_deliveryFee := 0;
                   order_tax := 0; order_discount := 0; order_total := 500;
                   order_deliveryOption := DeliveryOption.PICKUP;
                   order_deliveryAddress := None; order_deliveryCity := None;
                   order_deliveryArea := None; order_deliveryNotes := None;
                   order_paymentMethod := PaymentMethod.CARD;
                   order_paymentStatus := PaymentStatus.PENDING;
                   order_paidAt := None; order_trackingUrl := None;
                   order_statusHistory := [];
                   order_customerNotes := None; order_merchantNotes := None;
                   order_acceptedAt := None; order_preparingAt := None;
                   order_readyAt := None; order_deliveredAt := None;
                   order_completedAt := None; order_cancelledAt := None;
                   order_cancellationReason := None; order_items := [] |}]> ∅);
     payments := ∅ |}.

(** A listing that asks for the other merchant's store. *)
Definition foreignStoreQuery : OrdersQueries.OrderQueryDto :=
  OrdersQueries.mkOrderQueryDto (Some "store-2") None None None None None None
    (Some 1) (Some 20).

End MoreSamples.

(** * Properties *)

Import OrdersService PaymentsService Reconciliation Spec.

(** ** Reading the store *)

Lemma findFirst_Some {A} (P : A -> bool) (table : gmap string A) id row :
  findFirst P table = Some (id, row) -> table !! id = Some row /\ P row = true.
Proof.
  unfold findFirst. intros Hfind.
  apply find_some in Hfind as [Hin HP]. split; [|exact HP].
  apply elem_of_map_to_list. by apply list_elem_of_In.
Qed.


Lemma transaction_Return {A} (ws : list Write) (result : A) db r db' :
  transaction ws result db = (Return r, db') ->
  r = result /\ applyWrites ws db = Some db'.
Proof.
  unfold transaction. destruct (applyWrites ws db); intros [= <- <-]; auto.
Qed.

(** ** The status state machine (updateOrderStatus) *)

Lemma validTransitions_spec current next :
  bool_decide (next ∈ validTransitions current) = spec_transition current next.
Proof. destruct current, next; reflexivity. Qed.

(** C5. For an existing order and a caller who is the merchant owning its
    store, [updateOrderStatus] follows the transition table of the
    specification. On an edge of the table it returns the updated order and
    stores it: the status is the requested one, the status history has
    exactly one more entry (for the requested status, at the request's
    instant), the timestamp column of the requested status, if it has one,
    is set to that instant and every other timestamp column is kept. Off
    the table it throws the "Cannot transition" error and the store is the
    one it was given, so status, history and timestamps are unchanged. *)
Theorem updateOrderStatus_follows_table
  now userId orderId dto db order merchantId merchant store newStatus :
  orders db !! orderId = Some order ->
  merchant_findUnique_userId db userId = Some (merchantId, merchant) ->
  stores db !! order_storeId order = Some store ->
  store_merchantId store = merchantId ->
  dto_status dto = Some newStatus ->
  if spec_transition (order_status order) newStatus then
    exists order',
      updateOrderStatus now userId orderId dto db
      = (Return (orderId, order'), with_orders (insert orderId order') db)
      /\ order_status order' = newStatus
      /\ order_statusHistory order'
         = order_statusHistory order
           ++ [mkStatusHistoryEntry newStatus now
                 (or_default (dto_merchantNotes dto)
                    ("Status updated to " +:+ OrderStatus.to_string newStatus))]
      /\ match timestampOf newStatus order' with
         | Some t => t = Some now
         | None => True
         end
      /\ forall s, s <> newStatus -> timestampOf s order' = timestampOf s order
  else
    updateOrderStatus now userId orderId dto db
    = (Throw (BadRequestException
                ("Cannot transition from "
                 +:+ OrderStatus.to_string (order_status order)
                 +:+ " to " +:+ OrderStatus.to_string newStatus)), db).
Proof.
  intros Horder Hmerchant Hstore Howner Hstatus.
  unfold updateOrderStatus. rewrite Horder, Hmerchant, Hstore, Howner.
  rewrite String.eqb_refl. cbn [negb].
  unfold validateStatusTransition. rewrite Hstatus. cbn [includesStatus statusText].
  rewrite validTransitions_spec.
  destruct (spec_transition (order_status order) newStatus) eqn:Hedge; cbn [negb].
  - eexists. unfold transaction. cbn [applyWrites applyWrite].
    rewrite Horder. cbn [mbind option_bind].
    split; [reflexivity|].
    split; [reflexivity|].
    split; [reflexivity|].
    split.
    + destruct newStatus; cbn; try rewrite bool_decide_eq_true_2; done.
    + intros s Hs. unfold stamp.
      destruct s; cbn [timestampOf applyOrderUpdate order_acceptedAt
        order_preparingAt order_readyAt order_deliveredAt order_completedAt
        order_cancelledAt set_acceptedAt set_preparingAt set_readyAt
        set_deliveredAt set_completedAt set_cancelledAt]; try reflexivity;
        (rewrite bool_decide_eq_false_2; [reflexivity | congruence]).
  - reflexivity.
Qed.

Lemma updateOrderStatus_follows_table_witness :
  exists order',
    updateOrderStatus 200 "user-1" "order-1"
      (mkUpdateOrderStatusDto (Some OrderStatus.PREPARING) None None)
      (Sample.dbWith OrderStatus.ACCEPTED PaymentStatus.PENDING)
    = (Return ("order-1", order'),
       with_orders (insert "order-1" order')
         (Sample.dbWith OrderStatus.ACCEPTED PaymentStatus.PENDING))
    /\ order_status order' = OrderStatus.PREPARING
    /\ order_statusHistory order'
       = order_statusHistory (Sample.order1 OrderStatus.ACCEPTED)
         ++ [mkStatusHistoryEntry OrderStatus.PREPARING 200
               "Status updated to PREPARING"]
    /\ order_preparingAt order' = Some 200
    /\ (forall s, s <> OrderStatus.PREPARING ->
        timestampOf s order'
        = timestampOf s (Sample.order1 OrderStatus.ACCEPTED)).
Proof.
  apply (updateOrderStatus_follows_table 200 "user-1" "order-1"
           (mkUpdateOrderStatusDto (Some OrderStatus.PREPARING) None None)
           (Sample.dbWith OrderStatus.ACCEPTED PaymentStatus.PENDING)
           (Sample.order1 OrderStatus.ACCEPTED) "merchant-1"
           (mkMerchant "user-1")
           (mkStore "merchant-1" StoreStatus.ACTIVE true)
           OrderStatus.PREPARING);
    vm_compute; reflexivity.
Defined.

(** ** Cancellation (cancelOrder) *)

(** X1. An order in one of the three closed statuses is never cancelled: the
    call throws and the store is the one it was given. *)
Lemma cancelOrder_closed_status now orderId dto userId db order :
  orders db !! orderId = Some order ->
  order_status order ∈ [OrderStatus.DELIVERED; OrderStatus.COMPLETED;
                        OrderStatus.CANCELLED] ->
  cancelOrder now orderId dto userId db
  = (Throw (BadRequestException
              ("Cannot cancel order with status "
               +:+ OrderStatus.to_string (order_status order))), db).
Proof.
  intros Horder Hclosed. unfold cancelOrder. rewrite Horder.
  by rewrite bool_decide_eq_true_2.
Qed.

Lemma cancelOrder_closed_status_witness :
  cancelOrder 300 "order-1" (mkCancelOrderDto None) (Some "user-1")
    (Sample.dbWith OrderStatus.DELIVERED PaymentStatus.PENDING)
  = (Throw (BadRequestException "Cannot cancel order with status DELIVERED"),
     Sample.dbWith OrderStatus.DELIVERED PaymentStatus.PENDING).
Proof.
  apply (cancelOrder_closed_status 300 "order-1" (mkCancelOrderDto None)
           (Some "user-1")
           (Sample.dbWith OrderStatus.DELIVERED PaymentStatus.PENDING)
           (Sample.order1 OrderStatus.DELIVERED)).
  - vm_compute; reflexivity.
  - apply (bool_decide_unpack _). vm_compute. exact I.
Defined.

(** X2. Past [PLACED], a caller who presents a user id and is not the merchant
    owning the order's store is refused, and the store is the one given. *)
Lemma cancelOrder_foreign_user now orderId dto userId db order store :
  orders db !! orderId = Some order ->
  order_status order ∉ [OrderStatus.DELIVERED; OrderStatus.COMPLETED;
                        OrderStatus.CANCELLED] ->
  order_status order <> OrderStatus.PLACED ->
  truthy (Some userId) = true ->
  stores db !! order_storeId order = Some store ->
  (forall merchantId merchant,
     merchant_findUnique_userId db userId = Some (merchantId, merchant) ->
     store_merchantId store <> merchantId) ->
  cancelOrder now orderId dto (Some userId) db
  = (Throw (ForbiddenException "Only merchant can cancel accepted orders"), db).
Proof.
  intros Horder Hopen Hplaced Hid Hstore Hforeign.
  unfold cancelOrder. rewrite Horder.
  rewrite bool_decide_eq_false_2 by exact Hopen.
  unfold merchantOnlyCheck. rewrite bool_decide_eq_false_2 by exact Hplaced.
  rewrite Hid. cbn [negb andb]. change (default "" (Some userId)) with userId.
  destruct (merchant_findUnique_userId db userId) as [[merchantId merchant]|] eqn:Hm;
    [|reflexivity].
  rewrite Hstore.
  destruct (String.eqb_spec (store_merchantId store) merchantId) as [Heq|Hne];
    [|reflexivity].
  by destruct (Hforeign merchantId merchant).
Qed.

Lemma cancelOrder_foreign_user_witness :
  cancelOrder 300 "order-1" (mkCancelOrderDto None) (Some "user-7")
    (Sample.dbWith OrderStatus.ACCEPTED PaymentStatus.PENDING)
  = (Throw (ForbiddenException "Only merchant can cancel accepted orders"),
     Sample.dbWith OrderStatus.ACCEPTED PaymentStatus.PENDING).
Proof.
  apply (cancelOrder_foreign_user 300 "order-1" (mkCancelOrderDto None) "user-7"
           (Sample.dbWith OrderStatus.ACCEPTED PaymentStatus.PENDING)
           (Sample.order1 OrderStatus.ACCEPTED)
           (mkStore "merchant-1" StoreStatus.ACTIVE true)).
  - vm_compute; reflexivity.
  - intros Hin. apply (bool_decide_pack _) in Hin. vm_compute in Hin. exact Hin.
  - discriminate.
  - reflexivity.
  - vm_compute; reflexivity.
  - intros merchantId merchant Hm. vm_compute in Hm. discriminate.
Defined.

(** C7, at the failing input. The order is [ACCEPTED] and the caller
    presents no user id: the merchant-only check is not made, the call
    returns, the order is [CANCELLED] and the stock of its line is put
    back. *)
Theorem cancelOrder_anonymous_past_placed :
  exists db',
    cancelOrder 300 "order-1" (mkCancelOrderDto None) None
      (Sample.dbWith OrderStatus.ACCEPTED PaymentStatus.PENDING)
    = (Return {| result_message := "Order cancelled successfully";
                 result_orderNumber := "ORD-00000001001" |}, db')
    /\ order_status <$> orders db' !! "order-1" = Some OrderStatus.CANCELLED
    /\ product_stockQuantity <$> products db' !! "rice" = Some (Some 7).
Proof. eexists. split; [vm_compute; reflexivity|]. split; reflexivity. Qed.

(** ** Webhook authentication (handleWebhook) *)

(** C8. When the keyed hash of the raw body under the platform's secret is
    not the signature header (or the header is absent), [handleWebhook]
    throws "Invalid webhook signature" and the store is the one it was
    given, whatever the parser would make of the body and whatever event
    the body claims. *)
Theorem handleWebhook_rejects_bad_signature
  paystack JSON_parse now signature body db :
  signature <> Some (hmacSha512Hex paystack (secretKey paystack) body) ->
  handleWebhook paystack JSON_parse now signature body db
  = (Throw (BadRequestException "Invalid webhook signature"), db).
Proof.
  intros Hsig. unfold handleWebhook, verifyWebhookSignature.
  rewrite bool_decide_eq_false_2 by congruence. reflexivity.
Qed.

Lemma handleWebhook_rejects_bad_signature_witness :
  handleWebhook (Sample.paystack "success") Sample.parse 50 (Some "forged")
    "raw body" (Sample.dbWith OrderStatus.PLACED PaymentStatus.PENDING)
  = (Throw (BadRequestException "Invalid webhook signature"),
     Sample.dbWith OrderStatus.PLACED PaymentStatus.PENDING).
Proof.
  apply (handleWebhook_rejects_bad_signature (Sample.paystack "success")
           Sample.parse 50 (Some "forged")).
  vm_compute. discriminate.
Defined.

(** ** Public tracking (getOrderByNumber) *)

(** C9 as stated fails: a tracking request that supplies no phone receives
    the order. *)
Lemma getOrderByNumber_without_phone :
  getOrderByNumber "ORD-00000001001" None
    (Sample.dbWith OrderStatus.ACCEPTED PaymentStatus.PENDING)
  = Return ("order-1", Sample.order1 OrderStatus.ACCEPTED)
  /\ order_customerPhone (Sample.order1 OrderStatus.ACCEPTED) = "0244123456".
Proof. split; vm_compute; reflexivity. Qed.

(** C9, amended. For an order found by its number, the lookup returns the
    order when the request supplies no phone (or an empty one) or supplies
    the recorded customer phone, and throws the Forbidden error exactly when
    it supplies a non-empty phone different from the recorded one. *)
Theorem getOrderByNumber_phone_check orderNumber customerPhone db id order :
  order_findUnique_orderNumber db orderNumber = Some (id, order) ->
  (truthy customerPhone = false \/ customerPhone = Some (order_customerPhone order) ->
   getOrderByNumber orderNumber customerPhone db = Return (id, order))
  /\ (truthy customerPhone = true ->
      customerPhone <> Some (order_customerPhone order) ->
      getOrderByNumber orderNumber customerPhone db
      = Throw (ForbiddenException "Invalid order number or phone number")).
Proof.
  intros Hfind. unfold getOrderByNumber. rewrite Hfind. split.
  - intros [Hnone|Hsame].
    + by rewrite Hnone.
    + rewrite bool_decide_eq_true_2 by congruence. by rewrite andb_false_r.
  - intros Hsome Hdiff. rewrite Hsome.
    rewrite bool_decide_eq_false_2 by congruence. reflexivity.
Qed.

Lemma getOrderByNumber_phone_check_witness :
  (truthy (Some "0244123456") = false
   \/ Some "0244123456" = Some (order_customerPhone (Sample.order1 OrderStatus.ACCEPTED)) ->
   getOrderByNumber "ORD-00000001001" (Some "0244123456")
     (Sample.dbWith OrderStatus.ACCEPTED PaymentStatus.PENDING)
   = Return ("order-1", Sample.order1 OrderStatus.ACCEPTED))
  /\ (truthy (Some "0244123456") = true ->
      Some "0244123456" <> Some (order_customerPhone (Sample.order1 OrderStatus.ACCEPTED)) ->
      getOrderByNumber "ORD-00000001001" (Some "0244123456")
        (Sample.dbWith OrderStatus.ACCEPTED PaymentStatus.PENDING)
      = Throw (ForbiddenException "Invalid order number or phone number")).
Proof.
  apply (getOrderByNumber_phone_check "ORD-00000001001" (Some "0244123456")
           (Sample.dbWith OrderStatus.ACCEPTED PaymentStatus.PENDING)
           "order-1" (Sample.order1 OrderStatus.ACCEPTED)).
  vm_compute; reflexivity.
Defined.

(** ** Reconciliation: the two paths *)

Lemma applyWrite_PaymentUpdate id data db payment :
  payments db !! id = Some payment ->
  applyWrite (PaymentUpdate id data) db
  = Some (with_payments (insert id (applyPaymentUpdate data payment)) db).
Proof. intros Hp. cbn [applyWrite]. by rewrite Hp. Qed.

(** What a write does to the payments table. *)
Lemma applyWrite_payments w db db' :
  applyWrite w db = Some db' ->
  match w with
  | PaymentUpdate id data =>
      exists payment,
        payments db !! id = Some payment
        /\ payments db' = <[id := applyPaymentUpdate data payment]> (payments db)
  | _ => payments db' = payments db
  end.
Proof.
  destruct w; cbn [applyWrite]; intros Hw.
  - by case_match; simplify_eq.
  - destruct (orders db !! id); by simplify_eq/=.
  - destruct (products db !! id); by simplify_eq/=.
  - destruct (products db !! id); by simplify_eq/=.
  - destruct (productVariants db !! id); by simplify_eq/=.
  - destruct (payments db !! id) as [payment|]; simplify_eq/=. by exists payment.
Qed.

(** A write that sets no payment to [PENDING] keeps a reference settled. *)
Lemma applyWrite_settled reference w db db' :
  applyWrite w db = Some db' ->
  (forall id data, w = PaymentUpdate id data ->
                   set_payment_status data <> PaymentStatus.PENDING) ->
  settled reference db -> settled reference db'.
Proof.
  intros Hw Hstatus Hsettled. apply applyWrite_payments in Hw.
  unfold settled, map_Forall in *.
  destruct w; try (intros id' p'; rewrite Hw; apply Hsettled).
  destruct Hw as (payment & Hpayment & ->).
  intros id' p'. rewrite lookup_insert. case_decide as Hid.
  - intros [= <-] _. cbn. by apply (Hstatus id data).
  - apply Hsettled.
Qed.

(** X3. The webhook path leaves a settled reference alone: run on a
    reference none of whose payment rows is [PENDING], it returns and the
    store is the one it was given. *)
Lemma handleChargeSuccess_settled now data db :
  settled (data_reference data) db ->
  handleChargeSuccess now data db = (Return (), db).
Proof.
  intros Hsettled. unfold handleChargeSuccess.
  destruct (payment_findFirst_paystackReference db (data_reference data))
    as [[id payment]|] eqn:Hfind; [|reflexivity].
  apply findFirst_Some in Hfind as [Hrow Href].
  apply String.eqb_eq in Href.
  by rewrite bool_decide_eq_false_2 by exact (Hsettled id payment Hrow Href).
Qed.

Lemma handleChargeSuccess_settled_witness :
  handleChargeSuccess 50 (Sample.charge "success")
    (Sample.dbWith OrderStatus.DELIVERED PaymentStatus.COMPLETED)
  = (Return (), Sample.dbWith OrderStatus.DELIVERED PaymentStatus.COMPLETED).
Proof.
  apply (handleChargeSuccess_settled 50 (Sample.charge "success")
           (Sample.dbWith OrderStatus.DELIVERED PaymentStatus.COMPLETED)).
  apply (bool_decide_unpack _). vm_compute. exact I.
Defined.

(** C2, at the failing inputs. The payment is [COMPLETED] and its order has
    been [DELIVERED]. A poll whose processor answer is not a success turns
    the payment [FAILED]; a poll whose answer is a success rewrites the
    payment and pulls the order back to [PREPARING] with a new [paidAt]. *)
Theorem verifyPayment_revisits_completed_payment :
  payment_status <$>
    payments (Sample.dbWith OrderStatus.DELIVERED PaymentStatus.COMPLETED)
      !! "payment-1" = Some PaymentStatus.COMPLETED
  /\ payment_status <$>
       payments (verifyPayment (Sample.paystack "failed") 50 Sample.reference1
                   (Sample.dbWith OrderStatus.DELIVERED PaymentStatus.COMPLETED)).2
         !! "payment-1" = Some PaymentStatus.FAILED
  /\ (fun o => (order_status o, order_paidAt o)) <$>
       orders (verifyPayment (Sample.paystack "success") 50 Sample.reference1
                 (Sample.dbWith OrderStatus.DELIVERED PaymentStatus.COMPLETED)).2
         !! "order-1" = Some (OrderStatus.PREPARING, Some 50)
  /\ payment_webhookVerified <$>
       payments (verifyPayment (Sample.paystack "success") 50 Sample.reference1
                   (Sample.dbWith OrderStatus.DELIVERED PaymentStatus.COMPLETED)).2
         !! "payment-1" = Some true.
Proof. repeat split; vm_compute; reflexivity. Qed.





(** ** Reconciliation: interleavings *)

Lemma writesOf_app c l1 l2 :
  writesOf c (l1 ++ l2) = writesOf c l1 ++ writesOf c l2.
Proof. apply omap_app. Qed.

Lemma writesOf_other c c' acts :
  c <> c' -> writesOf c (pair c' <$> acts) = [].
Proof.
  intros Hne. induction acts as [|a acts IH]; [reflexivity|].
  cbn. destruct a; cbn; [exact IH|].
  by rewrite bool_decide_eq_false_2 by congruence.
Qed.

(** A thread scheduled alone is the method it comes from. *)
Lemma run_webhook_alone paystack now data db poll log :
  sys_db (run paystack now [Webhook; Webhook; Webhook]
            (mkSystem db (W_start data) poll log))
  = (handleChargeSuccess (now Webhook) data db).2.
Proof.
  unfold run, handleChargeSuccess. cbn [foldl step webhook_step sys_webhook sys_db].
  destruct (payment_findFirst_paystackReference db (data_reference data))
    as [[id payment]|]; [|reflexivity].
  case_bool_decide; [|reflexivity].
  cbn [webhook_step sys_webhook sys_db].
  destruct (applyWrite (PaymentUpdate id _) db) as [db1|]; [|reflexivity].
  cbn [webhook_step sys_webhook sys_db].
  by destruct (applyWrite (OrderUpdate _ _) db1).
Qed.

Lemma run_poll_alone paystack now reference db webhook log :
  sys_db (run paystack now [Poll; Poll; Poll; Poll]
            (mkSystem db webhook (V_start reference) log))
  = (verifyPayment paystack (now Poll) reference db).2.
Proof.
  unfold run, verifyPayment. cbn [foldl step poll_step sys_poll sys_db].
  destruct (verifyTransaction paystack reference) as [paystackData|];
    [|reflexivity].
  cbn [poll_step sys_poll sys_db].
  destruct (payment_findFirst_paystackReference db reference)
    as [[id payment]|]; [|reflexivity].
  cbn [poll_step sys_poll sys_db].
  destruct (applyWrite (PaymentUpdate id _) db) as [db1|]; [|reflexivity].
  destruct (isSuccess paystackData); [|reflexivity].
  cbn [poll_step sys_poll sys_db].
  by destruct (applyWrite (OrderUpdate _ _) db1).
Qed.

(** A step of the poll keeps a settled reference settled: its payment
    update sets [COMPLETED] or [FAILED]. *)
Lemma poll_step_settled paystack now reference t db :
  settled reference db -> settled reference (poll_step paystack now t db).1.2.
Proof.
  intros Hsettled. destruct t; cbn [poll_step]; try exact Hsettled.
  - by destruct (verifyTransaction paystack reference0).
  - by destruct (payment_findFirst_paystackReference db reference0) as [[??]|].
  - destruct (applyWrite _ db) as [db1|] eqn:Hw; [|exact Hsettled].
    cbn. eapply applyWrite_settled; [exact Hw| |exact Hsettled].
    intros ? ? [= _ <-]. cbn. by destruct (isSuccess paystackData).
  - destruct (applyWrite _ db) as [db2|] eqn:Hw; [|exact Hsettled].
    cbn. eapply applyWrite_settled; [exact Hw| |exact Hsettled]. discriminate.
Qed.

(** Between two statements of other requests, a webhook delivery that has
    not read yet, or has finished, stays inert while its reference is
    settled. *)
Lemma step_inert paystack now data c s :
  (sys_webhook s = W_start data \/ sys_webhook s = W_done) ->
  settled (data_reference data) (sys_db s) ->
  (sys_webhook (step paystack now c s) = W_start data
   \/ sys_webhook (step paystack now c s) = W_done)
  /\ settled (data_reference data) (sys_db (step paystack now c s))
  /\ writesOf Webhook (sys_log (step paystack now c s))
     = writesOf Webhook (sys_log s).
Proof.
  intros Hthread Hsettled. destruct c; unfold step.
  - destruct Hthread as [-> | ->]; cbn [webhook_step].
    + destruct (payment_findFirst_paystackReference (sys_db s) (data_reference data))
        as [[id payment]|] eqn:Hfind; cbn [sys_webhook sys_db sys_log].
      * apply findFirst_Some in Hfind as [Hrow Href].
        apply String.eqb_eq in Href.
        rewrite bool_decide_eq_false_2 by exact (Hsettled id payment Hrow Href).
        rewrite writesOf_app. cbn. by rewrite app_nil_r; auto.
      * rewrite writesOf_app. cbn. by rewrite app_nil_r; auto.
    + cbn [sys_webhook sys_db sys_log fmap list_fmap]. by rewrite app_nil_r; auto.
  - pose proof (poll_step_settled paystack (now Poll) _ (sys_poll s) _ Hsettled)
      as Hkept.
    destruct (poll_step paystack (now Poll) (sys_poll s) (sys_db s))
      as [[t db] acts].
    cbn [sys_webhook sys_db sys_log]. split; [exact Hthread|]. split; [exact Hkept|].
    rewrite writesOf_app, writesOf_other by discriminate. apply app_nil_r.
Qed.

(** C3 as stated fails: in this interleaving both callers read the payment
    as [PENDING] and both then issue the payment update and the order
    update; the order keeps the [paidAt] of the later writer. *)
Lemma both_callers_write_after_reading_pending :
  observedBy Webhook
    (sys_log (run (Sample.paystack "success") Sample.clock Sample.readsFirst
                (Sample.bothPending PaymentStatus.PENDING)))
  = [Some PaymentStatus.PENDING]
  /\ observedBy Poll
       (sys_log (run (Sample.paystack "success") Sample.clock Sample.readsFirst
                   (Sample.bothPending PaymentStatus.PENDING)))
     = [Some PaymentStatus.PENDING]
  /\ writesOf Webhook
       (sys_log (run (Sample.paystack "success") Sample.clock Sample.readsFirst
                   (Sample.bothPending PaymentStatus.PENDING)))
     = [PaymentUpdate "payment-1"
          (chargeSuccessUpdate 50 (Sample.charge "success"));
        OrderUpdate "order-1" (paidOrderUpdate 50)]
  /\ writesOf Poll
       (sys_log (run (Sample.paystack "success") Sample.clock Sample.readsFirst
                   (Sample.bothPending PaymentStatus.PENDING)))
     = [PaymentUpdate "payment-1"
          (verifyPaymentUpdate 60 (Sample.charge "success"));
        OrderUpdate "order-1" (paidOrderUpdate 60)]
  /\ order_paidAt <$>
       orders (sys_db (run (Sample.paystack "success") Sample.clock
                         Sample.readsFirst
                         (Sample.bothPending PaymentStatus.PENDING)))
         !! "order-1"
     = Some (Some 60).
Proof. repeat split; vm_compute; reflexivity. Qed.

(** C3, amended. The guard of the webhook path is a read of the payment
    followed by separate, unconditional writes. A charge.success delivery
    that has not yet read the payment, for a reference none of whose rows
    is [PENDING] any more, issues no write in any interleaving with a poll
    (the reference stays settled and the delivery ends without a write).
    A delivery that has read [PENDING] issues its payment update against
    whatever row the store holds when the statement runs. *)
Theorem webhook_inert_once_settled paystack now schedule s data :
  sys_webhook s = W_start data ->
  settled (data_reference data) (sys_db s) ->
  (writesOf Webhook (sys_log (run paystack now schedule s))
   = writesOf Webhook (sys_log s)
   /\ settled (data_reference data) (sys_db (run paystack now schedule s))
   /\ (sys_webhook (run paystack now schedule s) = W_start data
       \/ sys_webhook (run paystack now schedule s) = W_done))
  /\ (forall id observed row db,
        payments db !! id = Some row ->
        webhook_step (now Webhook) (W_updatePayment data id observed) db
        = (W_updateOrder observed,
           with_payments
             (insert id (applyPaymentUpdate
                           (chargeSuccessUpdate (now Webhook) data) row)) db,
           [Issued (PaymentUpdate id (chargeSuccessUpdate (now Webhook) data))])).
Proof.
  intros Hstart Hsettled. split.
  - assert (Hthread : sys_webhook s = W_start data \/ sys_webhook s = W_done)
      by (left; exact Hstart).
    clear Hstart. unfold run.
    revert s Hthread Hsettled.
    induction schedule as [|c schedule IH]; intros s Hthread Hsettled.
    + cbn. auto.
    + cbn [foldl].
      destruct (step_inert paystack now data c s Hthread Hsettled)
        as (Hthread' & Hsettled' & Hlog).
      destruct (IH _ Hthread' Hsettled') as (Hw & Hs & Ht).
      split; [congruence|]. split; [exact Hs | exact Ht].
  - intros id observed row db Hrow. cbn [webhook_step].
    by rewrite (applyWrite_PaymentUpdate _ _ _ _ Hrow).
Qed.

Lemma webhook_inert_once_settled_witness :
  (writesOf Webhook
     (sys_log (run (Sample.paystack "success") Sample.clock Sample.pollFirst
                 (Sample.bothPending PaymentStatus.COMPLETED)))
   = writesOf Webhook (sys_log (Sample.bothPending PaymentStatus.COMPLETED))
   /\ settled (data_reference (Sample.charge "success"))
        (sys_db (run (Sample.paystack "success") Sample.clock Sample.pollFirst
                   (Sample.bothPending PaymentStatus.COMPLETED)))
   /\ (sys_webhook (run (Sample.paystack "success") Sample.clock Sample.pollFirst
                      (Sample.bothPending PaymentStatus.COMPLETED))
       = W_start (Sample.charge "success")
       \/ sys_webhook (run (Sample.paystack "success") Sample.clock
                         Sample.pollFirst
                         (Sample.bothPending PaymentStatus.COMPLETED))
          = W_done))
  /\ (forall id observed row db,
        payments db !! id = Some row ->
        webhook_step (Sample.clock Webhook)
          (W_updatePayment (Sample.charge "success") id observed) db
        = (W_updateOrder observed,
           with_payments
             (insert id (applyPaymentUpdate
                           (chargeSuccessUpdate (Sample.clock Webhook)
                              (Sample.charge "success")) row)) db,
           [Issued (PaymentUpdate id
                      (chargeSuccessUpdate (Sample.clock Webhook)
                         (Sample.charge "success")))])).
Proof.
  apply (webhook_inert_once_settled (Sample.paystack "success") Sample.clock
           Sample.pollFirst (Sample.bothPending PaymentStatus.COMPLETED)
           (Sample.charge "success")).
  - reflexivity.
  - apply (bool_decide_unpack _). vm_compute. exact I.
Defined.

(** ** Order creation: what the validation reads *)

Lemma findProduct_Some db productIds storeId productId p :
  findProduct (product_findMany db productIds storeId) productId = Some p ->
  pwv_id p = productId
  /\ products db !! productId = Some (pwv_product p)
  /\ productId ∈ productIds
  /\ product_storeId (pwv_product p) = storeId
  /\ product_isAvailable (pwv_product p) = true
  /\ pwv_variants p
     = map_to_list (filter (fun kv : string * ProductVariant =>
                              variant_productId kv.2 = productId)
                           (productVariants db)).
Proof.
  unfold findProduct, product_findMany. intros Hfind.
  apply find_some in Hfind as [Hin Hid].
  apply String.eqb_eq in Hid.
  apply list_elem_of_In, list_elem_of_fmap in Hin as ([k product] & -> & Hrow).
  apply elem_of_map_to_list, map_lookup_filter_Some in Hrow
    as (Hrow & Hk & Hstore & Havailable).
  cbn in *. subst k. done.
Qed.

Lemma findVariant_Some db productId variantId k variant :
  findVariant
    (map_to_list (filter (fun kv : string * ProductVariant =>
                            variant_productId kv.2 = productId)
                         (productVariants db))) variantId = Some (k, variant) ->
  k = variantId
  /\ productVariants db !! variantId = Some variant
  /\ variant_productId variant = productId.
Proof.
  unfold findVariant. intros Hfind.
  apply find_some in Hfind as [Hin Hid].
  apply String.eqb_eq in Hid. cbn in Hid. subst k.
  apply list_elem_of_In, elem_of_map_to_list, map_lookup_filter_Some in Hin
    as (Hrow & Hproduct).
  done.
Qed.

(** A line the loop body accepts is orderable and in stock, and the stored
    line keeps its product, variant and quantity. *)
Lemma validateItem_Return db productIds storeId item orderItem :
  validateItem (product_findMany db productIds storeId) item = Return orderItem ->
  lineOrderable db storeId item = true
  /\ lineInStock db item = true
  /\ item_productId orderItem = dto_productId item
  /\ item_variantId orderItem = dto_variantId item
  /\ item_quantity orderItem = dto_quantity item.
Proof.
  unfold validateItem, lineOrderable, lineInStock, lineStock.
  destruct (findProduct _ _) as [p|] eqn:Hp; [|discriminate].
  apply findProduct_Some in Hp
    as (Hid & Hrow & Hin & Hstore & Havailable & Hvariants).
  rewrite Hrow. unfold resolveLine. rewrite Hvariants.
  rewrite Hstore, String.eqb_refl, Havailable. cbn [andb].
  destruct (truthy (dto_variantId item)) eqn:Hv.
  - destruct (findVariant _ _) as [[k variant]|] eqn:Hvariant; [|discriminate].
    apply findVariant_Some in Hvariant as (-> & Hvrow & Hvproduct).
    rewrite Hvrow, Hvproduct, String.eqb_refl.
    destruct (variant_isAvailable variant); [|discriminate].
    cbn [mbind Outcome_bind option_bind andb]. unfold validateStock.
    destruct (product_trackInventory (pwv_product p)).
    + destruct (variant_stockQuantity variant) as [s|]; cbn.
      * destruct (Z.ltb_spec s (dto_quantity item)); [discriminate|].
        intros [= <-]. cbn. repeat split; try done. by apply Z.leb_le.
      * by intros [= <-].
    + by intros [= <-].
  - cbn [mbind Outcome_bind option_bind]. unfold validateStock.
    destruct (product_trackInventory (pwv_product p)).
    + destruct (product_stockQuantity (pwv_product p)) as [s|]; cbn.
      * destruct (Z.ltb_spec s (dto_quantity item)); [discriminate|].
        intros [= <-]. cbn. repeat split; try done. by apply Z.leb_le.
      * by intros [= <-].
    + by intros [= <-].
Qed.

(** The loop returns the stored lines of the cart, one per line and in
    order, after the lines it was given. *)
Lemma validateItems_Return products items subtotal orderItems subtotal' result :
  validateItems products items subtotal orderItems = Return (subtotal', result) ->
  exists added,
    result = orderItems ++ added
    /\ Forall2 (fun item orderItem => validateItem products item = Return orderItem)
               items added.
Proof.
  revert subtotal orderItems.
  induction items as [|item items IH]; intros subtotal orderItems; cbn.
  - intros [= <- <-]. exists []. by rewrite app_nil_r.
  - destruct (validateItem products item) as [orderItem|] eqn:Hitem; [|discriminate].
    intros Hrest. apply IH in Hrest as (added & -> & Hadded).
    exists (orderItem :: added). split; [by rewrite <- app_assoc|].
    by constructor.
Qed.

Lemma validateItems_lines db productIds storeId items subtotal orderItems r :
  validateItems (product_findMany db productIds storeId) items subtotal orderItems
  = Return r ->
  forallb (lineOrderable db storeId) items = true
  /\ forallb (lineInStock db) items = true.
Proof.
  destruct r as [subtotal' result]. intros Hloop.
  apply validateItems_Return in Hloop as (added & _ & Hadded).
  induction Hadded as [|item orderItem items added Hitem _ IH]; [done|].
  apply validateItem_Return in Hitem as (Horderable & Hstock & _).
  destruct IH as [IH1 IH2]. cbn. by rewrite Horderable, Hstock, IH1, IH2.
Qed.




(** ** What the writes do to the stock counters *)

Lemma shift_0 counter : shift 0 counter = counter.
Proof.
  destruct counter as [[q|]|]; cbn; try reflexivity.
  do 2 f_equal. lia.
Qed.

Lemma shift_shift d1 d2 counter :
  shift d2 (shift d1 counter) = shift (d1 + d2) counter.
Proof.
  destruct counter as [[q|]|]; cbn; try reflexivity.
  do 2 f_equal. lia.
Qed.

Lemma applyWrite_product_stock productId w db db' :
  applyWrite w db = Some db' ->
  product_stockQuantity <$> products db' !! productId
  = shift (productStockDelta productId w)
          (product_stockQuantity <$> products db !! productId)
  /\ product_trackInventory <$> products db' !! productId
     = product_trackInventory <$> products db !! productId.
Proof.
  destruct w; cbn [applyWrite productStockDelta]; intros Hw.
  - case_match; simplify_eq. cbn. by rewrite shift_0.
  - destruct (orders db !! id); simplify_eq/=. by rewrite shift_0.
  - destruct (products db !! id) as [p|] eqn:Hp; simplify_eq/=.
    rewrite lookup_insert. case_bool_decide as Hid; case_decide; try done.
    + subst. rewrite Hp. cbn. by destruct (product_stockQuantity p).
    + by rewrite shift_0.
  - destruct (products db !! id) as [p|] eqn:Hp; simplify_eq/=.
    rewrite shift_0, lookup_insert. case_decide; [|done].
    subst. by rewrite Hp.
  - destruct (productVariants db !! id); simplify_eq/=. by rewrite shift_0.
  - destruct (payments db !! id); simplify_eq/=. by rewrite shift_0.
Qed.

Lemma applyWrite_variant_stock variantId w db db' :
  applyWrite w db = Some db' ->
  variant_stockQuantity <$> productVariants db' !! variantId
  = shift (variantStockDelta variantId w)
          (variant_stockQuantity <$> productVariants db !! variantId).
Proof.
  destruct w; cbn [applyWrite variantStockDelta]; intros Hw.
  - case_match; simplify_eq. cbn. by rewrite shift_0.
  - destruct (orders db !! id); simplify_eq/=. by rewrite shift_0.
  - destruct (products db !! id); simplify_eq/=. by rewrite shift_0.
  - destruct (products db !! id); simplify_eq/=. by rewrite shift_0.
  - destruct (productVariants db !! id) as [v|] eqn:Hv; simplify_eq/=.
    rewrite lookup_insert. case_bool_decide as Hid; case_decide; try done.
    + subst. rewrite Hv. cbn. by destruct (variant_stockQuantity v).
    + by rewrite shift_0.
  - destruct (payments db !! id); simplify_eq/=. by rewrite shift_0.
Qed.

Lemma applyWrites_product_stock productId ws db db' :
  applyWrites ws db = Some db' ->
  product_stockQuantity <$> products db' !! productId
  = shift (totalDelta (productStockDelta productId) ws)
          (product_stockQuantity <$> products db !! productId)
  /\ product_trackInventory <$> products db' !! productId
     = product_trackInventory <$> products db !! productId.
Proof.
  revert db. induction ws as [|w ws IH]; intros db; cbn.
  - intros [= <-]. by rewrite shift_0.
  - destruct (applyWrite w db) as [db1|] eqn:Hw; [|discriminate]. cbn.
    intros Hrest. apply IH in Hrest as [Hstock Htrack].
    apply (applyWrite_product_stock productId) in Hw as [Hstock1 Htrack1].
    rewrite Hstock, Hstock1, shift_shift, Htrack, Htrack1. done.
Qed.

Lemma applyWrites_variant_stock variantId ws db db' :
  applyWrites ws db = Some db' ->
  variant_stockQuantity <$> productVariants db' !! variantId
  = shift (totalDelta (variantStockDelta variantId) ws)
          (variant_stockQuantity <$> productVariants db !! variantId).
Proof.
  revert db. induction ws as [|w ws IH]; intros db; cbn.
  - intros [= <-]. by rewrite shift_0.
  - destruct (applyWrite w db) as [db1|] eqn:Hw; [|discriminate]. cbn.
    intros Hrest. apply IH in Hrest.
    apply (applyWrite_variant_stock variantId) in Hw.
    rewrite Hrest, Hw, shift_shift. done.
Qed.

Lemma totalDelta_app delta ws1 ws2 :
  totalDelta delta (ws1 ++ ws2) = totalDelta delta ws1 + totalDelta delta ws2.
Proof.
  unfold totalDelta. induction ws1 as [|w ws1 IH]; cbn; [reflexivity|].
  rewrite IH. lia.
Qed.






(** A write that is not about orders keeps the orders table. *)
Lemma applyWrites_orders ws db db' :
  Forall (fun w => match w with
                   | OrderCreate _ _ | OrderUpdate _ _ => False
                   | _ => True
                   end) ws ->
  applyWrites ws db = Some db' -> orders db' = orders db.
Proof.
  intros Hws. revert db. induction Hws as [|w ws Hw _ IH]; intros db; cbn.
  - by intros [= <-].
  - destruct (applyWrite w db) as [db1|] eqn:Hw1; [|discriminate]. cbn.
    intros Hrest. rewrite (IH _ Hrest). clear IH Hrest.
    destruct w; try done; cbn in Hw1.
    + destruct (products db !! id); by simplify_eq/=.
    + destruct (products db !! id); by simplify_eq/=.
    + destruct (productVariants db !! id); by simplify_eq/=.
    + destruct (payments db !! id); by simplify_eq/=.
Qed.

(** ** Order creation followed by cancellation *)

(** What a returning [createOrder] has done. *)
Lemma createOrder_Return newId draws now dto db r db1 :
  createOrder newId draws now dto db = Some (Return r, db1) ->
  exists subtotal orderItems orderNumber,
    validateItems
      (product_findMany db (dto_productId <$> dto_items dto) (dto_storeId dto))
      (dto_items dto) 0 [] = Return (subtotal, orderItems)
    /\ generateOrderNumber db draws = Some orderNumber
    /\ r = (newId,
            newOrder orderNumber now dto subtotal
              (calculateDeliveryFee (dto_deliveryOption dto) (dto_deliveryCity dto))
              0 0
              (subtotal
               + calculateDeliveryFee (dto_deliveryOption dto) (dto_deliveryCity dto)
               + 0 - 0)
              orderItems)
    /\ applyWrites
         (createOrderWrites newId r.2
            (product_findMany db (dto_productId <$> dto_items dto) (dto_storeId dto))
            (dto_items dto)) db = Some db1.
Proof.
  unfold createOrder.
  destruct (stores db !! dto_storeId dto) as [store|]; [|discriminate].
  destruct (_ || _); [discriminate|].
  destruct (_ && _); [discriminate|].
  destruct (negb _); [discriminate|].
  destruct (validateItems _ _ _ _) as [[subtotal orderItems]|]; [|discriminate].
  destruct (generateOrderNumber db draws) as [orderNumber|]; [|discriminate].
  cbn [mbind option_bind]. intros [= Htx].
  apply transaction_Return in Htx as [-> Hwrites].
  by exists subtotal, orderItems, orderNumber.
Qed.


Lemma createItemWrites_keep_orders products items :
  Forall (fun w => match w with
                   | OrderCreate _ _ | OrderUpdate _ _ => False
                   | _ => True
                   end) (concat (createItemWrites products <$> items)).
Proof.
  induction items as [|item items IH]; cbn; [constructor|].
  apply Forall_app. split; [|exact IH].
  unfold createItemWrites. apply Forall_app. split; [|by repeat constructor].
  destruct (findProduct products (dto_productId item)) as [p|]; [|constructor].
  destruct (product_trackInventory (pwv_product p)); [|constructor].
  destruct (truthy (dto_variantId item)); by repeat constructor.
Qed.





(** The sample order takes two units of rice and one large shirt; the
    cancellation puts them back. *)
Example create_then_cancel_sample :
  product_stockQuantity <$> products Sample.db0 !! "rice" = Some (Some 5)
  /\ product_stockQuantity <$> products Sample.afterCreate !! "rice" = Some (Some 3)
  /\ product_stockQuantity <$> products Sample.cancelled.2 !! "rice" = Some (Some 5)
  /\ variant_stockQuantity <$> productVariants Sample.afterCreate !! "shirt-l"
     = Some (Some 2)
  /\ variant_stockQuantity <$> productVariants Sample.cancelled.2 !! "shirt-l"
     = Some (Some 3).
Proof. repeat split; vm_compute; reflexivity. Qed.

(** ** Order creation: acceptance *)








(** The stock and order-count writes go through when their rows exist. *)
Lemma applyWrites_updates ws db :
  Forall (fun w => match w with
                   | ProductUpdateStock id _ | ProductUpdateOrderCount id _ =>
                       is_Some (products db !! id)
                   | ProductVariantUpdateStock id _ =>
                       is_Some (productVariants db !! id)
                   | _ => False
                   end) ws ->
  is_Some (applyWrites ws db).
Proof.
  revert db. induction ws as [|w ws IH]; intros db Hws; cbn; [by eexists|].
  apply Forall_cons in Hws as [Hw Hws].
  assert (Hstep : is_Some (applyWrite w db)).
  { destruct w; try done; cbn; destruct Hw as [row ->]; by eexists. }
  destruct Hstep as [db1 Hstep]. rewrite Hstep. cbn. apply IH.
  eapply Forall_impl; [exact Hws|]. intros w' Hw'.
  destruct w'; try done.
  - apply (fmap_is_Some product_trackInventory).
    destruct (applyWrite_product_stock id _ _ _ Hstep) as [_ ->].
    by apply fmap_is_Some.
  - apply (fmap_is_Some product_trackInventory).
    destruct (applyWrite_product_stock id _ _ _ Hstep) as [_ ->].
    by apply fmap_is_Some.
  - apply (fmap_is_Some variant_stockQuantity).
    rewrite (applyWrite_variant_stock id _ _ _ Hstep).
    destruct Hw' as [variant ->]. cbn.
    destruct (variant_stockQuantity variant); by eexists.
Qed.










(** * Further properties *)

Import Accounting.

(** ** Order creation: what an accepted order looks like *)

Lemma product_findMany_ids db productIds storeId :
  pwv_id <$> product_findMany db productIds storeId
  = (map_to_list
       (filter (fun kp : string * Product =>
                  kp.1 ∈ productIds
                  ∧ product_storeId kp.2 = storeId
                  ∧ product_isAvailable kp.2 = true) (products db))).*1.
Proof.
  unfold product_findMany. rewrite <- list_fmap_compose.
  apply list_fmap_ext. by intros ? [k product].
Qed.

(** The query returns one row per distinct id at most: as many rows as
    ids only when no id repeats. *)
Lemma product_findMany_full db productIds storeId :
  length (product_findMany db productIds storeId) = length productIds ->
  NoDup productIds.
Proof.
  intros Hlength.
  rewrite <- (length_fmap pwv_id), product_findMany_ids in Hlength.
  set (rows := filter _ (products db)) in *.
  assert (Hsub : (map_to_list rows).*1 ⊆+ productIds).
  { apply NoDup_submseteq; [apply NoDup_fst_map_to_list|].
    intros productId Hin. apply list_elem_of_fmap in Hin as ([k product] & -> & Hrow).
    by apply elem_of_map_to_list, map_lookup_filter_Some in Hrow as (_ & Hin & _). }
  apply submseteq_length_Permutation in Hsub; [|lia].
  rewrite <- Hsub. apply NoDup_fst_map_to_list.
Qed.

Lemma createOrder_NoDup newId draws now dto db r db' :
  createOrder newId draws now dto db = Some (Return r, db') ->
  NoDup (dto_productId <$> dto_items dto).
Proof.
  unfold createOrder.
  destruct (stores db !! dto_storeId dto) as [store|]; [|discriminate].
  destruct (_ || _); [discriminate|].
  destruct (_ && _); [discriminate|].
  destruct (Nat.eqb _ _) eqn:Hlength; [|discriminate].
  intros _. apply Nat.eqb_eq in Hlength. by apply product_findMany_full in Hlength.
Qed.

(** X4. A cart that names the same product on two lines (for instance two
    variants of one product) is always rejected: with the store open and
    the delivery fields complete, [createOrder] throws "Some products are
    not available" and the store is the one it was given. *)
Theorem createOrder_rejects_repeated_product newId draws now dto db :
  storeOpen db dto = true ->
  deliveryComplete dto = true ->
  ~ NoDup (dto_productId <$> dto_items dto) ->
  createOrder newId draws now dto db
  = Some (Throw (BadRequestException "Some products are not available"), db).
Proof.
  unfold storeOpen, deliveryComplete, createOrder.
  intros Hstore Hdelivery Hrepeated.
  destruct (stores db !! dto_storeId dto) as [store|]; [|discriminate].
  apply andb_true_iff in Hstore as [-> ->]. cbn [negb orb].
  assert (Hfields :
    bool_decide (dto_deliveryOption dto = DeliveryOption.MERCHANT_DELIVERY)
    && (negb (truthy (dto_deliveryAddress dto))
        || negb (truthy (dto_deliveryCity dto))) = false).
  { destruct (bool_decide _); [|reflexivity].
    apply andb_true_iff in Hdelivery as [-> ->]. reflexivity. }
  rewrite Hfields.
  destruct (Nat.eqb _ _) eqn:Hlength; [|reflexivity].
  apply Nat.eqb_eq, product_findMany_full in Hlength. by destruct Hrepeated.
Qed.

Lemma createOrder_rejects_repeated_product_witness :
  createOrder "order-9" ["ORD-17000000042"] 7 MoreSamples.shirtTwice Sample.db0
  = Some (Throw (BadRequestException "Some products are not available"),
          Sample.db0).
Proof.
  apply (createOrder_rejects_repeated_product "order-9" ["ORD-17000000042"] 7
           MoreSamples.shirtTwice Sample.db0).
  - reflexivity.
  - reflexivity.
  - intros Hnodup. apply (bool_decide_pack _) in Hnodup.
    vm_compute in Hnodup. exact Hnodup.
Defined.

Lemma validateItem_subtotal products item orderItem :
  validateItem products item = Return orderItem ->
  item_subtotal orderItem = item_price orderItem * item_quantity orderItem.
Proof.
  unfold validateItem.
  destruct (findProduct products (dto_productId item)) as [p|]; [|discriminate].
  destruct (resolveLine p item) as [[[price variantName] stockQuantity]|];
    [|discriminate].
  cbn [mbind Outcome_bind].
  destruct (validateStock _ _ _); [|discriminate].
  by intros [= <-].
Qed.

Lemma sumZ_app l1 l2 : sumZ (l1 ++ l2) = sumZ l1 + sumZ l2.
Proof. unfold sumZ. induction l1 as [|x l1 IH]; cbn; lia. Qed.

Lemma validateItems_subtotal products items subtotal orderItems subtotal' result :
  validateItems products items subtotal orderItems = Return (subtotal', result) ->
  subtotal' + sumZ (item_subtotal <$> orderItems)
  = subtotal + sumZ (item_subtotal <$> result).
Proof.
  revert subtotal orderItems.
  induction items as [|item items IH]; intros subtotal orderItems; cbn.
  - by intros [= <- <-].
  - destruct (validateItem products item) as [orderItem|]; [|discriminate].
    intros Hrest. apply IH in Hrest.
    rewrite fmap_app, sumZ_app in Hrest. cbn in Hrest. lia.
Qed.

(** X5. An order that [createOrder] returns is stored under the new id, is
    [PLACED] with payment [PENDING] and a status history of exactly the
    creation entry, has one stored line per cart line (same product,
    variant and quantity, in order), each line's subtotal is its price
    times its quantity, the order subtotal is the sum of the line
    subtotals, tax and discount are zero, and the total is the subtotal
    plus the delivery fee of the fee table. *)
Theorem createOrder_order_shape newId draws now dto db orderId order db' :
  createOrder newId draws now dto db = Some (Return (orderId, order), db') ->
  orderId = newId
  /\ orders db' !! newId = Some order
  /\ order_status order = OrderStatus.PLACED
  /\ order_paymentStatus order = PaymentStatus.PENDING
  /\ order_statusHistory order
     = [mkStatusHistoryEntry OrderStatus.PLACED now "Order placed"]
  /\ (fun i => (item_productId i, item_variantId i, item_quantity i))
       <$> order_items order
     = (fun i => (dto_productId i, dto_variantId i, dto_quantity i))
         <$> dto_items dto
  /\ Forall (fun i => item_subtotal i = item_price i * item_quantity i)
            (order_items order)
  /\ order_subtotal order = sumZ (item_subtotal <$> order_items order)
  /\ order_tax order = 0
  /\ order_discount order = 0
  /\ order_deliveryFee order
     = calculateDeliveryFee (dto_deliveryOption dto) (dto_deliveryCity dto)
  /\ order_total order = order_subtotal order + order_deliveryFee order.
Proof.
  intros Hcreate.
  apply createOrder_Return in Hcreate
    as (subtotal & orderItems & orderNumber & Hloop & _ & [= -> ->] & Hwrites).
  cbn [snd] in Hwrites.
  pose proof (validateItems_subtotal _ _ _ _ _ _ Hloop) as Hsum.
  apply validateItems_Return in Hloop as (added & Hadded & Hlines).
  cbn [app] in Hadded. subst added. cbn in Hsum.
  split; [reflexivity|]. split.
  { unfold createOrderWrites in Hwrites. cbn [applyWrites applyWrite] in Hwrites.
    destruct (_ || _); [discriminate|]. cbn [mbind option_bind] in Hwrites.
    rewrite (applyWrites_orders _ _ _ (createItemWrites_keep_orders _ _) Hwrites).
    apply lookup_insert_eq. }
  cbn [newOrder order_status order_paymentStatus order_statusHistory order_items
       order_subtotal order_tax order_discount order_deliveryFee order_total].
  split; [reflexivity|]. split; [by case_bool_decide|]. split; [reflexivity|].
  split.
  { clear Hsum Hwrites. revert Hlines.
    generalize (dto_items dto) as lines. intros lines Hlines.
    induction Hlines as [|item orderItem items orderItems' Hitem _ IH];
      [reflexivity|].
    apply validateItem_Return in Hitem as (_ & _ & Hp & Hv & Hq).
    cbn. by rewrite IH, Hp, Hv, Hq. }
  split.
  { eapply Forall2_Forall_r; [exact Hlines|].
    apply Forall_forall. intros orderItem _ item Hitem.
    exact (validateItem_subtotal _ _ _ Hitem). }
  split; [lia|]. repeat split; lia.
Qed.

Lemma createOrder_order_shape_witness :
  "order-9" = "order-9"
  /\ orders Sample.afterCreate !! "order-9" = Some Sample.createdOrder
  /\ order_status Sample.createdOrder = OrderStatus.PLACED
  /\ order_paymentStatus Sample.createdOrder = PaymentStatus.PENDING
  /\ order_statusHistory Sample.createdOrder
     = [mkStatusHistoryEntry OrderStatus.PLACED 7 "Order placed"]
  /\ (fun i => (item_productId i, item_variantId i, item_quantity i))
       <$> order_items Sample.createdOrder
     = (fun i => (dto_productId i, dto_variantId i, dto_quantity i))
         <$> dto_items Sample.riceAndShirt
  /\ Forall (fun i => item_subtotal i = item_price i * item_quantity i)
            (order_items Sample.createdOrder)
  /\ order_subtotal Sample.createdOrder
     = sumZ (item_subtotal <$> order_items Sample.createdOrder)
  /\ order_tax Sample.createdOrder = 0
  /\ order_discount Sample.createdOrder = 0
  /\ order_deliveryFee Sample.createdOrder
     = calculateDeliveryFee (dto_deliveryOption Sample.riceAndShirt)
         (dto_deliveryCity Sample.riceAndShirt)
  /\ order_total Sample.createdOrder
     = order_subtotal Sample.createdOrder + order_deliveryFee Sample.createdOrder.
Proof.
  apply (createOrder_order_shape "order-9" ["ORD-17000000042"] 7
           Sample.riceAndShirt Sample.db0 "order-9" Sample.createdOrder
           Sample.afterCreate).
  vm_compute; reflexivity.
Defined.

(** ** Order creation: what it does to stock and order counts *)

Lemma applyWrite_orderCount productId w db db' :
  applyWrite w db = Some db' ->
  product_orderCount <$> products db' !! productId
  = (fun c => c + productOrderCountDelta productId w)
      <$> (product_orderCount <$> products db !! productId).
Proof.
  assert (Hzero : forall o : option Z, o = (fun c => c + 0) <$> o).
  { intros [c|]; cbn; [f_equal; lia | reflexivity]. }
  destruct w; cbn [applyWrite productOrderCountDelta]; intros Hw.
  - case_match; simplify_eq. cbn. apply Hzero.
  - destruct (orders db !! id); simplify_eq/=. apply Hzero.
  - destruct (products db !! id) as [p|] eqn:Hp; simplify_eq/=.
    rewrite lookup_insert. case_decide; [|apply Hzero].
    subst. rewrite Hp. cbn. f_equal. lia.
  - destruct (products db !! id) as [p|] eqn:Hp; simplify_eq/=.
    rewrite lookup_insert.
    case_bool_decide; case_decide; subst; rewrite ?Hp; try done; apply Hzero.
  - destruct (productVariants db !! id); simplify_eq/=. apply Hzero.
  - destruct (payments db !! id); simplify_eq/=. apply Hzero.
Qed.

Lemma applyWrites_orderCount productId ws db db' :
  applyWrites ws db = Some db' ->
  product_orderCount <$> products db' !! productId
  = (fun c => c + totalDelta (productOrderCountDelta productId) ws)
      <$> (product_orderCount <$> products db !! productId).
Proof.
  revert db. unfold totalDelta.
  induction ws as [|w ws IH]; intros db; cbn [applyWrites foldr].
  - intros [= <-]. destruct (products db !! productId); cbn; [f_equal; lia|done].
  - destruct (applyWrite w db) as [db1|] eqn:Hw; [|discriminate].
    cbn [mbind option_bind].
    intros Hrest. rewrite (IH _ Hrest), (applyWrite_orderCount productId _ _ _ Hw).
    destruct (products db !! productId); cbn; [f_equal; lia|done].
Qed.

Lemma totalDelta_concat_zero delta found items :
  (forall other, other ∈ items -> totalDelta delta (createItemWrites found other) = 0) ->
  totalDelta delta (concat (createItemWrites found <$> items)) = 0.
Proof.
  induction items as [|other items IH]; intros Hzero; [reflexivity|].
  cbn [concat fmap list_fmap]. rewrite totalDelta_app, (Hzero other), IH; [lia| |by left].
  intros ? ?. apply Hzero. by right.
Qed.

(** With distinct products in the cart, only the line itself contributes
    to a delta that the lines of other products leave alone. *)
Lemma totalDelta_concat_single delta found items item :
  NoDup (dto_productId <$> items) ->
  item ∈ items ->
  (forall other, other ∈ items -> dto_productId other <> dto_productId item ->
                 totalDelta delta (createItemWrites found other) = 0) ->
  totalDelta delta (concat (createItemWrites found <$> items))
  = totalDelta delta (createItemWrites found item).
Proof.
  induction items as [|head items IH]; intros Hnodup Hin Hzero.
  - by apply elem_of_nil in Hin.
  - cbn in Hnodup. apply NoDup_cons in Hnodup as [Hhead Hnodup].
    cbn [concat fmap list_fmap]. rewrite totalDelta_app.
    apply elem_of_cons in Hin as [->|Hin].
    + rewrite totalDelta_concat_zero; [lia|].
      intros other Hother. apply Hzero; [by right|].
      intros Heq. apply Hhead. rewrite <- Heq. apply list_elem_of_fmap. by exists other.
    + rewrite IH; [|exact Hnodup|exact Hin|].
      * rewrite (Hzero head); [lia|by left|].
        intros Heq. apply Hhead. rewrite Heq. apply list_elem_of_fmap. by exists item.
      * intros other Hother. apply Hzero. by right.
Qed.

Lemma createItemWrites_other_product found item productId :
  dto_productId item <> productId ->
  totalDelta (productStockDelta productId) (createItemWrites found item) = 0
  /\ totalDelta (productOrderCountDelta productId) (createItemWrites found item) = 0.
Proof.
  intros Hne. unfold createItemWrites. rewrite !totalDelta_app.
  destruct (findProduct found (dto_productId item)) as [p|];
    [destruct (product_trackInventory (pwv_product p));
     [destruct (truthy (dto_variantId item))|]|];
    cbn; rewrite ?bool_decide_eq_false_2 by exact Hne; done.
Qed.

Lemma createItemWrites_other_variant found item variantId :
  ~ (truthy (dto_variantId item) = true /\ default "" (dto_variantId item) = variantId) ->
  totalDelta (variantStockDelta variantId) (createItemWrites found item) = 0.
Proof.
  intros Hne. unfold createItemWrites. rewrite !totalDelta_app.
  destruct (findProduct found (dto_productId item)) as [p|]; [|done].
  destruct (product_trackInventory (pwv_product p)); [|done].
  destruct (truthy (dto_variantId item)); [|done].
  cbn. rewrite bool_decide_eq_false_2; [done|]. intros Heq. by apply Hne.
Qed.

Lemma createItemWrites_own found item p :
  findProduct found (dto_productId item) = Some p ->
  totalDelta (productOrderCountDelta (dto_productId item))
             (createItemWrites found item) = dto_quantity item
  /\ totalDelta (productStockDelta (dto_productId item))
                (createItemWrites found item)
     = (if product_trackInventory (pwv_product p)
           && negb (truthy (dto_variantId item))
        then - dto_quantity item else 0)
  /\ totalDelta (variantStockDelta (default "" (dto_variantId item)))
                (createItemWrites found item)
     = (if product_trackInventory (pwv_product p) && truthy (dto_variantId item)
        then - dto_quantity item else 0).
Proof.
  intros Hp. unfold createItemWrites. rewrite Hp, !totalDelta_app.
  destruct (product_trackInventory (pwv_product p));
    [destruct (truthy (dto_variantId item))|];
    cbn; rewrite ?bool_decide_eq_true_2 by reflexivity; repeat split; lia.
Qed.

(** Two orderable lines that name the same variant name the same product. *)
Lemma lineOrderable_variant_product db storeId item other :
  lineOrderable db storeId item = true ->
  lineOrderable db storeId other = true ->
  truthy (dto_variantId item) = true ->
  truthy (dto_variantId other) = true ->
  default "" (dto_variantId other) = default "" (dto_variantId item) ->
  dto_productId other = dto_productId item.
Proof.
  unfold lineOrderable. intros Hitem Hother Ti To Heq.
  rewrite Ti in Hitem. rewrite To, Heq in Hother.
  destruct (products db !! dto_productId item); [|discriminate].
  destruct (products db !! dto_productId other); [|discriminate].
  destruct (productVariants db !! _) as [variant|];
    [|by rewrite andb_false_r in Hitem].
  apply andb_true_iff in Hitem as [_ Hitem].
  apply andb_true_iff in Hitem as [Hitem _].
  apply andb_true_iff in Hother as [_ Hother].
  apply andb_true_iff in Hother as [Hother _].
  apply String.eqb_eq in Hitem, Hother. congruence.
Qed.

Lemma counter_moved {A} (f : A -> option Z) (before after : option A) d :
  f <$> after = shift d (f <$> before) ->
  after ≫= f = (fun s => s + d) <$> (before ≫= f).
Proof.
  unfold shift.
  destruct before as [b|], after as [a|]; cbn;
    try destruct (f b); try destruct (f a); cbn; intros; by simplify_eq.
Qed.

(** X6. After [createOrder] returned, for every line of the cart: the
    order count of its product is up by the line's quantity; if the
    product tracks inventory the effective stock counter of the line (the
    variant's when a variant is chosen, else the product's) is down by
    exactly the quantity when it has a value (and is still [NULL] when it
    had none), and it is not negative; if the product does not track
    inventory the counter is unchanged. *)
Theorem createOrder_takes_stock newId draws now dto db r db' item :
  createOrder newId draws now dto db = Some (Return r, db') ->
  item ∈ dto_items dto ->
  exists product,
    products db !! dto_productId item = Some product
    /\ product_orderCount <$> products db' !! dto_productId item
       = Some (product_orderCount product + dto_quantity item)
    /\ lineStock db' item
       = (if product_trackInventory product
          then (fun s => s - dto_quantity item) <$> lineStock db item
          else lineStock db item)
    /\ (product_trackInventory product = true ->
        forall s, lineStock db' item = Some s -> 0 <= s).
Proof.
  intros Hcreate Hin.
  pose proof (createOrder_NoDup _ _ _ _ _ _ _ Hcreate) as Hnodup.
  apply createOrder_Return in Hcreate
    as (subtotal & orderItems & orderNumber & Hloop & _ & _ & Hwrites).
  set (found := product_findMany db (dto_productId <$> dto_items dto)
                  (dto_storeId dto)) in *.
  pose proof (validateItems_lines _ _ _ _ _ _ _ Hloop) as [Horderable _].
  rewrite forallb_forall in Horderable.
  apply validateItems_Return in Hloop as (added & _ & Hlines).
  assert (Hitem : exists orderItem, validateItem found item = Return orderItem).
  { apply list_elem_of_lookup in Hin as [k Hk].
    destruct (Forall2_lookup_l _ _ _ _ _ Hlines Hk) as (orderItem & _ & Hitem).
    by exists orderItem. }
  destruct Hitem as [orderItem Hitem].
  pose proof (validateItem_Return _ _ _ _ _ Hitem) as (_ & Hstock & _).
  assert (Hp : exists p, findProduct found (dto_productId item) = Some p).
  { unfold validateItem in Hitem.
    destruct (findProduct found (dto_productId item)) as [p|]; [by exists p|done]. }
  destruct Hp as [p Hp].
  pose proof (findProduct_Some _ _ _ _ _ Hp) as (_ & Hrow & _).
  destruct (createItemWrites_own _ _ _ Hp) as (Hcount & Hpstock & Hvstock).
  exists (pwv_product p). split; [exact Hrow|].
  unfold createOrderWrites in Hwrites.
  assert (Hline : lineStock db' item
                  = (if product_trackInventory (pwv_product p)
                     then (fun s => s - dto_quantity item) <$> lineStock db item
                     else lineStock db item)).
  { unfold lineStock. destruct (truthy (dto_variantId item)) eqn:Htruthy.
    - pose proof (applyWrites_variant_stock (default "" (dto_variantId item))
                    _ _ _ Hwrites) as Hv.
      change (totalDelta ?d (?w :: ?ws)) with (d w + totalDelta d ws) in Hv.
      cbn [variantStockDelta] in Hv.
      rewrite (totalDelta_concat_single _ _ _ item Hnodup Hin) in Hv.
      2:{ intros other Hother Hne. apply createItemWrites_other_variant.
          intros [To Heq]. apply Hne.
          eapply lineOrderable_variant_product; try done.
          - by apply Horderable, list_elem_of_In.
          - by apply Horderable, list_elem_of_In. }
      rewrite Hvstock, andb_true_r in Hv.
      rewrite (counter_moved _ _ _ _ Hv).
      destruct (product_trackInventory (pwv_product p));
        destruct (productVariants db !! _ ≫= variant_stockQuantity);
        cbn; try done; f_equal; lia.
    - destruct (applyWrites_product_stock (dto_productId item) _ _ _ Hwrites)
        as [Hs _].
      change (totalDelta ?d (?w :: ?ws)) with (d w + totalDelta d ws) in Hs.
      cbn [productStockDelta] in Hs.
      rewrite (totalDelta_concat_single _ _ _ item Hnodup Hin) in Hs.
      2:{ intros other _ Hne. by apply createItemWrites_other_product. }
      rewrite Hpstock, andb_true_r in Hs.
      rewrite (counter_moved _ _ _ _ Hs).
      destruct (product_trackInventory (pwv_product p));
        destruct (products db !! _ ≫= product_stockQuantity);
        cbn; try done; f_equal; lia. }
  split; [|split; [exact Hline|]].
  - rewrite (applyWrites_orderCount (dto_productId item) _ _ _ Hwrites).
    change (totalDelta ?d (?w :: ?ws)) with (d w + totalDelta d ws).
    cbn [productOrderCountDelta].
    rewrite (totalDelta_concat_single _ _ _ item Hnodup Hin).
    2:{ intros other _ Hne. by apply createItemWrites_other_product. }
    rewrite Hcount, Hrow. cbn. f_equal; lia.
  - intros Htrack s. rewrite Hline, Htrack.
    unfold lineInStock in Hstock. rewrite Hrow, Htrack in Hstock.
    destruct (lineStock db item) as [s0|]; [|discriminate].
    cbn. intros [= <-]. apply Z.leb_le in Hstock. lia.
Qed.

Lemma createOrder_takes_stock_witness :
  exists product,
    products Sample.db0 !! "rice" = Some product
    /\ product_orderCount <$> products Sample.afterCreate !! "rice"
       = Some (product_orderCount product + 2)
    /\ lineStock Sample.afterCreate (mkCreateOrderItemDto "rice" None 2)
       = (if product_trackInventory product
          then (fun s => s - 2)
                 <$> lineStock Sample.db0 (mkCreateOrderItemDto "rice" None 2)
          else lineStock Sample.db0 (mkCreateOrderItemDto "rice" None 2))
    /\ (product_trackInventory product = true ->
        forall s,
          lineStock Sample.afterCreate (mkCreateOrderItemDto "rice" None 2) = Some s ->
          0 <= s).
Proof.
  apply (createOrder_takes_stock "order-9" ["ORD-17000000042"] 7
           Sample.riceAndShirt Sample.db0 ("order-9", Sample.createdOrder)
           Sample.afterCreate (mkCreateOrderItemDto "rice" None 2)).
  - vm_compute; reflexivity.
  - apply (bool_decide_unpack _). vm_compute. exact I.
Defined.

(** ** Cancellation: what it does *)

(** The restoring writes are stock increments only. *)
Lemma cancelItemWrites_shape db items restores :
  mapM (cancelItemWrites db) items = Some restores ->
  Forall (fun w => isStockWrite w = true) (concat restores).
Proof.
  intros Hrestores. apply mapM_Some in Hrestores.
  induction Hrestores as [|item ws items restores Hitem _ IH]; [constructor|].
  cbn. apply Forall_app. split; [|exact IH].
  unfold cancelItemWrites in Hitem.
  destruct (products db !! item_productId item) as [product|]; [|discriminate].
  cbn in Hitem. injection Hitem as <-.
  destruct (product_trackInventory product); [|constructor].
  destruct (truthy (item_variantId item)); by repeat constructor.
Qed.

Lemma cancelItemWrites_exist db items :
  forallb (itemReferencesHold db) items = true ->
  exists restores,
    mapM (cancelItemWrites db) items = Some restores
    /\ Forall (fun w => match w with
                        | ProductUpdateStock id _ | ProductUpdateOrderCount id _ =>
                            is_Some (products db !! id)
                        | ProductVariantUpdateStock id _ =>
                            is_Some (productVariants db !! id)
                        | _ => False
                        end) (concat restores).
Proof.
  induction items as [|item items IH]; cbn; [by exists []|].
  intros Hrefs. apply andb_true_iff in Hrefs as [Hitem Hrefs].
  destruct (IH Hrefs) as (restores & -> & Htargets).
  unfold itemReferencesHold in Hitem. apply andb_true_iff in Hitem as [Hp Hv].
  apply bool_decide_eq_true in Hp. unfold cancelItemWrites at 1.
  destruct Hp as [product Hp]. rewrite Hp. cbn.
  eexists. split; [reflexivity|]. cbn. apply Forall_app. split; [|exact Htargets].
  destruct (product_trackInventory product); [|constructor].
  destruct (truthy (item_variantId item)) eqn:Htruthy; apply Forall_singleton.
  - destruct (item_variantId item) as [v|]; [|discriminate].
    by apply bool_decide_eq_true in Hv.
  - by rewrite Hp.
Qed.

Lemma stock_writes_keep_orders ws db db' :
  Forall (fun w => isStockWrite w = true) ws ->
  applyWrites ws db = Some db' ->
  orders db' = orders db /\ payments db' = payments db
  /\ forall productId,
       product_orderCount <$> products db' !! productId
       = product_orderCount <$> products db !! productId.
Proof.
  intros Hws Happly. split; [|split].
  - eapply applyWrites_orders; [|exact Happly].
    eapply Forall_impl; [exact Hws|]. by intros [].
  - revert db Happly. induction Hws as [|w ws Hw _ IH]; intros db; cbn.
    + by intros [= <-].
    + destruct (applyWrite w db) as [db1|] eqn:Hw1; [|discriminate]. cbn.
      intros Hrest. rewrite (IH _ Hrest).
      apply applyWrite_payments in Hw1. by destruct w.
  - intros productId. rewrite (applyWrites_orderCount productId _ _ _ Happly).
    replace (totalDelta _ ws) with 0.
    + destruct (products db !! productId); cbn; [f_equal; lia|done].
    + unfold totalDelta. clear Happly.
      induction Hws as [|w ws Hw _ IH]; [reflexivity|].
      cbn [foldr]. rewrite <- IH. by destruct w.
Qed.

(** A cancellation that passes its checks: the order row is rewritten,
    the stock writes follow, nothing else changes. *)
Lemma cancelOrder_runs now orderId dto userId db order :
  orders db !! orderId = Some order ->
  order_status order ∉ [OrderStatus.DELIVERED; OrderStatus.COMPLETED;
                        OrderStatus.CANCELLED] ->
  merchantOnlyCheck db order userId = Return () ->
  forallb (itemReferencesHold db) (order_items order) = true ->
  exists order' db',
    cancelOrder now orderId dto userId db
    = (Return {| result_message := "Order cancelled successfully";
                 result_orderNumber := order_orderNumber order |}, db')
    /\ orders db' = <[orderId := order']> (orders db)
    /\ order_status order' = OrderStatus.CANCELLED
    /\ order_cancelledAt order' = Some now
    /\ order_cancellationReason order'
       = assign (dto_cancellationReason dto) (order_cancellationReason order)
    /\ order_statusHistory order'
       = order_statusHistory order
         ++ [mkStatusHistoryEntry OrderStatus.CANCELLED now
               (or_default (dto_cancellationReason dto) "Order cancelled")]
    /\ order_paymentStatus order' = order_paymentStatus order
    /\ payments db' = payments db
    /\ forall productId,
         product_orderCount <$> products db' !! productId
         = product_orderCount <$> products db !! productId.
Proof.
  intros Horder Hopen Hcheck Hrefs. unfold cancelOrder.
  rewrite Horder, (bool_decide_eq_false_2 _ Hopen), Hcheck.
  destruct (cancelItemWrites_exist _ _ Hrefs) as (restores & Hrestores & Htargets).
  rewrite Hrestores. unfold transaction. cbn [applyWrites applyWrite].
  rewrite Horder. cbn [mbind option_bind].
  set (order' := applyOrderUpdate _ order).
  destruct (applyWrites_updates (concat restores)
              (with_orders (insert orderId order') db) Htargets) as [db' Hdb'].
  rewrite Hdb'.
  destruct (stock_writes_keep_orders _ _ _ (cancelItemWrites_shape _ _ _ Hrestores) Hdb')
    as (Horders & Hpayments & Hcounts).
  exists order', db'. repeat split; try done.
Qed.

(** X7. The owning merchant can cancel an order in any status but
    [DELIVERED], [COMPLETED] and [CANCELLED] (the order's lines referring to
    existing rows). The call returns; the order is [CANCELLED] with
    [cancelledAt] the instant of the call, the reason recorded when one is
    given, and exactly one status-history entry appended; its payment
    status, every payment row and every product's order count are left as
    they were. *)
Theorem cancelOrder_by_owner now orderId dto userId db order merchantId merchant store :
  orders db !! orderId = Some order ->
  order_status order ∉ [OrderStatus.DELIVERED; OrderStatus.COMPLETED;
                        OrderStatus.CANCELLED] ->
  merchant_findUnique_userId db userId = Some (merchantId, merchant) ->
  stores db !! order_storeId order = Some store ->
  store_merchantId store = merchantId ->
  forallb (itemReferencesHold db) (order_items order) = true ->
  exists order' db',
    cancelOrder now orderId dto (Some userId) db
    = (Return {| result_message := "Order cancelled successfully";
                 result_orderNumber := order_orderNumber order |}, db')
    /\ orders db' = <[orderId := order']> (orders db)
    /\ order_status order' = OrderStatus.CANCELLED
    /\ order_cancelledAt order' = Some now
    /\ order_cancellationReason order'
       = assign (dto_cancellationReason dto) (order_cancellationReason order)
    /\ order_statusHistory order'
       = order_statusHistory order
         ++ [mkStatusHistoryEntry OrderStatus.CANCELLED now
               (or_default (dto_cancellationReason dto) "Order cancelled")]
    /\ order_paymentStatus order' = order_paymentStatus order
    /\ payments db' = payments db
    /\ forall productId,
         product_orderCount <$> products db' !! productId
         = product_orderCount <$> products db !! productId.
Proof.
  intros Horder Hopen Hmerchant Hstore Howner Hrefs.
  apply cancelOrder_runs; try done.
  unfold merchantOnlyCheck.
  destruct (negb _ && truthy (Some userId)); [|reflexivity].
  change (default "" (Some userId)) with userId.
  by rewrite Hmerchant, Hstore, Howner, String.eqb_refl.
Qed.

Lemma cancelOrder_by_owner_witness :
  exists order' db',
    cancelOrder 300 "order-1" (mkCancelOrderDto (Some "Out of stock"))
      (Some "user-1") (Sample.dbWith OrderStatus.PREPARING PaymentStatus.PENDING)
    = (Return {| result_message := "Order cancelled successfully";
                 result_orderNumber :=
                   order_orderNumber (Sample.order1 OrderStatus.PREPARING) |}, db')
    /\ orders db'
       = <["order-1" := order']>
           (orders (Sample.dbWith OrderStatus.PREPARING PaymentStatus.PENDING))
    /\ order_status order' = OrderStatus.CANCELLED
    /\ order_cancelledAt order' = Some 300
    /\ order_cancellationReason order'
       = assign (Some "Out of stock")
           (order_cancellationReason (Sample.order1 OrderStatus.PREPARING))
    /\ order_statusHistory order'
       = order_statusHistory (Sample.order1 OrderStatus.PREPARING)
         ++ [mkStatusHistoryEntry OrderStatus.CANCELLED 300
               (or_default (Some "Out of stock") "Order cancelled")]
    /\ order_paymentStatus order'
       = order_paymentStatus (Sample.order1 OrderStatus.PREPARING)
    /\ payments db'
       = payments (Sample.dbWith OrderStatus.PREPARING PaymentStatus.PENDING)
    /\ forall productId,
         product_orderCount <$> products db' !! productId
         = product_orderCount
             <$> products (Sample.dbWith OrderStatus.PREPARING PaymentStatus.PENDING)
                   !! productId.
Proof.
  apply (cancelOrder_by_owner 300 "order-1" (mkCancelOrderDto (Some "Out of stock"))
           "user-1" (Sample.dbWith OrderStatus.PREPARING PaymentStatus.PENDING)
           (Sample.order1 OrderStatus.PREPARING) "merchant-1" (mkMerchant "user-1")
           (mkStore "merchant-1" StoreStatus.ACTIVE true));
    try (vm_compute; reflexivity).
  intros Hin. apply (bool_decide_pack _) in Hin. vm_compute in Hin. exact Hin.
Defined.

(** X8. While an order is still [PLACED], any caller can cancel it: one
    who presents no user id, or any user id at all (the order's lines
    referring to existing rows). The order becomes [CANCELLED]. *)
Theorem cancelOrder_while_placed now orderId dto userId db order :
  orders db !! orderId = Some order ->
  order_status order = OrderStatus.PLACED ->
  forallb (itemReferencesHold db) (order_items order) = true ->
  exists db',
    cancelOrder now orderId dto userId db
    = (Return {| result_message := "Order cancelled successfully";
                 result_orderNumber := order_orderNumber order |}, db')
    /\ order_status <$> orders db' !! orderId = Some OrderStatus.CANCELLED.
Proof.
  intros Horder Hplaced Hrefs.
  destruct (cancelOrder_runs now orderId dto userId db order Horder)
    as (order' & db' & Hcancel & Horders & Hstatus & _); try done.
  - rewrite Hplaced. intros Hin. apply (bool_decide_pack _) in Hin. exact Hin.
  - unfold merchantOnlyCheck. by rewrite Hplaced.
  - exists db'. split; [exact Hcancel|].
    by rewrite Horders, lookup_insert_eq, <- Hstatus.
Qed.

Lemma cancelOrder_while_placed_witness :
  exists db',
    cancelOrder 300 "order-1" (mkCancelOrderDto None) (Some "user-7")
      (Sample.dbWith OrderStatus.PLACED PaymentStatus.PENDING)
    = (Return {| result_message := "Order cancelled successfully";
                 result_orderNumber :=
                   order_orderNumber (Sample.order1 OrderStatus.PLACED) |}, db')
    /\ order_status <$> orders db' !! "order-1" = Some OrderStatus.CANCELLED.
Proof.
  apply (cancelOrder_while_placed 300 "order-1" (mkCancelOrderDto None)
           (Some "user-7") (Sample.dbWith OrderStatus.PLACED PaymentStatus.PENDING)
           (Sample.order1 OrderStatus.PLACED));
    vm_compute; reflexivity.
Defined.



(** ** Status updates: what they refuse and what they leave alone *)

(** X10. A status update whose body carries no status is always refused:
    [updateOrderStatus] throws and the store is the one it was given. For
    the owning merchant the error is "Cannot transition from <current> to
    undefined". *)
Theorem updateOrderStatus_requires_status now userId orderId dto db :
  dto_status dto = None ->
  (exists e, updateOrderStatus now userId orderId dto db = (Throw e, db))
  /\ forall order merchantId merchant store,
       orders db !! orderId = Some order ->
       merchant_findUnique_userId db userId = Some (merchantId, merchant) ->
       stores db !! order_storeId order = Some store ->
       store_merchantId store = merchantId ->
       updateOrderStatus now userId orderId dto db
       = (Throw (BadRequestException
                   ("Cannot transition from "
                    +:+ OrderStatus.to_string (order_status order)
                    +:+ " to undefined")), db).
Proof.
  intros Hstatus. unfold updateOrderStatus, validateStatusTransition.
  rewrite Hstatus. cbn [includesStatus negb statusText]. split.
  - destruct (orders db !! orderId) as [order|]; [|by eexists].
    destruct (merchant_findUnique_userId db userId) as [[merchantId merchant]|];
      [|by eexists].
    destruct (stores db !! order_storeId order) as [store|]; [|by eexists].
    destruct (negb _); by eexists.
  - intros order merchantId merchant store -> -> -> ->.
    by rewrite String.eqb_refl.
Qed.

Lemma updateOrderStatus_requires_status_witness :
  (exists e,
     updateOrderStatus 200 "user-1" "order-1"
       (mkUpdateOrderStatusDto None (Some "note") None)
       (Sample.dbWith OrderStatus.ACCEPTED PaymentStatus.PENDING)
     = (Throw e, Sample.dbWith OrderStatus.ACCEPTED PaymentStatus.PENDING))
  /\ forall order merchantId merchant store,
       orders (Sample.dbWith OrderStatus.ACCEPTED PaymentStatus.PENDING) !! "order-1"
       = Some order ->
       merchant_findUnique_userId
         (Sample.dbWith OrderStatus.ACCEPTED PaymentStatus.PENDING) "user-1"
       = Some (merchantId, merchant) ->
       stores (Sample.dbWith OrderStatus.ACCEPTED PaymentStatus.PENDING)
         !! order_storeId order = Some store ->
       store_merchantId store = merchantId ->
       updateOrderStatus 200 "user-1" "order-1"
         (mkUpdateOrderStatusDto None (Some "note") None)
         (Sample.dbWith OrderStatus.ACCEPTED PaymentStatus.PENDING)
       = (Throw (BadRequestException
                   ("Cannot transition from "
                    +:+ OrderStatus.to_string (order_status order)
                    +:+ " to undefined")),
          Sample.dbWith OrderStatus.ACCEPTED PaymentStatus.PENDING).
Proof.
  apply (updateOrderStatus_requires_status 200 "user-1" "order-1"
           (mkUpdateOrderStatusDto None (Some "note") None)
           (Sample.dbWith OrderStatus.ACCEPTED PaymentStatus.PENDING)).
  reflexivity.
Defined.

(** X11. [CANCELLED] and [DISPUTED] are final for status updates: whoever
    calls and whatever status is requested, [updateOrderStatus] on such an
    order throws and the store is the one it was given. *)
Theorem updateOrderStatus_final_statuses now userId orderId dto db order :
  orders db !! orderId = Some order ->
  order_status order ∈ [OrderStatus.CANCELLED; OrderStatus.DISPUTED] ->
  exists e, updateOrderStatus now userId orderId dto db = (Throw e, db).
Proof.
  intros Horder Hfinal. unfold updateOrderStatus. rewrite Horder.
  destruct (merchant_findUnique_userId db userId) as [[merchantId merchant]|];
    [|by eexists].
  destruct (stores db !! order_storeId order) as [store|]; [|by eexists].
  destruct (negb _); [by eexists|].
  unfold validateStatusTransition.
  assert (Hnone : validTransitions (order_status order) = []).
  { apply elem_of_cons in Hfinal as [->|Hfinal]; [reflexivity|].
    apply elem_of_cons in Hfinal as [->|Hfinal]; [reflexivity|].
    by apply elem_of_nil in Hfinal. }
  rewrite Hnone.
  destruct (dto_status dto) as [s|]; cbn [includesStatus negb].
  - rewrite bool_decide_eq_false_2 by apply not_elem_of_nil. by eexists.
  - by eexists.
Qed.

Lemma updateOrderStatus_final_statuses_witness :
  exists e,
    updateOrderStatus 200 "user-1" "order-1"
      (mkUpdateOrderStatusDto (Some OrderStatus.PLACED) None None)
      (Sample.dbWith OrderStatus.CANCELLED PaymentStatus.PENDING)
    = (Throw e, Sample.dbWith OrderStatus.CANCELLED PaymentStatus.PENDING).
Proof.
  apply (updateOrderStatus_final_statuses 200 "user-1" "order-1"
           (mkUpdateOrderStatusDto (Some OrderStatus.PLACED) None None)
           (Sample.dbWith OrderStatus.CANCELLED PaymentStatus.PENDING)
           (Sample.order1 OrderStatus.CANCELLED)).
  - vm_compute; reflexivity.
  - apply (bool_decide_unpack _). vm_compute. exact I.
Defined.


(** X13. A caller who is not the merchant owning the order's store (a
    user with no merchant profile, or the merchant of another store)
    cannot update the status: [updateOrderStatus] throws "You do not own
    this order" and the store is the one it was given. *)
Theorem updateOrderStatus_foreign_user now userId orderId dto db order store :
  orders db !! orderId = Some order ->
  stores db !! order_storeId order = Some store ->
  (forall merchantId merchant,
     merchant_findUnique_userId db userId = Some (merchantId, merchant) ->
     store_merchantId store <> merchantId) ->
  updateOrderStatus now userId orderId dto db
  = (Throw (ForbiddenException "You do not own this order"), db).
Proof.
  intros Horder Hstore Hforeign. unfold updateOrderStatus. rewrite Horder.
  destruct (merchant_findUnique_userId db userId) as [[merchantId merchant]|] eqn:Hm;
    [|reflexivity].
  rewrite Hstore.
  destruct (String.eqb_spec (store_merchantId store) merchantId) as [Heq|Hne];
    [|reflexivity].
  by destruct (Hforeign merchantId merchant).
Qed.

Lemma updateOrderStatus_foreign_user_witness :
  updateOrderStatus 200 "user-7" "order-1"
    (mkUpdateOrderStatusDto (Some OrderStatus.PREPARING) None None)
    (Sample.dbWith OrderStatus.ACCEPTED PaymentStatus.PENDING)
  = (Throw (ForbiddenException "You do not own this order"),
     Sample.dbWith OrderStatus.ACCEPTED PaymentStatus.PENDING).
Proof.
  apply (updateOrderStatus_foreign_user 200 "user-7" "order-1"
           (mkUpdateOrderStatusDto (Some OrderStatus.PREPARING) None None)
           (Sample.dbWith OrderStatus.ACCEPTED PaymentStatus.PENDING)
           (Sample.order1 OrderStatus.ACCEPTED)
           (mkStore "merchant-1" StoreStatus.ACTIVE true)).
  - vm_compute; reflexivity.
  - vm_compute; reflexivity.
  - intros merchantId merchant Hm. vm_compute in Hm. discriminate.
Defined.

(** ** Delivery fees and order numbers *)


(** X15. [generateOrderNumber] returns the first candidate that no order
    carries: every candidate drawn before it is taken, the one returned is
    free. It runs out of candidates exactly when all of them are taken. *)
Theorem generateOrderNumber_first_free db draws :
  match generateOrderNumber db draws with
  | Some orderNumber =>
      exists taken rest,
        draws = taken ++ orderNumber :: rest
        /\ Forall (fun c => is_Some (order_findUnique_orderNumber db c)) taken
        /\ order_findUnique_orderNumber db orderNumber = None
  | None => Forall (fun c => is_Some (order_findUnique_orderNumber db c)) draws
  end.
Proof.
  induction draws as [|candidate draws IH]; cbn; [constructor|].
  destruct (order_findUnique_orderNumber db candidate) as [row|] eqn:Hfind.
  - destruct (generateOrderNumber db draws) as [orderNumber|].
    + destruct IH as (taken & rest & -> & Htaken & Hfree).
      exists (candidate :: taken), rest. repeat split; [|exact Hfree].
      constructor; [by rewrite Hfind | exact Htaken].
    + constructor; [by rewrite Hfind | exact IH].
  - exists [], draws. repeat split; [constructor | exact Hfind].
Qed.


(** ** Webhooks: what an authentic delivery does *)

(** X16. An authentic webhook (the signature matches) whose body does not
    parse throws and changes nothing; one whose event is not
    "charge.success" (transfer events, unknown events), or whose
    "charge.success" names a reference no payment carries, is acknowledged
    with "success" and changes nothing. *)
Theorem handleWebhook_acknowledges paystack JSON_parse now signature body db :
  verifyWebhookSignature paystack signature body = true ->
  (JSON_parse body = None ->
   handleWebhook paystack JSON_parse now signature body db
   = (Throw (InternalServerError "SyntaxError"), db))
  /\ (forall event,
        JSON_parse body = Some event ->
        event_event event <> "charge.success" ->
        handleWebhook paystack JSON_parse now signature body db
        = (Return "success", db))
  /\ (forall event,
        JSON_parse body = Some event ->
        payment_findFirst_paystackReference db (data_reference (event_data event))
        = None ->
        handleWebhook paystack JSON_parse now signature body db
        = (Return "success", db)).
Proof.
  intros Hsig. unfold handleWebhook. rewrite Hsig. cbn [negb].
  split; [by intros ->|]. split.
  - intros event -> Hevent.
    by destruct (String.eqb_spec (event_event event) "charge.success").
  - intros event -> Hnone. unfold handleChargeSuccess. rewrite Hnone.
    by destruct (String.eqb _ _).
Qed.

Lemma handleWebhook_acknowledges_witness :
  (Sample.parse "raw body" = None ->
   handleWebhook (Sample.paystack "success") Sample.parse 50
     (Some "sk_test:raw body") "raw body" Sample.db0
   = (Throw (InternalServerError "SyntaxError"), Sample.db0))
  /\ (forall event,
        Sample.parse "raw body" = Some event ->
        event_event event <> "charge.success" ->
        handleWebhook (Sample.paystack "success") Sample.parse 50
          (Some "sk_test:raw body") "raw body" Sample.db0
        = (Return "success", Sample.db0))
  /\ (forall event,
        Sample.parse "raw body" = Some event ->
        payment_findFirst_paystackReference Sample.db0
          (data_reference (event_data event)) = None ->
        handleWebhook (Sample.paystack "success") Sample.parse 50
          (Some "sk_test:raw body") "raw body" Sample.db0
        = (Return "success", Sample.db0)).
Proof.
  apply (handleWebhook_acknowledges (Sample.paystack "success") Sample.parse 50
           (Some "sk_test:raw body") "raw body" Sample.db0).
  vm_compute; reflexivity.
Defined.

(** With unique references, a payment found by reference after its row
    was rewritten is that row. *)
Lemma findFirst_after_update db id payment payment' reference id' found :
  uniqueReferences db ->
  payments db !! id = Some payment ->
  payment_paystackReference payment = reference ->
  payment_paystackReference payment' = reference ->
  findFirst (fun p => String.eqb (payment_paystackReference p) reference)
            (<[id := payment']> (payments db)) = Some (id', found) ->
  found = payment'.
Proof.
  intros Hunique Hrow Hreference Hreference' Hfind.
  apply findFirst_Some in Hfind as [Hfound Href].
  apply String.eqb_eq in Href.
  rewrite lookup_insert in Hfound. case_decide as Hid; [congruence|].
  destruct Hid. symmetry.
  apply (Hunique id' found Hfound id payment Hrow). congruence.
Qed.

(** X17. Redelivery is harmless on the webhook path. With references
    unique (the index on [paystackReference]), once an authentic delivery
    has been handled and acknowledged, handling the same delivery again, at
    any later instant, is acknowledged and changes nothing. *)
Theorem handleWebhook_redelivery paystack JSON_parse now now' signature body db r db1 :
  uniqueReferences db ->
  handleWebhook paystack JSON_parse now signature body db = (Return r, db1) ->
  handleWebhook paystack JSON_parse now' signature body db1
  = (Return "success", db1).
Proof.
  intros Hunique. unfold handleWebhook.
  destruct (negb _); [discriminate|].
  destruct (JSON_parse body) as [event|]; [|discriminate].
  destruct (String.eqb _ _); [|by intros [= _ <-]].
  unfold handleChargeSuccess.
  destruct (payment_findFirst_paystackReference db _)
    as [[id payment]|] eqn:Hfind.
  2:{ intros [= _ <-]. by rewrite Hfind. }
  case_bool_decide as Hpending.
  2:{ intros [= _ <-]. rewrite Hfind. by rewrite bool_decide_eq_false_2. }
  pose proof (findFirst_Some _ _ _ _ Hfind) as [Hrow Href].
  apply String.eqb_eq in Href.
  rewrite (applyWrite_PaymentUpdate _ _ _ _ Hrow).
  cbn [applyWrite orders with_payments].
  destruct (orders db !! payment_orderId payment) as [order|]; [|discriminate].
  cbn [mbind option_bind]. intros [= _ <-].
  unfold payment_findFirst_paystackReference.
  cbn [payments with_orders with_payments].
  destruct (findFirst _ _) as [[id' found]|] eqn:Hagain; [|reflexivity].
  apply (findFirst_after_update db id payment _ _ id' found Hunique Hrow Href)
    in Hagain; [|exact Href].
  subst found. by rewrite bool_decide_eq_false_2.
Qed.

Lemma handleWebhook_redelivery_witness :
  handleWebhook (Sample.paystack "success") Sample.parse 90
    (Some "sk_test:raw body") "raw body"
    (handleWebhook (Sample.paystack "success") Sample.parse 50
       (Some "sk_test:raw body") "raw body"
       (Sample.dbWith OrderStatus.PLACED PaymentStatus.PENDING)).2
  = (Return "success",
     (handleWebhook (Sample.paystack "success") Sample.parse 50
        (Some "sk_test:raw body") "raw body"
        (Sample.dbWith OrderStatus.PLACED PaymentStatus.PENDING)).2).
Proof.
  apply (handleWebhook_redelivery (Sample.paystack "success") Sample.parse 50 90
           (Some "sk_test:raw body") "raw body"
           (Sample.dbWith OrderStatus.PLACED PaymentStatus.PENDING) "success").
  - apply (bool_decide_unpack _). vm_compute. exact I.
  - vm_compute; reflexivity.
Defined.

(** X18. A confirmation does not look at the order. When the webhook path
    finds the payment [PENDING] and its order exists, in whatever status
    (also [CANCELLED] or [DELIVERED]), the order is set to [PREPARING] with
    payment [COMPLETED] and [paidAt] the instant of the call, while its
    status history, its timestamps (also [preparingAt]) and its lines stay
    as they were; no product or variant row is touched. *)
Theorem handleChargeSuccess_moves_any_order now data db id payment order :
  payment_findFirst_paystackReference db (data_reference data) = Some (id, payment) ->
  payment_status payment = PaymentStatus.PENDING ->
  orders db !! payment_orderId payment = Some order ->
  exists order' db',
    handleChargeSuccess now data db = (Return (), db')
    /\ orders db' = <[payment_orderId payment := order']> (orders db)
    /\ order_status order' = OrderStatus.PREPARING
    /\ order_paymentStatus order' = PaymentStatus.COMPLETED
    /\ order_paidAt order' = Some now
    /\ order_statusHistory order' = order_statusHistory order
    /\ timestamps order' = timestamps order
    /\ order_items order' = order_items order
    /\ products db' = products db
    /\ productVariants db' = productVariants db.
Proof.
  intros Hfind Hpending Horder. unfold handleChargeSuccess.
  rewrite Hfind, Hpending, bool_decide_eq_true_2 by reflexivity.
  apply findFirst_Some in Hfind as [Hrow _].
  rewrite (applyWrite_PaymentUpdate _ _ _ _ Hrow).
  cbn [applyWrite orders with_payments]. rewrite Horder.
  cbn [mbind option_bind]. eexists _, _. split; [reflexivity|].
  repeat split.
Qed.

Lemma handleChargeSuccess_moves_any_order_witness :
  exists order' db',
    handleChargeSuccess 50 (Sample.charge "success")
      (Sample.dbWith OrderStatus.CANCELLED PaymentStatus.PENDING)
    = (Return (), db')
    /\ orders db'
       = <[payment_orderId (Sample.payment1 PaymentStatus.PENDING) := order']>
           (orders (Sample.dbWith OrderStatus.CANCELLED PaymentStatus.PENDING))
    /\ order_status order' = OrderStatus.PREPARING
    /\ order_paymentStatus order' = PaymentStatus.COMPLETED
    /\ order_paidAt order' = Some 50
    /\ order_statusHistory order'
       = order_statusHistory (Sample.order1 OrderStatus.CANCELLED)
    /\ timestamps order' = timestamps (Sample.order1 OrderStatus.CANCELLED)
    /\ order_items order' = order_items (Sample.order1 OrderStatus.CANCELLED)
    /\ products db'
       = products (Sample.dbWith OrderStatus.CANCELLED PaymentStatus.PENDING)
    /\ productVariants db'
       = productVariants (Sample.dbWith OrderStatus.CANCELLED PaymentStatus.PENDING).
Proof.
  apply (handleChargeSuccess_moves_any_order 50 (Sample.charge "success")
           (Sample.dbWith OrderStatus.CANCELLED PaymentStatus.PENDING)
           "payment-1" (Sample.payment1 PaymentStatus.PENDING)
           (Sample.order1 OrderStatus.CANCELLED));
    vm_compute; reflexivity.
Defined.

(** ** The poll path: errors and what a failed poll leaves behind *)

(** X19. [verifyPayment] asks the processor first: when that call fails
    its exception is passed on, and when the reference is not one of a
    stored payment the call throws "Payment not found"; in both cases the
    store is the one it was given. *)
Theorem verifyPayment_errors paystack now reference db :
  (forall e,
     verifyTransaction paystack reference = Throw e ->
     verifyPayment paystack now reference db = (Throw e, db))
  /\ (forall paystackData,
        verifyTransaction paystack reference = Return paystackData ->
        payment_findFirst_paystackReference db reference = None ->
        verifyPayment paystack now reference db
        = (Throw (NotFoundException "Payment not found"), db)).
Proof.
  unfold verifyPayment. split.
  - by intros e ->.
  - by intros paystackData -> ->.
Qed.

Lemma verifyPayment_errors_witness :
  verifyPayment (Sample.paystack "success") 50 "ORD-unknown" Sample.db0
  = (Throw (NotFoundException "Payment not found"), Sample.db0).
Proof.
  apply (verifyPayment_errors (Sample.paystack "success") 50 "ORD-unknown"
           Sample.db0 ) with (paystackData := Sample.charge "success");
    vm_compute; reflexivity.
Defined.

(** X20. A poll that is answered with anything but "success" settles the
    payment as [FAILED], and with references unique the webhook path then
    ignores it: a later charge.success delivery for the same reference
    returns without a write, so the payment stays [FAILED] and the order is
    not marked paid. *)
Theorem failed_poll_blocks_webhook paystack now now' reference paystackData data db
  id payment :
  uniqueReferences db ->
  verifyTransaction paystack reference = Return paystackData ->
  isSuccess paystackData = false ->
  payment_findFirst_paystackReference db reference = Some (id, payment) ->
  data_reference data = reference ->
  payment_status <$> payments (verifyPayment paystack now reference db).2 !! id
  = Some PaymentStatus.FAILED
  /\ orders (verifyPayment paystack now reference db).2 = orders db
  /\ handleChargeSuccess now' data (verifyPayment paystack now reference db).2
     = (Return (), (verifyPayment paystack now reference db).2).
Proof.
  intros Hunique Hverify Hfailed Hfind Hdata. unfold verifyPayment.
  rewrite Hverify, Hfind.
  pose proof (findFirst_Some _ _ _ _ Hfind) as [Hrow Href].
  apply String.eqb_eq in Href.
  rewrite (applyWrite_PaymentUpdate _ _ _ _ Hrow), Hfailed.
  cbn [snd payments orders with_payments]. split; [|split; [reflexivity|]].
  - rewrite lookup_insert_eq. cbn. unfold verifyPaymentUpdate. by rewrite Hfailed.
  - unfold handleChargeSuccess, payment_findFirst_paystackReference.
    rewrite Hdata. cbn [payments with_payments].
    destruct (findFirst _ _) as [[id' found]|] eqn:Hagain; [|reflexivity].
    apply (findFirst_after_update db id payment _ _ id' found Hunique Hrow Href)
      in Hagain; [|exact Href].
    subst found. rewrite bool_decide_eq_false_2; [reflexivity|].
    cbn. unfold verifyPaymentUpdate. rewrite Hfailed. discriminate.
Qed.

Lemma failed_poll_blocks_webhook_witness :
  payment_status <$>
    payments (verifyPayment (Sample.paystack "abandoned") 50 Sample.reference1
                (Sample.dbWith OrderStatus.PLACED PaymentStatus.PENDING)).2
      !! "payment-1" = Some PaymentStatus.FAILED
  /\ orders (verifyPayment (Sample.paystack "abandoned") 50 Sample.reference1
               (Sample.dbWith OrderStatus.PLACED PaymentStatus.PENDING)).2
     = orders (Sample.dbWith OrderStatus.PLACED PaymentStatus.PENDING)
  /\ handleChargeSuccess 90 (Sample.charge "success")
       (verifyPayment (Sample.paystack "abandoned") 50 Sample.reference1
          (Sample.dbWith OrderStatus.PLACED PaymentStatus.PENDING)).2
     = (Return (),
        (verifyPayment (Sample.paystack "abandoned") 50 Sample.reference1
           (Sample.dbWith OrderStatus.PLACED PaymentStatus.PENDING)).2).
Proof.
  apply (failed_poll_blocks_webhook (Sample.paystack "abandoned") 50 90
           Sample.reference1 (Sample.charge "abandoned") (Sample.charge "success")
           (Sample.dbWith OrderStatus.PLACED PaymentStatus.PENDING)
           "payment-1" (Sample.payment1 PaymentStatus.PENDING));
    try (vm_compute; reflexivity).
  apply (bool_decide_unpack _). vm_compute. exact I.
Defined.

(** ** Payment initialization *)

Import PaymentInitialization.

Lemma findFirst_None {A} (P : A -> bool) (table : gmap string A) id row :
  findFirst P table = None -> table !! id = Some row -> P row = false.
Proof.
  unfold findFirst. intros Hnone Hrow.
  apply (find_none _ _ Hnone (id, row)).
  by apply list_elem_of_In, elem_of_map_to_list.
Qed.

Lemma findFirst_is_Some {A} (P : A -> bool) (table : gmap string A) id row :
  table !! id = Some row -> P row = true -> is_Some (findFirst P table).
Proof.
  intros Hrow HP. destruct (findFirst P table) as [found|] eqn:Hfind; [by eexists|].
  rewrite (findFirst_None _ _ _ _ Hfind Hrow) in HP. discriminate.
Qed.



(** X22. When the order exists, one of email and phone matches, the
    payment is not [COMPLETED], the merchant has an account (verified and
    active or not), the processor opens the transaction asked for under the
    reference "ORD-<order number>-<clock>" and no payment row stands in the
    way, [initializePayment] adds exactly one payment row: [PENDING], for
    the order total, under that reference, with both flags down. Orders,
    products and the other payment rows are as they were, and what is
    returned is the new row with the processor's URL, access code and
    reference. *)
Theorem initializePayment_creates
  accounts initializeTransaction newId now dto db order store merchant account
  transaction :
  orders db !! dto_orderId dto = Some order ->
  order_customerEmail order = Some (dto_email dto)
  \/ order_customerPhone order = dto_phone dto ->
  order_paymentStatus order <> PaymentStatus.COMPLETED ->
  stores db !! order_storeId order = Some store ->
  merchants db !! store_merchantId store = Some merchant ->
  accounts !! store_merchantId store = Some account ->
  initializeTransaction
    (transactionParams dto order (store_merchantId store) account
       (newReference order now)) = Return transaction ->
  payments db !! newId = None ->
  payment_findFirst_orderId db (dto_orderId dto) = None ->
  payment_findFirst_paystackReference db (newReference order now) = None ->
  initializePayment accounts initializeTransaction newId now dto db
  = (Return {| result_newPayment := (newId, newPayment dto order (newReference order now));
               result_authorization_url := transaction_authorization_url transaction;
               result_access_code := transaction_access_code transaction;
               result_reference := transaction_reference transaction |},
     with_payments (insert newId (newPayment dto order (newReference order now))) db)
  /\ payment_status (newPayment dto order (newReference order now))
     = PaymentStatus.PENDING
  /\ payment_amount (newPayment dto order (newReference order now))
     = order_total order.
Proof.
  intros Horder Hmatch Hunpaid Hstore Hmerchant Haccount Hopen Hfresh Hnone Hnew.
  unfold initializePayment. rewrite Horder.
  assert (Hcontact :
    negb (bool_decide (order_customerEmail order = Some (dto_email dto)))
    && negb (String.eqb (order_customerPhone order) (dto_phone dto)) = false).
  { destruct Hmatch as [Hemail|Hphone].
    - by rewrite bool_decide_eq_true_2.
    - apply String.eqb_eq in Hphone. rewrite Hphone. apply andb_false_r. }
  rewrite Hcontact, bool_decide_eq_false_2 by exact Hunpaid.
  rewrite Hstore, Hmerchant, Haccount, Hopen.
  unfold payment_create.
  change (payment_orderId (newPayment dto order (newReference order now)))
    with (dto_orderId dto).
  change (payment_paystackReference (newPayment dto order (newReference order now)))
    with (newReference order now).
  rewrite Hfresh, Hnone, Hnew, Horder.
  rewrite !bool_decide_eq_false_2 by (intros [? ?]; discriminate).
  rewrite bool_decide_eq_true_2 by (by eexists).
  done.
Qed.

Lemma initializePayment_creates_witness :
  initializePayment MoreSamples.accounts MoreSamples.opens "payment-9" 1700
    (MoreSamples.payOrder1 "ama@example.com" "0244123456") MoreSamples.unpaid
  = (Return
       {| result_newPayment :=
            ("payment-9",
             newPayment (MoreSamples.payOrder1 "ama@example.com" "0244123456")
               (Sample.order1 OrderStatus.PLACED)
               (newReference (Sample.order1 OrderStatus.PLACED) 1700));
          result_authorization_url := "https://checkout.example/abc";
          result_access_code := "abc";
          result_reference := "ORD-ORD-00000001001-1700" |},
     with_payments
       (insert "payment-9"
          (newPayment (MoreSamples.payOrder1 "ama@example.com" "0244123456")
             (Sample.order1 OrderStatus.PLACED)
             (newReference (Sample.order1 OrderStatus.PLACED) 1700)))
       MoreSamples.unpaid)
  /\ payment_status
       (newPayment (MoreSamples.payOrder1 "ama@example.com" "0244123456")
          (Sample.order1 OrderStatus.PLACED)
          (newReference (Sample.order1 OrderStatus.PLACED) 1700))
     = PaymentStatus.PENDING
  /\ payment_amount
       (newPayment (MoreSamples.payOrder1 "ama@example.com" "0244123456")
          (Sample.order1 OrderStatus.PLACED)
          (newReference (Sample.order1 OrderStatus.PLACED) 1700))
     = order_total (Sample.order1 OrderStatus.PLACED).
Proof.
  apply (initializePayment_creates MoreSamples.accounts MoreSamples.opens
           "payment-9" 1700 (MoreSamples.payOrder1 "ama@example.com" "0244123456")
           MoreSamples.unpaid (Sample.order1 OrderStatus.PLACED)
           (mkStore "merchant-1" StoreStatus.ACTIVE true) (mkMerchant "user-1")
           (mkPaystackAccount (Some "ACCT_sample") true true)
           (mkPaystackTransaction "https://checkout.example/abc" "abc"
              "ORD-ORD-00000001001-1700"));
    [vm_compute; reflexivity | right; reflexivity | discriminate
    | vm_compute; reflexivity ..].
Defined.

(** X23. An order gets one payment row and no second one: when a payment
    row for the order exists, in whatever status (also [FAILED]),
    [initializePayment] for that order always throws and the store is the
    one it was given. *)
Theorem initializePayment_one_per_order
  accounts initializeTransaction newId now dto db id payment :
  payments db !! id = Some payment ->
  payment_orderId payment = dto_orderId dto ->
  exists e,
    initializePayment accounts initializeTransaction newId now dto db = (Throw e, db).
Proof.
  intros Hrow Hsame. unfold initializePayment.
  destruct (orders db !! dto_orderId dto) as [order|]; [|by eexists].
  destruct (_ && _); [by eexists|].
  destruct (bool_decide _); [by eexists|].
  destruct (stores db !! _) as [store|]; [|by eexists].
  destruct (merchants db !! _) as [merchant|]; [|by eexists].
  destruct (accounts !! _) as [account|]; [|by eexists].
  destruct (initializeTransaction _) as [transaction|]; [|by eexists].
  unfold payment_create.
  change (payment_orderId (newPayment dto order (newReference order now)))
    with (dto_orderId dto).
  rewrite (bool_decide_eq_true_2
             (is_Some (payment_findFirst_orderId db (dto_orderId dto)))).
  - rewrite orb_true_r. cbn [orb]. by eexists.
  - apply (findFirst_is_Some _ _ id payment Hrow). by apply String.eqb_eq.
Qed.

Lemma initializePayment_one_per_order_witness :
  exists e,
    initializePayment MoreSamples.accounts MoreSamples.opens "payment-9" 1700
      (MoreSamples.payOrder1 "ama@example.com" "0244123456")
      (Sample.dbWith OrderStatus.PLACED PaymentStatus.FAILED)
    = (Throw e, Sample.dbWith OrderStatus.PLACED PaymentStatus.FAILED).
Proof.
  apply (initializePayment_one_per_order MoreSamples.accounts MoreSamples.opens
           "payment-9" 1700 (MoreSamples.payOrder1 "ama@example.com" "0244123456")
           (Sample.dbWith OrderStatus.PLACED PaymentStatus.FAILED)
           "payment-1" (Sample.payment1 PaymentStatus.FAILED));
    vm_compute; reflexivity.
Defined.

Lemma uniqueReferences_insert_same db id payment payment' :
  uniqueReferences db ->
  payments db !! id = Some payment ->
  payment_paystackReference payment' = payment_paystackReference payment ->
  uniqueReferences (with_payments (insert id payment') db).
Proof.
  intros Hunique Hrow Hsame id1 p1 H1 id2 p2 H2 Href. cbn in H1, H2.
  destruct (decide (id1 = id)) as [->|Hid1], (decide (id2 = id)) as [->|Hid2];
    [done|..].
  - rewrite lookup_insert_eq in H1. rewrite lookup_insert_ne in H2 by done.
    injection H1 as <-.
    apply (Hunique id payment Hrow id2 p2 H2). by rewrite <- Hsame.
  - rewrite lookup_insert_eq in H2. rewrite lookup_insert_ne in H1 by done.
    injection H2 as <-.
    apply (Hunique id1 p1 H1 id payment Hrow). by rewrite <- Hsame.
  - rewrite lookup_insert_ne in H1, H2 by done.
    by apply (Hunique id1 p1 H1 id2 p2 H2).
Qed.

Lemma applyWrite_uniqueReferences w db db' :
  applyWrite w db = Some db' -> uniqueReferences db -> uniqueReferences db'.
Proof.
  intros Hw Hunique. unfold uniqueReferences.
  pose proof (applyWrite_payments _ _ _ Hw) as Hpayments.
  destruct w; try (by rewrite Hpayments).
  destruct Hpayments as (payment & Hrow & ->).
  exact (uniqueReferences_insert_same db id payment
           (applyPaymentUpdate data payment) Hunique Hrow eq_refl).
Qed.

(** X24. No two payment rows share a reference, before and after: the
    three payment methods ([initializePayment], [verifyPayment],
    [handleWebhook]) keep the references of the payment rows unique. *)
Theorem payment_methods_keep_references_unique db :
  uniqueReferences db ->
  (forall accounts initializeTransaction newId now dto,
     uniqueReferences
       (initializePayment accounts initializeTransaction newId now dto db).2)
  /\ (forall paystack now reference,
        uniqueReferences (verifyPayment paystack now reference db).2)
  /\ (forall paystack JSON_parse now signature body,
        uniqueReferences (handleWebhook paystack JSON_parse now signature body db).2).
Proof.
  intros Hunique. split; [|split].
  - intros accounts initializeTransaction newId now dto. unfold initializePayment.
    repeat (case_match; try exact Hunique).
    cbn [snd]. unfold payment_create in *.
    match goal with H : (if ?c then None else Some _) = Some _ |- _ =>
      destruct c eqn:Hchecks; [discriminate|]; injection H as <- end.
    apply orb_false_iff in Hchecks as [Hchecks _].
    apply orb_false_iff in Hchecks as [Hchecks Hreference].
    apply orb_false_iff in Hchecks as [Hfresh _].
    apply bool_decide_eq_false in Hfresh, Hreference.
    intros id1 p1 Hp1 id2 p2 Hp2 Href. cbn in Hp1, Hp2.
    destruct (decide (id1 = newId)) as [->|Hid1],
             (decide (id2 = newId)) as [->|Hid2]; [done|..].
    + rewrite lookup_insert_eq in Hp1. rewrite lookup_insert_ne in Hp2 by done.
      injection Hp1 as <-. destruct Hreference.
      apply (findFirst_is_Some _ _ id2 p2 Hp2). apply String.eqb_eq.
      by rewrite <- Href.
    + rewrite lookup_insert_eq in Hp2. rewrite lookup_insert_ne in Hp1 by done.
      injection Hp2 as <-. destruct Hreference.
      apply (findFirst_is_Some _ _ id1 p1 Hp1). by apply String.eqb_eq.
    + rewrite lookup_insert_ne in Hp1, Hp2 by done.
      by apply (Hunique id1 p1 Hp1 id2 p2 Hp2).
  - intros paystack now reference. unfold verifyPayment.
    repeat (case_match; try exact Hunique); cbn [snd];
      eauto using applyWrite_uniqueReferences.
  - intros paystack JSON_parse now signature body.
    unfold handleWebhook, handleChargeSuccess.
    repeat (case_match; try exact Hunique); simplify_eq; cbn [snd];
      eauto using applyWrite_uniqueReferences.
Qed.

Lemma payment_methods_keep_references_unique_witness :
  uniqueReferences
    (verifyPayment (Sample.paystack "success") 50 Sample.reference1
       (Sample.dbWith OrderStatus.PLACED PaymentStatus.PENDING)).2.
Proof.
  apply (payment_methods_keep_references_unique
           (Sample.dbWith OrderStatus.PLACED PaymentStatus.PENDING)).
  apply (bool_decide_unpack _). vm_compute. exact I.
Defined.

(** ** Listings *)

Lemma elem_of_storeIdsOf db merchantId storeId :
  storeId ∈ OrdersQueries.storeIdsOf db merchantId
  <-> exists store,
        stores db !! storeId = Some store /\ store_merchantId store = merchantId.
Proof.
  unfold OrdersQueries.storeIdsOf. rewrite list_elem_of_fmap. split.
  - intros ([id store] & -> & Hin).
    apply elem_of_map_to_list, map_lookup_filter_Some in Hin as [Hstore Howner].
    by exists store.
  - intros (store & Hstore & Howner). exists (storeId, store). split; [done|].
    by apply elem_of_map_to_list, map_lookup_filter_Some.
Qed.

Lemma ordersWhere_store storeIds query o :
  OrdersQueries.ordersWhere storeIds query o = true -> order_storeId o ∈ storeIds.
Proof.
  unfold OrdersQueries.ordersWhere. rewrite !andb_true_iff.
  intros [[[[Hstore _] _] _] _].
  destruct (truthy (OrdersQueries.query_storeId query) && _) eqn:Hnamed.
  - apply andb_true_iff in Hnamed as [_ Hown].
    apply String.eqb_eq in Hstore. rewrite Hstore.
    by apply bool_decide_eq_true in Hown.
  - by apply bool_decide_eq_true in Hstore.
Qed.

Lemma ceilDiv_bounds total limit :
  0 <= total -> 1 <= limit ->
  (OrdersQueries.ceilDiv total limit - 1) * limit < total
  <= OrdersQueries.ceilDiv total limit * limit.
Proof.
  intros Htotal Hlimit. unfold OrdersQueries.ceilDiv.
  pose proof (Z.div_mod (total + limit - 1) limit ltac:(lia)) as Hdiv.
  pose proof (Z.mod_pos_bound (total + limit - 1) limit ltac:(lia)) as Hmod.
  nia.
Qed.

(** X25. [getOrders] lists a merchant's own orders only. A caller with no
    merchant row is refused with Forbidden. For a merchant, whatever the
    filters (also a [storeId] that names another merchant's store, which
    the code ignores rather than rejects) and whatever order the database
    returns the rows in, every row in the answer is a stored order of a
    store that belongs to a merchant row of the caller. *)
Theorem getOrders_own_stores orderBy userId query db :
  (forall sortBy sortOrder rows, orderBy sortBy sortOrder rows ≡ₚ rows) ->
  (merchant_findUnique_userId db userId = None ->
   OrdersQueries.getOrders orderBy userId query db
   = Throw (ForbiddenException "Only merchants can access this endpoint"))
  /\ (forall rows pagination id order,
        OrdersQueries.getOrders orderBy userId query db = Return (rows, pagination) ->
        (id, order) ∈ rows ->
        orders db !! id = Some order
        /\ exists store merchant,
             stores db !! order_storeId order = Some store
             /\ merchants db !! store_merchantId store = Some merchant
             /\ merchant_userId merchant = userId).
Proof.
  intros Hsort. unfold OrdersQueries.getOrders. split.
  - by intros ->.
  - intros rows pagination id order.
    destruct (merchant_findUnique_userId db userId) as [[merchantId merchant]|] eqn:Hm;
      [|discriminate].
    apply findFirst_Some in Hm as [Hmerchant Huser]. apply String.eqb_eq in Huser.
    intros [= <- _] Hin.
    pose proof (elem_of_sublist _ _ _ Hin (sublist_take _ _)) as Hin'.
    clear Hin. rename Hin' into Hin.
    pose proof (elem_of_sublist _ _ _ Hin (sublist_drop _ _)) as Hin'.
    clear Hin. rename Hin' into Hin.
    rewrite Hsort in Hin.
    apply list_elem_of_In, filter_In in Hin as [Hin Hwhere].
    apply list_elem_of_In, elem_of_map_to_list in Hin. split; [done|].
    apply ordersWhere_store, elem_of_storeIdsOf in Hwhere as (store & Hstore & <-).
    by exists store, merchant.
Qed.

Lemma getOrders_own_stores_witness :
  orders MoreSamples.twoMerchants !! "order-1"
  = Some (Sample.order1 OrderStatus.PLACED)
  /\ exists store merchant,
       stores MoreSamples.twoMerchants
         !! order_storeId (Sample.order1 OrderStatus.PLACED) = Some store
       /\ merchants MoreSamples.twoMerchants !! store_merchantId store = Some merchant
       /\ merchant_userId merchant = "user-1".
Proof.
  apply (proj2 (getOrders_own_stores MoreSamples.unsorted "user-1"
                  MoreSamples.foreignStoreQuery MoreSamples.twoMerchants
                  (fun sortBy sortOrder rows => reflexivity rows))
           [("order-1", Sample.order1 OrderStatus.PLACED)]
           (OrdersQueries.mkPagination 1 1 20 1)
           "order-1" (Sample.order1 OrderStatus.PLACED)).
  - vm_compute. reflexivity.
  - left.
Defined.

(** X26. Paging of [getOrders], for a page and a limit of at least 1: the
    answer has at most [limit] rows; [total] counts the orders that match
    the filters, whatever the page; [totalPages] is the least number of
    pages of [limit] rows that hold [total] rows; and the page is empty
    exactly when its number exceeds [totalPages]. *)
Theorem getOrders_paging orderBy userId query db rows pagination :
  (forall sortBy sortOrder found, orderBy sortBy sortOrder found ≡ₚ found) ->
  1 <= default 1 (OrdersQueries.query_page query) ->
  1 <= default 20 (OrdersQueries.query_limit query) ->
  OrdersQueries.getOrders orderBy userId query db = Return (rows, pagination) ->
  let limit := default 20 (OrdersQueries.query_limit query) in
  let page := default 1 (OrdersQueries.query_page query) in
  Z.of_nat (length rows) <= limit
  /\ (exists merchantId merchant,
        merchant_findUnique_userId db userId = Some (merchantId, merchant)
        /\ OrdersQueries.pagination_total pagination
           = Z.of_nat (length (List.filter
               (fun row : string * Order =>
                  OrdersQueries.ordersWhere (OrdersQueries.storeIdsOf db merchantId)
                    query row.2)
               (map_to_list (orders db)))))
  /\ (OrdersQueries.pagination_totalPages pagination - 1) * limit
     < OrdersQueries.pagination_total pagination
     <= OrdersQueries.pagination_totalPages pagination * limit
  /\ (rows = [] <-> OrdersQueries.pagination_totalPages pagination < page).
Proof.
  intros Hsort Hpage Hlimit. unfold OrdersQueries.getOrders.
  destruct (merchant_findUnique_userId db userId) as [[merchantId merchant]|];
    [|discriminate].
  intros [= <- <-]. cbn zeta.
  cbn [OrdersQueries.pagination_total OrdersQueries.pagination_totalPages].
  set (limit := default 20 (OrdersQueries.query_limit query)) in *.
  set (page := default 1 (OrdersQueries.query_page query)) in *.
  set (found := List.filter _ _).
  set (sorted := orderBy _ _ found).
  assert (Hlength : length sorted = length found)
    by (apply Permutation_length, Hsort).
  pose proof (ceilDiv_bounds (Z.of_nat (length found)) limit ltac:(lia) Hlimit)
    as Hceil.
  split; [|split; [|split]].
  - rewrite length_take. lia.
  - by exists merchantId, merchant.
  - exact Hceil.
  - rewrite <- length_zero_iff_nil, length_take, length_drop, Hlength. nia.
Qed.

Lemma getOrders_paging_witness :
  let rows := [("order-1", Sample.order1 OrderStatus.PLACED)] in
  let pagination := OrdersQueries.mkPagination 1 1 20 1 in
  Z.of_nat (length rows) <= 20
  /\ (exists merchantId merchant,
        merchant_findUnique_userId MoreSamples.twoMerchants "user-1"
        = Some (merchantId, merchant)
        /\ OrdersQueries.pagination_total pagination
           = Z.of_nat (length (List.filter
               (fun row : string * Order =>
                  OrdersQueries.ordersWhere
                    (OrdersQueries.storeIdsOf MoreSamples.twoMerchants merchantId)
                    MoreSamples.foreignStoreQuery row.2)
               (map_to_list (orders MoreSamples.twoMerchants)))))
  /\ (OrdersQueries.pagination_totalPages pagination - 1) * 20
     < OrdersQueries.pagination_total pagination
     <= OrdersQueries.pagination_totalPages pagination * 20
  /\ (rows = [] <-> OrdersQueries.pagination_totalPages pagination < 1).
Proof.
  apply (getOrders_paging MoreSamples.unsorted "user-1" MoreSamples.foreignStoreQuery
           MoreSamples.twoMerchants).
  - intros sortBy sortOrder found. reflexivity.
  - simpl. lia.
  - simpl. lia.
  - vm_compute. reflexivity.
Defined.

(** X27. [getCustomerOrders] answers with at most fifty rows, each an
    order recorded under the phone asked for; when that phone has at most
    fifty orders the answer holds all of them. No caller identity
    enters. *)
Theorem getCustomerOrders_of_phone orderBy customerPhone db :
  (forall sortBy sortOrder rows, orderBy sortBy sortOrder rows ≡ₚ rows) ->
  let rows := OrdersQueries.getCustomerOrders orderBy customerPhone db in
  (length rows <= 50)%nat
  /\ (forall id order,
        (id, order) ∈ rows ->
        orders db !! id = Some order /\ order_customerPhone order = customerPhone)
  /\ ((length (List.filter
                 (fun row : string * Order =>
                    String.eqb (order_customerPhone row.2) customerPhone)
                 (map_to_list (orders db))) <= 50)%nat ->
      forall id order,
        orders db !! id = Some order ->
        order_customerPhone order = customerPhone ->
        (id, order) ∈ rows).
Proof.
  intros Hsort. cbn zeta. unfold OrdersQueries.getCustomerOrders.
  split; [|split].
  - rewrite length_take. lia.
  - intros id order Hin.
    pose proof (elem_of_sublist _ _ _ Hin (sublist_take _ _)) as Hin'.
    clear Hin. rename Hin' into Hin. rewrite Hsort in Hin.
    apply list_elem_of_In, filter_In in Hin as [Hin Hphone].
    apply list_elem_of_In, elem_of_map_to_list in Hin.
    by apply String.eqb_eq in Hphone.
  - intros Hfew id order Horder Hphone.
    rewrite take_ge by (by rewrite (Permutation_length (Hsort _ _ _))).
    rewrite Hsort. apply list_elem_of_In, filter_In. split.
    + by apply list_elem_of_In, elem_of_map_to_list.
    + by apply String.eqb_eq.
Qed.

Lemma getCustomerOrders_of_phone_witness :
  let rows :=
    OrdersQueries.getCustomerOrders MoreSamples.unsorted "0244123456"
      MoreSamples.twoMerchants in
  (length rows <= 50)%nat
  /\ (forall id order,
        (id, order) ∈ rows ->
        orders MoreSamples.twoMerchants !! id = Some order
        /\ order_customerPhone order = "0244123456")
  /\ ((length (List.filter
                 (fun row : string * Order =>
                    String.eqb (order_customerPhone row.2) "0244123456")
                 (map_to_list (orders MoreSamples.twoMerchants))) <= 50)%nat ->
      forall id order,
        orders MoreSamples.twoMerchants !! id = Some order ->
        order_customerPhone order = "0244123456" ->
        (id, order) ∈ rows).
Proof.
  apply (getCustomerOrders_of_phone MoreSamples.unsorted "0244123456"
           MoreSamples.twoMerchants).
  intros sortBy sortOrder rows. reflexivity.
Defined.

(** X28. [getOrderById] hands the order to every caller: for an order
    that exists (with its store) the answer is the order itself whatever
    user id is presented, none included; the caller's identity decides the
    [isMerchant] flag alone, which is raised only for a user id that has
    the merchant row owning the order's store. *)
Theorem getOrderById_public orderId userId db order store :
  orders db !! orderId = Some order ->
  stores db !! order_storeId order = Some store ->
  exists isMerchant,
    OrdersQueries.getOrderById orderId userId db = Return (orderId, order, isMerchant)
    /\ (isMerchant = true ->
        exists user merchant,
          userId = Some user
          /\ merchants db !! store_merchantId store = Some merchant
          /\ merchant_userId merchant = user)
    /\ (truthy userId = false -> isMerchant = false).
Proof.
  intros Horder Hstore. unfold OrdersQueries.getOrderById. rewrite Horder.
  destruct (truthy userId) eqn:Huser; [|by exists false].
  destruct userId as [user|]; [|discriminate].
  change (default "" (Some user)) with user.
  destruct (merchant_findUnique_userId db user) as [[merchantId merchant]|] eqn:Hm;
    [|by exists false].
  rewrite Hstore. eexists. split; [done|]. split; [|done].
  intros Howner. apply String.eqb_eq in Howner.
  apply findFirst_Some in Hm as [Hmerchant Hsame]. apply String.eqb_eq in Hsame.
  exists user, merchant. by rewrite Howner.
Qed.

Lemma getOrderById_public_witness :
  exists isMerchant,
    OrdersQueries.getOrderById "order-2" (Some "user-1") MoreSamples.twoMerchants
    = Return ("order-2",
              default (Sample.order1 OrderStatus.PLACED)
                (orders MoreSamples.twoMerchants !! "order-2"),
              isMerchant)
    /\ (isMerchant = true ->
        exists user merchant,
          Some "user-1" = Some user
          /\ merchants MoreSamples.twoMerchants !! "merchant-2" = Some merchant
          /\ merchant_userId merchant = user)
    /\ (truthy (Some "user-1") = false -> isMerchant = false).
Proof.
  apply (getOrderById_public "order-2" (Some "user-1") MoreSamples.twoMerchants
           (default (Sample.order1 OrderStatus.PLACED)
              (orders MoreSamples.twoMerchants !! "order-2"))
           (mkStore "merchant-2" StoreStatus.ACTIVE true));
    vm_compute; reflexivity.
Defined.

(** ** From initialization to settlement *)

Lemma findFirst_unique {A} (P : A -> bool) (table : gmap string A) id row :
  table !! id = Some row -> P row = true ->
  (forall id' row', table !! id' = Some row' -> P row' = true -> id' = id) ->
  findFirst P table = Some (id, row).
Proof.
  intros Hrow HP Honly.
  destruct (findFirst_is_Some P table id row Hrow HP) as [[id' row'] Hfind].
  rewrite Hfind. apply findFirst_Some in Hfind as [Hrow' HP'].
  pose proof (Honly id' row' Hrow' HP') as ->. congruence.
Qed.

(** X29. A payment that [initializePayment] has opened is settled by the
    first webhook delivery of a successful charge carrying the payment's
    reference, and by that one only. After the delivery the payment row
    is [COMPLETED], verified at the time of the delivery, flagged
    [webhookReceived], and still for the order's total; the order is
    marked paid at that time and [PREPARING]. A further delivery with the
    same reference, whatever else it carries, changes nothing. *)
Theorem initializePayment_then_charge_success
  accounts initializeTransaction newId now dto db result db1 now' data :
  initializePayment accounts initializeTransaction newId now dto db
  = (Return result, db1) ->
  data_reference data = payment_paystackReference (result_newPayment result).2 ->
  exists db2 order payment,
    handleChargeSuccess now' data db1 = (Return (), db2)
    /\ orders db2 !! dto_orderId dto = Some order
    /\ order_paymentStatus order = PaymentStatus.COMPLETED
    /\ order_paidAt order = Some now'
    /\ order_status order = OrderStatus.PREPARING
    /\ payments db2 !! newId = Some payment
    /\ payment_orderId payment = dto_orderId dto
    /\ payment_status payment = PaymentStatus.COMPLETED
    /\ payment_verifiedAt payment = Some now'
    /\ payment_webhookReceived payment = true
    /\ payment_amount payment = order_total order
    /\ forall now'' data',
         data_reference data' = data_reference data ->
         handleChargeSuccess now'' data' db2 = (Return (), db2).
Proof.
  unfold initializePayment.
  destruct (orders db !! dto_orderId dto) as [order|] eqn:Horder; [|discriminate].
  destruct (_ && _); [discriminate|].
  destruct (bool_decide _); [discriminate|].
  destruct (stores db !! _) as [store|]; [|discriminate].
  destruct (merchants db !! _) as [merchant|]; [|discriminate].
  destruct (accounts !! _) as [account|]; [|discriminate].
  destruct (initializeTransaction _) as [transaction|]; [|discriminate].
  unfold payment_create.
  match goal with |- context [if ?c then None else Some _] =>
    destruct c eqn:Hchecks; [discriminate|] end.
  apply orb_false_iff in Hchecks as [Hchecks _].
  apply orb_false_iff in Hchecks as [Hchecks Hreference].
  apply orb_false_iff in Hchecks as [Hfresh _].
  apply bool_decide_eq_false in Hfresh, Hreference.
  intros [= <- <-]. cbn [result_newPayment snd].
  set (reference := newReference order now) in *.
  set (opened := newPayment dto order reference) in *.
  change (payment_paystackReference opened) with reference in *.
  intros Hdata.
  set (settled := applyPaymentUpdate (chargeSuccessUpdate now' data) opened).
  assert (Honly : forall current : Payment,
    payment_paystackReference current = reference ->
    findFirst (fun p => String.eqb (payment_paystackReference p) reference)
              (<[newId := current]> (payments db)) = Some (newId, current)).
  { intros current Hcurrent. apply findFirst_unique.
    - by rewrite lookup_insert_eq.
    - by apply String.eqb_eq.
    - intros id' row' Hrow' Hsame.
      destruct (decide (id' = newId)) as [|Hother]; [done|].
      rewrite lookup_insert_ne in Hrow' by done.
      destruct Hreference. by apply (findFirst_is_Some _ _ id' row' Hrow'). }
  exists (with_orders (insert (dto_orderId dto)
                         (applyOrderUpdate (paidOrderUpdate now') order))
            (with_payments (insert newId settled)
               (with_payments (insert newId opened) db))),
    (applyOrderUpdate (paidOrderUpdate now') order), settled.
  split; [|repeat split].
  - unfold handleChargeSuccess, payment_findFirst_paystackReference.
    rewrite Hdata. cbn [payments with_payments].
    rewrite (Honly opened eq_refl). cbn [payment_status opened newPayment].
    rewrite bool_decide_eq_true_2 by done.
    cbn [applyWrite payments with_payments orders with_orders].
    rewrite lookup_insert_eq. cbn [mbind option_bind].
    cbn [orders with_payments payment_orderId opened newPayment].
    rewrite Horder. reflexivity.
  - cbn [orders with_orders]. by rewrite lookup_insert_eq.
  - cbn [payments with_orders with_payments]. by rewrite lookup_insert_eq.
  - intros now'' data' Hdata'.
    unfold handleChargeSuccess, payment_findFirst_paystackReference.
    rewrite Hdata', Hdata. cbn [payments with_orders with_payments].
    rewrite insert_insert_eq.
    rewrite (Honly settled eq_refl).
    by rewrite bool_decide_eq_false_2.
Qed.

Lemma initializePayment_then_charge_success_witness :
  exists db2 order payment,
    handleChargeSuccess 1800
      (mkPaystackData "ORD-ORD-00000001001-1700" "success" "Approved")
      (initializePayment MoreSamples.accounts MoreSamples.opens "payment-9" 1700
         (MoreSamples.payOrder1 "ama@example.com" "0244123456")
         MoreSamples.unpaid).2
    = (Return (), db2)
    /\ orders db2 !! "order-1" = Some order
    /\ order_paymentStatus order = PaymentStatus.COMPLETED
    /\ order_paidAt order = Some 1800
    /\ order_status order = OrderStatus.PREPARING
    /\ payments db2 !! "payment-9" = Some payment
    /\ payment_orderId payment = "order-1"
    /\ payment_status payment = PaymentStatus.COMPLETED
    /\ payment_verifiedAt payment = Some 1800
    /\ payment_webhookReceived payment = true
    /\ payment_amount payment = order_total order
    /\ forall now'' data',
         data_reference data'
         = data_reference (mkPaystackData "ORD-ORD-00000001001-1700" "success" "Approved") ->
         handleChargeSuccess now'' data' db2 = (Return (), db2).
Proof.
  apply (initializePayment_then_charge_success MoreSamples.accounts MoreSamples.opens
           "payment-9" 1700 (MoreSamples.payOrder1 "ama@example.com" "0244123456")
           MoreSamples.unpaid
           {| result_newPayment :=
                ("payment-9",
                 newPayment (MoreSamples.payOrder1 "ama@example.com" "0244123456")
                   (Sample.order1 OrderStatus.PLACED)
                   (newReference (Sample.order1 OrderStatus.PLACED) 1700));
              result_authorization_url := "https://checkout.example/abc";
              result_access_code := "abc";
              result_reference := "ORD-ORD-00000001001-1700" |}
           (initializePayment MoreSamples.accounts MoreSamples.opens "payment-9" 1700
              (MoreSamples.payOrder1 "ama@example.com" "0244123456")
              MoreSamples.unpaid).2
           1800 (mkPaystackData "ORD-ORD-00000001001-1700" "success" "Approved"));
    vm_compute; reflexivity.
Defined.
